(** * phidata: resource-graph builders of [ServerBase] and the conversation
      event logger

    A shallow embedding of
    - [src/phi/api/conversation.py] ([log_conversation_event]) and
    - [src/phidata/app/server/server_base.py] ([ServerBase.get_docker_rg],
      [ServerBase.get_k8s_rg], [ServerBase.get_aws_rg]),
    followed by the properties of the specification that concern them.

    Python dictionaries are finite maps ([gmap]), [d.update(e)] is the
    left-biased union [e ∪ d], Python sets are [gset]s, and [Optional[T]] is
    [option T].  A builder either returns a graph, returns [None], or raises:
    see [outcome]. *)

From Stdlib Require Import ZArith DecimalString.
From stdpp Require Import base option list strings gmap fin_maps fin_sets.

Set Warnings "-register-all".

Local Open Scope string_scope.
Local Open Scope Z_scope.
Local Open Scope list_scope.

(** ** Python values and control *)

(** Values of type [Any]: what ends up in label maps, port maps and the
    literal dictionaries handed to Docker and boto3. *)
Inductive PyVal : Type :=
| PNone
| PBool (b : bool)
| PInt (z : Z)
| PStr (s : string)
| PTuple (items : list PyVal)
| PList (items : list PyVal)
| PDict (items : list (string * PyVal)).

(** [Dict[str, Any]] and [Dict[str, str]]. *)
Abbreviation Dict := (gmap string PyVal).
Abbreviation StrDict := (gmap string string).

(** The exceptions that matter here.  [except Exception] catches every class
    but the ones that derive from [BaseException] only. *)
Inductive PyError : Type :=
| ValueError (msg : string)
| TypeError (msg : string)
| KeyError (msg : string)
| OtherException (cls msg : string)
| NonException (cls : string).

Definition is_Exception (e : PyError) : bool :=
  match e with
  | NonException _ => false
  | _ => true
  end.

(** The result of a call that may raise. *)
Inductive call (A : Type) : Type :=
| Returns (a : A)
| Raises (e : PyError).
Arguments Returns {A} a.
Arguments Raises {A} e.

(** [try: body / except Exception as e: handler]. *)
Definition try_except_Exception {A} (body : call A) (handler : PyError -> call A) : call A :=
  match body with
  | Returns a => Returns a
  | Raises e => if is_Exception e then handler e else Raises e
  end.

(** Sequencing: an exception of the first call skips the rest. *)
#[global] Instance call_bind : MBind call := fun A B k c =>
  match c with
  | Returns a => k a
  | Raises e => Raises e
  end.

(** What a builder does: it returns a graph ([Built]), returns [None]
    ([Absent]) or lets an exception escape ([Raised]). *)
Inductive outcome (A : Type) : Type :=
| Built (a : A)
| Absent
| Raised (e : PyError).
Arguments Built {A} a.
Arguments Absent {A}.
Arguments Raised {A} e.

(** [str(b)], [str(n)] and f-string interpolation of an integer. *)
Definition str_bool (b : bool) : string := if b then "True" else "False".
Definition str_int (z : Z) : string := NilZero.string_of_int (Z.to_int z).

(** Truthiness of the values that occur on the left of [or] and in [if]. *)
Definition truthy_str (s : string) : bool := negb (String.eqb s "").
Definition truthy_dict {V} (d : gmap string V) : bool := bool_decide (size d ≠ 0%nat).
Definition truthy_list {A} (l : list A) : bool := bool_decide (length l ≠ 0%nat).

(** [a or b] for an optional left operand: [a] itself when it is truthy. *)
Definition py_or {A} (truthy : A -> bool) (a : option A) (b : A) : A :=
  match a with
  | Some x => if truthy x then x else b
  | None => b
  end.

(** [a or b] when [b] may be [None] too. *)
Definition py_or_opt {A} (truthy : A -> bool) (a b : option A) : option A :=
  match a with
  | Some x => if truthy x then Some x else b
  | None => b
  end.

(** [xs if len(xs) > 0 else None]. *)
Definition list_or_None {A} (xs : list A) : option (list A) :=
  if truthy_list xs then Some xs else None.
Definition dict_or_None {V} (d : gmap string V) : option (gmap string V) :=
  if truthy_dict d then Some d else None.

(** [d.update(e)] when [e] may be [None] (the source guards the call). *)
Definition update_opt {V} (d : gmap string V) (e : option (gmap string V)) : gmap string V :=
  match e with
  | Some e => e ∪ d
  | None => d
  end.

(** *** Aliasing

    [x = self.args.f or {}] binds [x] to the very object stored in the field
    when that object is truthy, and to a new empty object otherwise.  A later
    [x[k] = v], [x.append(v)] or [x.update(..)] then changes the field's
    object in the first case and a private object in the second.  A local
    name is therefore kept together with where its object came from, and
    [store_back] gives the field's content once the builder is done with the
    name. *)
Inductive origin : Type := FromField | FreshObject.

Definition origin_of {A} (truthy : A -> bool) (field : option A) : origin :=
  match field with
  | Some x => if truthy x then FromField else FreshObject
  | None => FreshObject
  end.

Definition store_back {A} (field : option A) (o : origin) (final : A) : option A :=
  match o with
  | FromField => Some final
  | FreshObject => field
  end.

(** ** The conversation event logger ([src/phi/api/conversation.py]) *)

Module Conversation.

Section Logger.
(** [ConversationEventCreate], [ConversationWorkspace], [httpx.Response] and
    [ConversationResponseSchema] are declared outside [src/]. *)
Context {ConversationEventCreate ConversationWorkspace Response
         ConversationResponseSchema : Type}.

(** The collaborators of the logger: the CLI settings, the API client and
    the pydantic schemas. *)
Record Api : Type := {
  (** [phi_cli_settings.api_enabled] *)
  api_enabled : bool;
  (** [ApiRoutes.CONVERSATION_EVENT] *)
  CONVERSATION_EVENT : string;
  (** [model_dump(exclude_none=True)] of the two arguments *)
  event_model_dump : ConversationEventCreate -> PyVal;
  workspace_model_dump : ConversationWorkspace -> PyVal;
  (** [api_client.post(route, json=...)] *)
  post : string -> PyVal -> call Response;
  (** [invalid_response(r)] *)
  invalid_response : Response -> bool;
  (** [r.json()] *)
  json : Response -> call PyVal;
  (** [ConversationResponseSchema.model_validate(response_json)] *)
  model_validate : PyVal -> call (option ConversationResponseSchema);
}.

Variable api : Api.

(** The body of the [try] block; [Returns None] is also what falling off the
    end of the block leads to, since the function ends in [return None]. *)
Definition log_conversation_event_try
    (conversation : ConversationEventCreate) (workspace : ConversationWorkspace)
  : call (option ConversationResponseSchema) :=
  r ← post api (CONVERSATION_EVENT api)
        (PDict [("event", event_model_dump api conversation);
                ("workspace", workspace_model_dump api workspace)]) ;
  if invalid_response api r then Returns None else
  response_json ← json api r ;
  match response_json with
  | PNone => Returns None
  | _ =>
    conversation_response ← model_validate api response_json ;
    match conversation_response with
    | Some cr => Returns (Some cr)
    | None => Returns None
    end
  end.

Definition log_conversation_event
    (conversation : ConversationEventCreate) (workspace : ConversationWorkspace)
  : call (option ConversationResponseSchema) :=
  if negb (api_enabled api) then Returns None else
  (* with api.Client() as api_client: the client is [post] below; leaving
     the block closes it and lets an exception pass *)
  try_except_Exception
    (log_conversation_event_try conversation workspace)
    (fun e => (* logger.debug(...) *) Returns None).

(** The request the logger sends. *)
Definition event_request
    (conversation : ConversationEventCreate) (workspace : ConversationWorkspace)
  : call Response :=
  post api (CONVERSATION_EVENT api)
    (PDict [("event", event_model_dump api conversation);
            ("workspace", workspace_model_dump api workspace)]).

(** The one way to a parsed response: telemetry is enabled, the request
    returns a response that is not classified invalid, its JSON body is not
    [None], and validation returns the schema. *)
Definition event_accepted
    (conversation : ConversationEventCreate) (workspace : ConversationWorkspace)
    (s : ConversationResponseSchema) : Prop :=
  api_enabled api = true ∧
  ∃ r j, event_request conversation workspace = Returns r ∧
         invalid_response api r = false ∧
         json api r = Returns j ∧ j ≠ PNone ∧
         model_validate api j = Returns (Some s).

End Logger.
Arguments Api : clear implicits.

End Conversation.

(** ** Data model of [src/phidata/app/server/server_base.py]

    Each class is a module with a record [t]; the fields are the keyword
    arguments the builders pass, so that a record expression reads like the
    constructor call it stands for.  A record holds the value an argument had
    when the constructor ran. *)

(** *** Enumerations and small unions *)

(** [phidata.app.phidata_app.WorkspaceVolumeType].  The builders compare with
    [HostPath] and [EmptyDir] only; any further member is [OtherVolumeType]. *)
Inductive WorkspaceVolumeType : Type :=
| HostPath
| EmptyDir
| OtherVolumeType (value : string).

Inductive ImagePullPolicy : Type := PULL_ALWAYS | IF_NOT_PRESENT | PULL_NEVER.
Inductive RestartPolicy : Type := ALWAYS | ON_FAILURE | NEVER.
Inductive ServiceType : Type := CLUSTER_IP | NODE_PORT | LOAD_BALANCER.
Inductive VolumeType : Type := EMPTY_DIR | HOST_PATH.

(** [Union[str, List]] of [entrypoint] and [command]. *)
Inductive StrOrList : Type :=
| AStr (s : string)
| AList (l : list string).

(** [Union[str, int]] of [container_user] and [service_target_port]. *)
Inductive StrOrInt : Type :=
| IsStr (s : string)
| IsInt (z : Z).

Definition truthy_StrOrInt (v : StrOrInt) : bool :=
  match v with
  | IsStr s => truthy_str s
  | IsInt z => negb (z =? 0)
  end.

(** [[x] if isinstance(x, str) else x]. *)
Definition as_list (x : option StrOrList) : option (list string) :=
  match x with
  | Some (AStr s) => Some [s]
  | Some (AList l) => Some l
  | None => None
  end.

(** [pathlib.Path]: the builders use [str(p)] and [p.stem]. *)
Record Path : Type := { path_str : string; stem : string }.

(** [phidata.types.context.ContainerPathContext]. *)
Record ContainerPathContext : Type := {
  workspace_root : string;
  workspace_parent : string;
  scripts_dir : string;
  storage_dir : string;
  meta_dir : string;
  products_dir : string;
  notebooks_dir : string;
  workflows_dir : string;
  workspace_config_dir : string;
  requirements_file : string;
}.

(** A [DockerImage] given through [image]; the builders only pass it on. *)
Record DockerImage : Type := { image_ref : string }.

(** *** Kubernetes descriptors ([phidata.k8s.create]) *)

Module CreatePort.
Record t : Type := {
  name : string;
  container_port : Z;
  service_port : Z;
  target_port : StrOrInt;
}.
End CreatePort.

Module HostPathVolumeSource.
Record t : Type := { path : string }.
End HostPathVolumeSource.

Module CreateVolume.
Record t : Type := {
  volume_name : string;
  app_name : string;
  mount_path : string;
  volume_type : VolumeType;
  host_path : option HostPathVolumeSource.t;
}.
End CreateVolume.

Module CreateContainer.
Record t : Type := {
  container_name : string;
  app_name : string;
  image_name : string;
  image_tag : string;
  args : option (list string);
  command : option (list string);
  image_pull_policy : option ImagePullPolicy;
  env : option Dict;
  envs_from_configmap : option (list string);
  envs_from_secret : option (list string);
  ports : option (list CreatePort.t);
  volumes : option (list CreateVolume.t);
  labels : option Dict;
}.
End CreateContainer.

Module CreateNamespace.
Record t : Type := {
  ns : string;
  app_name : string;
  labels : option Dict;
}.
End CreateNamespace.

Module CreateServiceAccount.
Record t : Type := {
  sa_name : string;
  app_name : string;
  namespace : string;
}.
End CreateServiceAccount.

Module PolicyRule.
Record t : Type := {
  api_groups : list string;
  resources : list string;
  verbs : list string;
}.
End PolicyRule.

Module CreateClusterRole.
Record t : Type := {
  cr_name : string;
  rules : list PolicyRule.t;
  app_name : string;
  labels : option Dict;
}.
End CreateClusterRole.

Module CreateClusterRoleBinding.
Record t : Type := {
  crb_name : string;
  cr_name : string;
  service_account_name : string;
  app_name : string;
  namespace : string;
  labels : option Dict;
}.
End CreateClusterRoleBinding.

Module CreateConfigMap.
Record t : Type := {
  cm_name : string;
  app_name : string;
  namespace : string;
  data : StrDict;
  labels : option Dict;
}.
End CreateConfigMap.

Module CreateSecret.
Record t : Type := {
  secret_name : string;
  app_name : string;
  string_data : StrDict;
  namespace : string;
  labels : option Dict;
}.
End CreateSecret.

Module CreateDeployment.
Record t : Type := {
  deploy_name : string;
  pod_name : string;
  app_name : string;
  namespace : string;
  service_account_name : option string;
  replicas : Z;
  containers : list CreateContainer.t;
  init_containers : option (list CreateContainer.t);
  pod_node_selector : option StrDict;
  restart_policy : RestartPolicy;
  termination_grace_period_seconds : option Z;
  volumes : option (list CreateVolume.t);
  labels : Dict;
  pod_annotations : StrDict;
  topology_spread_key : option string;
  topology_spread_max_skew : option Z;
  topology_spread_when_unsatisfiable : option string;
}.
End CreateDeployment.

Module CreateService.
Record t : Type := {
  service_name : string;
  app_name : string;
  namespace : string;
  service_account_name : option string;
  service_type : option ServiceType;
  deployment : CreateDeployment.t;
  ports : option (list CreatePort.t);
  labels : Dict;
}.
End CreateService.

(** Descriptors the builder never constructs and only passes on from the
    [extra_*] options. *)
Record CreatePersistentVolume : Type := { pv_name : string }.
Record CreatePVC : Type := { pvc_name : string }.
Record CreateStorageClass : Type := { storage_class_name : string }.
Record CreateCustomObject : Type := { custom_object_name : string }.
Record CreateCustomResourceDefinition : Type := { crd_name : string }.

Module CreateK8sResourceGroup.
Record t : Type := {
  name : string;
  enabled : bool;
  ns : option CreateNamespace.t;
  sa : option CreateServiceAccount.t;
  cr : option CreateClusterRole.t;
  crb : option CreateClusterRoleBinding.t;
  secrets : option (list CreateSecret.t);
  config_maps : option (list CreateConfigMap.t);
  storage_classes : option (list CreateStorageClass);
  services : option (list CreateService.t);
  deployments : option (list CreateDeployment.t);
  custom_objects : option (list CreateCustomObject);
  crds : option (list CreateCustomResourceDefinition);
  pvs : option (list CreatePersistentVolume);
  pvcs : option (list CreatePVC);
}.
End CreateK8sResourceGroup.

(** [CreateK8sResourceGroup.create()] is not under [src/]: the
    [K8sResourceGroup] it returns is kept as the group it was made from. *)
Inductive K8sResourceGroup : Type :=
| create (group : CreateK8sResourceGroup.t).

Module K8sBuildContext.
Record t : Type := {
  namespace : string;
  service_account_name : option string;
  labels : option Dict;
}.
Definition with_labels (c : t) (l : option Dict) : t :=
  {| namespace := namespace c;
     service_account_name := service_account_name c;
     labels := l |}.
End K8sBuildContext.

(** *** Docker resources ([phidata.docker.resource.group]) *)

Module DockerBuildContext.
Record t : Type := { network : string }.
End DockerBuildContext.

Module DockerNetwork.
Record t : Type := { name : string }.
End DockerNetwork.

Module DockerContainer.
Record t : Type := {
  name : string;
  image : string;
  entrypoint : option StrOrList;
  command : option StrOrList;
  detach : bool;
  auto_remove : bool;
  healthcheck : option Dict;
  hostname : option string;
  labels : option Dict;
  environment : StrDict;
  network : string;
  platform : option string;
  ports : option Dict;
  remove : bool;
  restart_policy : option Dict;
  stdin_open : bool;
  tty : bool;
  user : option StrOrInt;
  volumes : option Dict;
  working_dir : option string;
  use_cache : bool;
}.
End DockerContainer.

Module DockerResourceGroup.
Record t : Type := {
  name : string;
  enabled : bool;
  network : DockerNetwork.t;
  containers : list DockerContainer.t;
  images : option (list DockerImage);
}.
End DockerResourceGroup.

(** *** AWS resources ([phidata.aws.resource.group]) *)

Module EcsCluster.
Record t : Type := {
  name : string;
  ecs_cluster_name : string;
  capacity_providers : list string;
  skip_create : bool;
  skip_delete : bool;
  wait_for_creation : bool;
  wait_for_deletion : bool;
}.
End EcsCluster.

Module LoadBalancer.
Record t : Type := {
  name : string;
  subnets : option (list string);
  security_groups : option (list string);
  skip_create : bool;
  skip_delete : bool;
  wait_for_creation : bool;
  wait_for_deletion : bool;
}.
End LoadBalancer.

Module TargetGroup.
Record t : Type := {
  name : string;
  port : Z;
  protocol : string;
  vpc_id : option string;
  target_type : string;
  skip_create : bool;
  skip_delete : bool;
  wait_for_creation : bool;
  wait_for_deletion : bool;
}.
End TargetGroup.

Module Listener.
Record t : Type := {
  name : string;
  protocol : string;
  port : Z;
  load_balancer : LoadBalancer.t;
  target_group : TargetGroup.t;
  skip_create : bool;
  skip_delete : bool;
  wait_for_creation : bool;
  wait_for_deletion : bool;
}.
End Listener.

Module EcsContainer.
Record t : Type := {
  name : string;
  image : string;
  port_mappings : list PyVal;
  command : option StrOrList;
  (** the dictionary whose items the builder turns into the list of
      [{"name": k, "value": v}] entries; the list follows the dictionary's
      insertion order, which a finite map does not record, so the field
      keeps the dictionary and fixes no order *)
  environment : StrDict;
  log_configuration : PyVal;
  skip_create : bool;
  skip_delete : bool;
  wait_for_creation : bool;
  wait_for_deletion : bool;
}.
End EcsContainer.

Module EcsTaskDefinition.
Record t : Type := {
  name : string;
  family : string;
  network_mode : string;
  cpu : string;
  memory : string;
  containers : list EcsContainer.t;
  requires_compatibilities : list string;
  skip_create : bool;
  skip_delete : bool;
  wait_for_creation : bool;
  wait_for_deletion : bool;
}.
End EcsTaskDefinition.

Module EcsService.
Record t : Type := {
  name : string;
  desired_count : Z;
  launch_type : string;
  cluster : EcsCluster.t;
  task_definition : EcsTaskDefinition.t;
  target_group : TargetGroup.t;
  target_container_name : string;
  target_container_port : Z;
  network_configuration : PyVal;
  force_delete : bool;
  force_new_deployment : bool;
  skip_create : bool;
  skip_delete : bool;
  wait_for_creation : bool;
  wait_for_deletion : bool;
}.
End EcsService.

Module AwsResourceGroup.
Record t : Type := {
  name : string;
  enabled : bool;
  ecs_clusters : list EcsCluster.t;
  ecs_task_definitions : list EcsTaskDefinition.t;
  ecs_services : list EcsService.t;
  load_balancers : list LoadBalancer.t;
  target_groups : list TargetGroup.t;
  listeners : list Listener.t;
}.
End AwsResourceGroup.

(** The build context a caller hands to a builder is typed [Any]. *)
Inductive BuildContext : Type :=
| NoneContext
| DockerContext (c : DockerBuildContext.t)
| K8sContext (c : K8sBuildContext.t)
| AwsContext
| OtherObject (repr : string).

(** *** The options of the app ([ServerBaseArgs])

    The fields are the options the three builders read, with the types and
    defaults of [ServerBase.__init__]; [secrets] is read by the inherited
    [set_container_env] only, and [git_sync_wait] is optional because the
    K8s builder tests it against [None].  The remaining options of [__init__] are used
    by inherited [PhidataApp] members alone, which appear through
    [PhidataApp.t] below. *)

Module ServerBaseArgs.
Record t : Type := {
  name : string;
  enabled : bool;
  image : option DockerImage;
  image_name : string;
  image_tag : string;
  entrypoint : option StrOrList;
  command : option StrOrList;
  install_requirements : bool;
  python_path : option string;
  add_python_path : option string;
  container_labels : option Dict;
  env : option StrDict;
  secrets : option StrDict;
  open_container_port : bool;
  container_port : Z;
  container_port_name : string;
  container_host_port : Z;
  mount_workspace : bool;
  workspace_volume_name : option string;
  workspace_volume_type : option WorkspaceVolumeType;
  workspace_volume_host_path : option string;
  create_git_sync_sidecar : bool;
  create_git_sync_init_container : bool;
  git_sync_image_name : string;
  git_sync_image_tag : string;
  git_sync_repo : option string;
  git_sync_branch : option string;
  git_sync_wait : option Z;
  container_detach : bool;
  container_auto_remove : bool;
  container_remove : bool;
  container_user : option StrOrInt;
  container_stdin_open : bool;
  container_tty : bool;
  container_healthcheck : option Dict;
  container_hostname : option string;
  container_platform : option string;
  container_working_dir : option string;
  container_volumes_docker : option Dict;
  container_ports_docker : option Dict;
  replicas : Z;
  secret_name : option string;
  configmap_name : option string;
  image_pull_policy : option ImagePullPolicy;
  pod_annotations : option StrDict;
  pod_node_selector : option StrDict;
  deploy_restart_policy : option RestartPolicy;
  deploy_labels : option Dict;
  termination_grace_period_seconds : option Z;
  topology_spread_key : option string;
  topology_spread_max_skew : option Z;
  topology_spread_when_unsatisfiable : option string;
  create_service : bool;
  service_type : option ServiceType;
  service_port : Z;
  service_target_port : option StrOrInt;
  service_labels : option Dict;
  use_rbac : bool;
  ns_name : option string;
  namespace : option CreateNamespace.t;
  sa_name : option string;
  service_account : option CreateServiceAccount.t;
  cr_name : option string;
  cluster_role : option CreateClusterRole.t;
  crb_name : option string;
  cluster_role_binding : option CreateClusterRoleBinding.t;
  extra_secrets : option (list CreateSecret.t);
  extra_configmaps : option (list CreateConfigMap.t);
  extra_services : option (list CreateService.t);
  extra_deployments : option (list CreateDeployment.t);
  extra_pvs : option (list CreatePersistentVolume);
  extra_pvcs : option (list CreatePVC);
  extra_containers : option (list CreateContainer.t);
  extra_init_containers : option (list CreateContainer.t);
  extra_ports : option (list CreatePort.t);
  extra_volumes : option (list CreateVolume.t);
  extra_storage_classes : option (list CreateStorageClass);
  extra_custom_objects : option (list CreateCustomObject);
  extra_crds : option (list CreateCustomResourceDefinition);
  ecs_cluster : option EcsCluster.t;
  ecs_launch_type : string;
  ecs_task_cpu : string;
  ecs_task_memory : string;
  ecs_service_count : Z;
  assign_public_ip : bool;
  elb : option LoadBalancer.t;
  aws_subnets : option (list string);
  aws_security_groups : option (list string);
  print_env_on_load : bool;
  skip_create : bool;
  skip_delete : bool;
  wait_for_creation : bool;
  wait_for_deletion : bool;
  use_cache : bool;
}.

(** The defaults of [ServerBase.__init__]. *)
Definition defaults : t := {|
  name := "server";
  enabled := true;
  image := None;
  image_name := "phidata/server";
  image_tag := "1.5.0";
  entrypoint := None;
  command := None;
  install_requirements := false;
  python_path := None;
  add_python_path := None;
  container_labels := None;
  env := None;
  secrets := None;
  open_container_port := false;
  container_port := 8080;
  container_port_name := "http";
  container_host_port := 8080;
  mount_workspace := false;
  workspace_volume_name := None;
  workspace_volume_type := None;
  workspace_volume_host_path := None;
  create_git_sync_sidecar := false;
  create_git_sync_init_container := true;
  git_sync_image_name := "k8s.gcr.io/git-sync";
  git_sync_image_tag := "v3.1.1";
  git_sync_repo := None;
  git_sync_branch := None;
  git_sync_wait := (Some 1);
  container_detach := true;
  container_auto_remove := true;
  container_remove := true;
  container_user := None;
  container_stdin_open := true;
  container_tty := true;
  container_healthcheck := None;
  container_hostname := None;
  container_platform := None;
  container_working_dir := None;
  container_volumes_docker := None;
  container_ports_docker := None;
  replicas := 1;
  secret_name := None;
  configmap_name := None;
  image_pull_policy := None;
  pod_annotations := None;
  pod_node_selector := None;
  deploy_restart_policy := None;
  deploy_labels := None;
  termination_grace_period_seconds := None;
  topology_spread_key := None;
  topology_spread_max_skew := None;
  topology_spread_when_unsatisfiable := None;
  create_service := false;
  service_type := None;
  service_port := 8000;
  service_target_port := None;
  service_labels := None;
  use_rbac := false;
  ns_name := None;
  namespace := None;
  sa_name := None;
  service_account := None;
  cr_name := None;
  cluster_role := None;
  crb_name := None;
  cluster_role_binding := None;
  extra_secrets := None;
  extra_configmaps := None;
  extra_services := None;
  extra_deployments := None;
  extra_pvs := None;
  extra_pvcs := None;
  extra_containers := None;
  extra_init_containers := None;
  extra_ports := None;
  extra_volumes := None;
  extra_storage_classes := None;
  extra_custom_objects := None;
  extra_crds := None;
  ecs_cluster := None;
  ecs_launch_type := "FARGATE";
  ecs_task_cpu := "256";
  ecs_task_memory := "512";
  ecs_service_count := 1;
  assign_public_ip := true;
  elb := None;
  aws_subnets := None;
  aws_security_groups := None;
  print_env_on_load := false;
  skip_create := false;
  skip_delete := false;
  wait_for_creation := true;
  wait_for_deletion := true;
  use_cache := true;
|}.

(** The options after [get_docker_rg] is done with the two dictionaries it
    binds local names to. *)
Definition with_docker_collections (a : t)
    (container_volumes_docker' : option Dict)
    (container_ports_docker' : option Dict) : t := {|
  name := name a;
  enabled := enabled a;
  image := image a;
  image_name := image_name a;
  image_tag := image_tag a;
  entrypoint := entrypoint a;
  command := command a;
  install_requirements := install_requirements a;
  python_path := python_path a;
  add_python_path := add_python_path a;
  container_labels := container_labels a;
  env := env a;
  secrets := secrets a;
  open_container_port := open_container_port a;
  container_port := container_port a;
  container_port_name := container_port_name a;
  container_host_port := container_host_port a;
  mount_workspace := mount_workspace a;
  workspace_volume_name := workspace_volume_name a;
  workspace_volume_type := workspace_volume_type a;
  workspace_volume_host_path := workspace_volume_host_path a;
  create_git_sync_sidecar := create_git_sync_sidecar a;
  create_git_sync_init_container := create_git_sync_init_container a;
  git_sync_image_name := git_sync_image_name a;
  git_sync_image_tag := git_sync_image_tag a;
  git_sync_repo := git_sync_repo a;
  git_sync_branch := git_sync_branch a;
  git_sync_wait := git_sync_wait a;
  container_detach := container_detach a;
  container_auto_remove := container_auto_remove a;
  container_remove := container_remove a;
  container_user := container_user a;
  container_stdin_open := container_stdin_open a;
  container_tty := container_tty a;
  container_healthcheck := container_healthcheck a;
  container_hostname := container_hostname a;
  container_platform := container_platform a;
  container_working_dir := container_working_dir a;
  container_volumes_docker := container_volumes_docker';
  container_ports_docker := container_ports_docker';
  replicas := replicas a;
  secret_name := secret_name a;
  configmap_name := configmap_name a;
  image_pull_policy := image_pull_policy a;
  pod_annotations := pod_annotations a;
  pod_node_selector := pod_node_selector a;
  deploy_restart_policy := deploy_restart_policy a;
  deploy_labels := deploy_labels a;
  termination_grace_period_seconds := termination_grace_period_seconds a;
  topology_spread_key := topology_spread_key a;
  topology_spread_max_skew := topology_spread_max_skew a;
  topology_spread_when_unsatisfiable := topology_spread_when_unsatisfiable a;
  create_service := create_service a;
  service_type := service_type a;
  service_port := service_port a;
  service_target_port := service_target_port a;
  service_labels := service_labels a;
  use_rbac := use_rbac a;
  ns_name := ns_name a;
  namespace := namespace a;
  sa_name := sa_name a;
  service_account := service_account a;
  cr_name := cr_name a;
  cluster_role := cluster_role a;
  crb_name := crb_name a;
  cluster_role_binding := cluster_role_binding a;
  extra_secrets := extra_secrets a;
  extra_configmaps := extra_configmaps a;
  extra_services := extra_services a;
  extra_deployments := extra_deployments a;
  extra_pvs := extra_pvs a;
  extra_pvcs := extra_pvcs a;
  extra_containers := extra_containers a;
  extra_init_containers := extra_init_containers a;
  extra_ports := extra_ports a;
  extra_volumes := extra_volumes a;
  extra_storage_classes := extra_storage_classes a;
  extra_custom_objects := extra_custom_objects a;
  extra_crds := extra_crds a;
  ecs_cluster := ecs_cluster a;
  ecs_launch_type := ecs_launch_type a;
  ecs_task_cpu := ecs_task_cpu a;
  ecs_task_memory := ecs_task_memory a;
  ecs_service_count := ecs_service_count a;
  assign_public_ip := assign_public_ip a;
  elb := elb a;
  aws_subnets := aws_subnets a;
  aws_security_groups := aws_security_groups a;
  print_env_on_load := print_env_on_load a;
  skip_create := skip_create a;
  skip_delete := skip_delete a;
  wait_for_creation := wait_for_creation a;
  wait_for_deletion := wait_for_deletion a;
  use_cache := use_cache a;
|}.

(** The options after [get_k8s_rg] is done with the lists it appends to. *)
Definition with_k8s_collections (a : t)
    (extra_secrets' : option (list CreateSecret.t))
    (extra_configmaps' : option (list CreateConfigMap.t))
    (extra_services' : option (list CreateService.t))
    (extra_deployments' : option (list CreateDeployment.t))
    (extra_containers' : option (list CreateContainer.t))
    (extra_init_containers' : option (list CreateContainer.t))
    (extra_ports' : option (list CreatePort.t))
    (extra_volumes' : option (list CreateVolume.t)) : t := {|
  name := name a;
  enabled := enabled a;
  image := image a;
  image_name := image_name a;
  image_tag := image_tag a;
  entrypoint := entrypoint a;
  command := command a;
  install_requirements := install_requirements a;
  python_path := python_path a;
  add_python_path := add_python_path a;
  container_labels := container_labels a;
  env := env a;
  secrets := secrets a;
  open_container_port := open_container_port a;
  container_port := container_port a;
  container_port_name := container_port_name a;
  container_host_port := container_host_port a;
  mount_workspace := mount_workspace a;
  workspace_volume_name := workspace_volume_name a;
  workspace_volume_type := workspace_volume_type a;
  workspace_volume_host_path := workspace_volume_host_path a;
  create_git_sync_sidecar := create_git_sync_sidecar a;
  create_git_sync_init_container := create_git_sync_init_container a;
  git_sync_image_name := git_sync_image_name a;
  git_sync_image_tag := git_sync_image_tag a;
  git_sync_repo := git_sync_repo a;
  git_sync_branch := git_sync_branch a;
  git_sync_wait := git_sync_wait a;
  container_detach := container_detach a;
  container_auto_remove := container_auto_remove a;
  container_remove := container_remove a;
  container_user := container_user a;
  container_stdin_open := container_stdin_open a;
  container_tty := container_tty a;
  container_healthcheck := container_healthcheck a;
  container_hostname := container_hostname a;
  container_platform := container_platform a;
  container_working_dir := container_working_dir a;
  container_volumes_docker := container_volumes_docker a;
  container_ports_docker := container_ports_docker a;
  replicas := replicas a;
  secret_name := secret_name a;
  configmap_name := configmap_name a;
  image_pull_policy := image_pull_policy a;
  pod_annotations := pod_annotations a;
  pod_node_selector := pod_node_selector a;
  deploy_restart_policy := deploy_restart_policy a;
  deploy_labels := deploy_labels a;
  termination_grace_period_seconds := termination_grace_period_seconds a;
  topology_spread_key := topology_spread_key a;
  topology_spread_max_skew := topology_spread_max_skew a;
  topology_spread_when_unsatisfiable := topology_spread_when_unsatisfiable a;
  create_service := create_service a;
  service_type := service_type a;
  service_port := service_port a;
  service_target_port := service_target_port a;
  service_labels := service_labels a;
  use_rbac := use_rbac a;
  ns_name := ns_name a;
  namespace := namespace a;
  sa_name := sa_name a;
  service_account := service_account a;
  cr_name := cr_name a;
  cluster_role := cluster_role a;
  crb_name := crb_name a;
  cluster_role_binding := cluster_role_binding a;
  extra_secrets := extra_secrets';
  extra_configmaps := extra_configmaps';
  extra_services := extra_services';
  extra_deployments := extra_deployments';
  extra_pvs := extra_pvs a;
  extra_pvcs := extra_pvcs a;
  extra_containers := extra_containers';
  extra_init_containers := extra_init_containers';
  extra_ports := extra_ports';
  extra_volumes := extra_volumes';
  extra_storage_classes := extra_storage_classes a;
  extra_custom_objects := extra_custom_objects a;
  extra_crds := extra_crds a;
  ecs_cluster := ecs_cluster a;
  ecs_launch_type := ecs_launch_type a;
  ecs_task_cpu := ecs_task_cpu a;
  ecs_task_memory := ecs_task_memory a;
  ecs_service_count := ecs_service_count a;
  assign_public_ip := assign_public_ip a;
  elb := elb a;
  aws_subnets := aws_subnets a;
  aws_security_groups := aws_security_groups a;
  print_env_on_load := print_env_on_load a;
  skip_create := skip_create a;
  skip_delete := skip_delete a;
  wait_for_creation := wait_for_creation a;
  wait_for_deletion := wait_for_deletion a;
  use_cache := use_cache a;
|}.
End ServerBaseArgs.

(** *** What [ServerBase] inherits and imports

    [PhidataApp] (the base class), [phidata.constants],
    [phidata.utils.common] and [phidata.aws.resource.group.Subnet] are not
    under [src/].  The members the builders use are taken as given: a method
    without arguments is the value it returns. *)

Module PhidataApp.
Record t : Type := {
  workspace_root_path : option Path;
  enabled : bool;
  aws_region : option string;
  aws_profile : option string;
  (** [get_container_paths(add_ws_name_to_container_path=...)]; the argument
      is [None] when the caller leaves it out. *)
  get_container_paths : option bool -> option ContainerPathContext;
  get_container_name : string;
  get_image_str : string;
  get_container_port : Z;
  get_container_restart_policy_docker : option Dict;
  get_env_data : option StrDict;
  get_secret_data : option StrDict;
  get_sa_name : string;
  get_cr_name : string;
  get_crb_name : string;
  get_configmap_name : string;
  get_secret_name : string;
  get_deploy_name : string;
  get_pod_name : string;
  get_service_name : string;
}.
End PhidataApp.

Module Externals.
Record t : Type := {
  (** [phidata.constants] *)
  PYTHONPATH_ENV_VAR : string;
  PHIDATA_RUNTIME_ENV_VAR : string;
  SCRIPTS_DIR_ENV_VAR : string;
  STORAGE_DIR_ENV_VAR : string;
  META_DIR_ENV_VAR : string;
  PRODUCTS_DIR_ENV_VAR : string;
  NOTEBOOKS_DIR_ENV_VAR : string;
  WORKFLOWS_DIR_ENV_VAR : string;
  WORKSPACE_ROOT_ENV_VAR : string;
  WORKSPACES_MOUNT_ENV_VAR : string;
  WORKSPACE_CONFIG_DIR_ENV_VAR : string;
  AWS_REGION_ENV_VAR : string;
  AWS_PROFILE_ENV_VAR : string;
  (** [phidata.utils.common.get_default_volume_name] *)
  get_default_volume_name : string -> string;
  (** [Subnet(id=subnet).get_vpc_id()] *)
  get_vpc_id : string -> option string;
}.
End Externals.

(** A dictionary display [{k1: v1, ..., kn: vn}]: a key written twice keeps
    its last value. *)
Definition dict_literal {V} (items : list (string * V)) : gmap string V :=
  list_to_map (reverse items).

(** [vpc_ids.pop()] on a Python set: [None] stands for the [KeyError] of an
    empty set. *)
Definition set_pop `{Countable A} (s : gset A) : option (A * gset A) :=
  match elements s with
  | [] => None
  | x :: _ => Some (x, s ∖ {[ x ]})
  end.

(** ** The builders ([ServerBase]) *)

Module ServerBase.

Record t : Type := {
  base : PhidataApp.t;
  args : ServerBaseArgs.t;
}.

Section Builders.
Variable X : Externals.t.

Import PhidataApp ServerBaseArgs Externals.

(** **** Environment composition *)

(** [python_path]: the option, or the workspace root with
    [add_python_path] appended. *)
Definition container_python_path (a : ServerBaseArgs.t) (container_paths : ContainerPathContext) : string :=
  match python_path a with
  | Some p => p
  | None =>
    workspace_root container_paths +:+
    match add_python_path a with
    | Some p => if truthy_str p then ":" +:+ p else ""
    | None => ""
    end
  end.

(** The dictionary display that starts [container_env] in each builder.
    [pythonpath] is [None] for the AWS builder, which leaves the entry out. *)
Definition runtime_env (runtime : string) (pythonpath : option string)
    (a : ServerBaseArgs.t) (container_paths : ContainerPathContext) : StrDict :=
  dict_literal
    (match pythonpath with
     | Some p => [(PYTHONPATH_ENV_VAR X, p)]
     | None => []
     end ++
     [(PHIDATA_RUNTIME_ENV_VAR X, runtime);
      (SCRIPTS_DIR_ENV_VAR X, scripts_dir container_paths);
      (STORAGE_DIR_ENV_VAR X, storage_dir container_paths);
      (META_DIR_ENV_VAR X, meta_dir container_paths);
      (PRODUCTS_DIR_ENV_VAR X, products_dir container_paths);
      (NOTEBOOKS_DIR_ENV_VAR X, notebooks_dir container_paths);
      (WORKFLOWS_DIR_ENV_VAR X, workflows_dir container_paths);
      (WORKSPACE_ROOT_ENV_VAR X, workspace_root container_paths);
      (WORKSPACES_MOUNT_ENV_VAR X, workspace_parent container_paths);
      (WORKSPACE_CONFIG_DIR_ENV_VAR X, workspace_config_dir container_paths);
      ("INSTALL_REQUIREMENTS", str_bool (install_requirements a));
      ("REQUIREMENTS_FILE_PATH", requirements_file container_paths);
      ("MOUNT_WORKSPACE", str_bool (mount_workspace a));
      ("PRINT_ENV_ON_LOAD", str_bool (print_env_on_load a))]).

(** Modelled from the spec: [PhidataApp.set_aws_env_vars] is not under
    [src/].  Section 4.2 of the specification: the AWS-derived variables are
    the profile and the region, each present if configured. *)
Definition aws_env_vars (app : PhidataApp.t) : StrDict :=
  match aws_profile app with
  | Some p => {[ AWS_PROFILE_ENV_VAR X := p ]}
  | None => ∅
  end ∪
  match aws_region app with
  | Some r => {[ AWS_REGION_ENV_VAR X := r ]}
  | None => ∅
  end.

(** Modelled from the spec: [PhidataApp.set_aws_env_vars] writes the
    AWS-derived variables into [env_dict], over what it holds. *)
Definition set_aws_env_vars (app : PhidataApp.t) (env_dict : StrDict) : StrDict :=
  aws_env_vars app ∪ env_dict.

(** Modelled from the spec: [PhidataApp.set_container_env] is not under
    [src/].  Section 4.2 of the specification: after the AWS variables come
    the variables of the env file, those of the secrets file or store, and
    the inline [secrets] and [env] maps, each overwriting the keys it
    defines; inline values win ties. *)
Definition set_container_env (self : ServerBase.t) (container_env : StrDict) : StrDict :=
  let container_env := update_opt container_env (get_env_data (base self)) in
  let container_env := update_opt container_env (get_secret_data (base self)) in
  let container_env := update_opt container_env (secrets (args self)) in
  update_opt container_env (env (args self)).

(** The precedence rule of the specification (section 4.2), for comparison
    with the composition above: among the sources that are present, listed
    from the highest precedence to the lowest, the value of a key is the one
    of the first source that defines it. *)
Definition by_precedence (sources : list (option StrDict)) (k : string) : option string :=
  foldr (fun source lower =>
           match source ≫= (.!! k) with
           | Some v => Some v
           | None => lower
           end) None sources.

(** **** Docker *)

(** [workspace_volume_name], as both the Docker and the K8s builder
    compute it. *)
Definition default_workspace_volume_name (a : ServerBaseArgs.t) (workspace_name : string) : string :=
  match workspace_volume_name a with
  | Some n => n
  | None => get_default_volume_name X ("spark-" +:+ workspace_name +:+ "-ws")
  end.

(** The volume dictionary after the [if self.args.mount_workspace] block;
    [None] when the block ends in [return None]. *)
Definition docker_container_volumes (self : ServerBase.t) (workspace_root_path : Path)
    (container_paths : ContainerPathContext) (container_volumes : Dict)
  : option Dict :=
  let a := args self in
  if mount_workspace a then
    let workspace_volume_container_path_str := workspace_root container_paths in
    let mount :=
      PDict [("bind", PStr workspace_volume_container_path_str);
             ("mode", PStr "rw")] in
    match workspace_volume_type a with
    | None | Some HostPath =>
      let workspace_volume_host_path :=
        py_or truthy_str (workspace_volume_host_path a) (path_str workspace_root_path) in
      Some (<[ workspace_volume_host_path := mount ]> container_volumes)
    | Some EmptyDir =>
      let workspace_volume_name :=
        default_workspace_volume_name a (stem workspace_root_path) in
      Some (<[ workspace_volume_name := mount ]> container_volumes)
    | Some (OtherVolumeType _) => None
    end
  else Some container_volumes.

(** The port dictionary after [if self.args.open_container_port]. *)
Definition docker_container_ports (a : ServerBaseArgs.t) (container_ports : Dict) : Dict :=
  if open_container_port a
  then <[ str_int (container_port a) := PInt (container_host_port a) ]> container_ports
  else container_ports.

(** [ServerBase.get_docker_rg].  The second component is the app as the call
    leaves it. *)
Definition get_docker_rg (self : ServerBase.t) (docker_build_context : BuildContext)
  : outcome DockerResourceGroup.t * ServerBase.t :=
  let a := args self in
  let app_name := name a in
  match docker_build_context with
  | DockerContext ctx =>
    match workspace_root_path (base self) with
    | None => (Absent, self)
    | Some workspace_root_path =>
      match get_container_paths (base self) None with
      | None => (Absent, self)
      | Some container_paths =>
        let python_path := container_python_path a container_paths in
        let container_env := runtime_env "docker" (Some python_path) a container_paths in
        let container_env := set_aws_env_vars (base self) container_env in
        let container_env := set_container_env self container_env in
        (* container_volumes = self.args.container_volumes_docker or {} *)
        let volumes_origin := origin_of truthy_dict (container_volumes_docker a) in
        let container_volumes := py_or truthy_dict (container_volumes_docker a) ∅ in
        match docker_container_volumes self workspace_root_path container_paths container_volumes with
        | None => (Absent, self)
        | Some container_volumes =>
          (* container_ports = self.args.container_ports_docker or {} *)
          let ports_origin := origin_of truthy_dict (container_ports_docker a) in
          let container_ports := py_or truthy_dict (container_ports_docker a) ∅ in
          let container_ports := docker_container_ports a container_ports in
          let docker_container := {|
            DockerContainer.name := get_container_name (base self);
            DockerContainer.image := get_image_str (base self);
            DockerContainer.entrypoint := entrypoint a;
            DockerContainer.command := command a;
            DockerContainer.detach := container_detach a;
            DockerContainer.auto_remove := container_auto_remove a;
            DockerContainer.healthcheck := container_healthcheck a;
            DockerContainer.hostname := container_hostname a;
            DockerContainer.labels := container_labels a;
            DockerContainer.environment := container_env;
            DockerContainer.network := DockerBuildContext.network ctx;
            DockerContainer.platform := container_platform a;
            DockerContainer.ports := dict_or_None container_ports;
            DockerContainer.remove := container_remove a;
            DockerContainer.restart_policy := get_container_restart_policy_docker (base self);
            DockerContainer.stdin_open := container_stdin_open a;
            DockerContainer.tty := container_tty a;
            DockerContainer.user := container_user a;
            DockerContainer.volumes := dict_or_None container_volumes;
            DockerContainer.working_dir := container_working_dir a;
            DockerContainer.use_cache := use_cache a;
          |} in
          let docker_rg := {|
            DockerResourceGroup.name := app_name;
            DockerResourceGroup.enabled := ServerBaseArgs.enabled a;
            DockerResourceGroup.network :=
              {| DockerNetwork.name := DockerBuildContext.network ctx |};
            DockerResourceGroup.containers := [docker_container];
            DockerResourceGroup.images :=
              match image a with
              | Some i => Some [i]
              | None => None
              end;
          |} in
          (Built docker_rg,
           {| base := base self;
              args := with_docker_collections a
                        (store_back (container_volumes_docker a) volumes_origin container_volumes)
                        (store_back (container_ports_docker a) ports_origin container_ports) |})
        end
      end
    end
  | _ => (Absent, self)
  end.

(** **** Kubernetes *)

(** The rules of the [ClusterRole] the builder creates. *)
Definition cluster_role_rules : list PolicyRule.t :=
  [ {| PolicyRule.api_groups := [""];
       PolicyRule.resources := ["pods"; "secrets"; "configmaps"];
       PolicyRule.verbs := ["get"; "list"; "watch"; "create"; "update"; "patch"; "delete"] |};
    {| PolicyRule.api_groups := [""];
       PolicyRule.resources := ["pods/logs"];
       PolicyRule.verbs := ["get"; "list"] |} ].

(** The names [ns], [ns_name], [sa], [sa_name], [cr] and [crb] after the
    [if self.args.use_rbac] block. *)
Record RbacLocals : Type := {
  rbac_ns : option CreateNamespace.t;
  rbac_ns_name : string;
  rbac_sa : option CreateServiceAccount.t;
  rbac_sa_name : option string;
  rbac_cr : option CreateClusterRole.t;
  rbac_crb : option CreateClusterRoleBinding.t;
}.

Definition k8s_rbac (self : ServerBase.t) (ctx : K8sBuildContext.t)
    (common_labels : option Dict) : RbacLocals :=
  let a := args self in
  let app_name := name a in
  let ns_name0 := py_or truthy_str (ServerBaseArgs.ns_name a) (K8sBuildContext.namespace ctx) in
  let sa_name0 :=
    py_or_opt truthy_str (ServerBaseArgs.sa_name a) (K8sBuildContext.service_account_name ctx) in
  if use_rbac a then
    let ns :=
      match namespace a with
      | Some ns => ns
      | None => {| CreateNamespace.ns := ns_name0;
                   CreateNamespace.app_name := app_name;
                   CreateNamespace.labels := common_labels |}
      end in
    let ns_name1 := CreateNamespace.ns ns in
    let sa :=
      match service_account a with
      | Some sa => sa
      | None => {| CreateServiceAccount.sa_name := py_or truthy_str sa_name0 (get_sa_name (base self));
                   CreateServiceAccount.app_name := app_name;
                   CreateServiceAccount.namespace := ns_name1 |}
      end in
    let cr :=
      match cluster_role a with
      | Some cr => cr
      | None => {| CreateClusterRole.cr_name :=
                     py_or truthy_str (ServerBaseArgs.cr_name a) (get_cr_name (base self));
                   CreateClusterRole.rules := cluster_role_rules;
                   CreateClusterRole.app_name := app_name;
                   CreateClusterRole.labels := common_labels |}
      end in
    let crb :=
      match cluster_role_binding a with
      | Some crb => crb
      | None => {| CreateClusterRoleBinding.crb_name :=
                     py_or truthy_str (ServerBaseArgs.crb_name a) (get_crb_name (base self));
                   CreateClusterRoleBinding.cr_name := CreateClusterRole.cr_name cr;
                   CreateClusterRoleBinding.service_account_name := CreateServiceAccount.sa_name sa;
                   CreateClusterRoleBinding.app_name := app_name;
                   CreateClusterRoleBinding.namespace := ns_name1;
                   CreateClusterRoleBinding.labels := common_labels |}
      end in
    {| rbac_ns := Some ns; rbac_ns_name := ns_name1;
       rbac_sa := Some sa; rbac_sa_name := Some (CreateServiceAccount.sa_name sa);
       rbac_cr := Some cr; rbac_crb := Some crb |}
  else
    {| rbac_ns := namespace a; rbac_ns_name := ns_name0;
       rbac_sa := service_account a; rbac_sa_name := sa_name0;
       rbac_cr := cluster_role a; rbac_crb := cluster_role_binding a |}.

(** [container_env] as the [ConfigMap] receives it: the display, then
    [set_aws_env_vars], then the env file, then [self.args.env]. *)
Definition k8s_container_env (self : ServerBase.t) (container_paths : ContainerPathContext) : StrDict :=
  let a := args self in
  let python_path := container_python_path a container_paths in
  let container_env := runtime_env "kubernetes" (Some python_path) a container_paths in
  let container_env := set_aws_env_vars (base self) container_env in
  let env_data_from_file := get_env_data (base self) in
  let container_env := update_opt container_env env_data_from_file in
  update_opt container_env (env a).

(** [[cm.cm_name for cm in config_maps] if len(config_maps) > 0 else None]
    and its twin for secrets. *)
Definition names_or_None {A} (f : A -> string) (xs : list A) : option (list string) :=
  if truthy_list xs then Some (f <$> xs) else None.

Definition git_sync_env (a : ServerBaseArgs.t)
    (workspace_parent_container_path_str workspace_name repo : string) : StrDict :=
  let e := dict_literal [("GIT_SYNC_REPO", repo);
                         ("GIT_SYNC_ROOT", workspace_parent_container_path_str);
                         ("GIT_SYNC_DEST", workspace_name)] in
  let e := match git_sync_branch a with
           | Some b => <[ "GIT_SYNC_BRANCH" := b ]> e
           | None => e
           end in
  match git_sync_wait a with
  | Some w => <[ "GIT_SYNC_WAIT" := str_int w ]> e
  | None => e
  end.

(** The lists [volumes], [containers] and [init_containers] after the
    [if self.args.mount_workspace] block. *)
Record WorkspaceLocals : Type := {
  ws_volumes : list CreateVolume.t;
  ws_containers : list CreateContainer.t;
  ws_init_containers : list CreateContainer.t;
}.

Definition k8s_workspace_volume (self : ServerBase.t) (workspace_root_path : Path)
    (container_paths : ContainerPathContext)
    (config_maps : list CreateConfigMap.t) (secrets : list CreateSecret.t)
    (volumes : list CreateVolume.t) (containers init_containers : list CreateContainer.t)
  : WorkspaceLocals :=
  let a := args self in
  let app_name := name a in
  let unchanged := {| ws_volumes := volumes; ws_containers := containers;
                      ws_init_containers := init_containers |} in
  if mount_workspace a then
    let workspace_name := stem workspace_root_path in
    let workspace_volume_name := default_workspace_volume_name a workspace_name in
    match workspace_volume_type a with
    | None | Some EmptyDir =>
      let workspace_parent_container_path_str := workspace_parent container_paths in
      let workspace_volume := {|
        CreateVolume.volume_name := workspace_volume_name;
        CreateVolume.app_name := app_name;
        CreateVolume.mount_path := workspace_parent_container_path_str;
        CreateVolume.volume_type := EMPTY_DIR;
        CreateVolume.host_path := None |} in
      let volumes := volumes ++ [workspace_volume] in
      if create_git_sync_sidecar a then
        match git_sync_repo a with
        | Some repo =>
          let git_sync_env :=
            git_sync_env a workspace_parent_container_path_str workspace_name repo in
          let git_sync_container := {|
            CreateContainer.container_name := "git-sync";
            CreateContainer.app_name := app_name;
            CreateContainer.image_name := git_sync_image_name a;
            CreateContainer.image_tag := git_sync_image_tag a;
            CreateContainer.args := None;
            CreateContainer.command := None;
            CreateContainer.image_pull_policy := None;
            CreateContainer.env := Some (PStr <$> git_sync_env);
            CreateContainer.envs_from_configmap := names_or_None CreateConfigMap.cm_name config_maps;
            CreateContainer.envs_from_secret := names_or_None CreateSecret.secret_name secrets;
            CreateContainer.ports := None;
            CreateContainer.volumes := Some [workspace_volume];
            CreateContainer.labels := None |} in
          let containers := containers ++ [git_sync_container] in
          if create_git_sync_init_container a then
            let git_sync_init_env : Dict :=
              (PStr <$> git_sync_env) ∪ dict_literal [("GIT_SYNC_ONE_TIME", PBool true)] in
            let _git_sync_init_container := {|
              CreateContainer.container_name := "git-sync-init";
              CreateContainer.app_name := CreateContainer.app_name git_sync_container;
              CreateContainer.image_name := CreateContainer.image_name git_sync_container;
              CreateContainer.image_tag := CreateContainer.image_tag git_sync_container;
              CreateContainer.args := None;
              CreateContainer.command := None;
              CreateContainer.image_pull_policy := None;
              CreateContainer.env := Some git_sync_init_env;
              CreateContainer.envs_from_configmap := CreateContainer.envs_from_configmap git_sync_container;
              CreateContainer.envs_from_secret := CreateContainer.envs_from_secret git_sync_container;
              CreateContainer.ports := None;
              CreateContainer.volumes := CreateContainer.volumes git_sync_container;
              CreateContainer.labels := None |} in
            {| ws_volumes := volumes; ws_containers := containers;
               ws_init_containers := init_containers ++ [_git_sync_init_container] |}
          else
            {| ws_volumes := volumes; ws_containers := containers;
               ws_init_containers := init_containers |}
        | None =>
          (* logger.error("GIT_SYNC_REPO invalid") *)
          {| ws_volumes := volumes; ws_containers := containers;
             ws_init_containers := init_containers |}
        end
      else
        {| ws_volumes := volumes; ws_containers := containers;
           ws_init_containers := init_containers |}
    | Some HostPath =>
      let workspace_root_path_str := path_str workspace_root_path in
      let workspace_root_container_path_str := workspace_root container_paths in
      let workspace_volume := {|
        CreateVolume.volume_name := workspace_volume_name;
        CreateVolume.app_name := app_name;
        CreateVolume.mount_path := workspace_root_container_path_str;
        CreateVolume.volume_type := HOST_PATH;
        CreateVolume.host_path :=
          Some {| HostPathVolumeSource.path := workspace_root_path_str |} |} in
      {| ws_volumes := volumes ++ [workspace_volume]; ws_containers := containers;
         ws_init_containers := init_containers |}
    | Some (OtherVolumeType _) => unchanged
    end
  else unchanged.

(** [ports] after [if self.args.open_container_port]. *)
Definition k8s_ports (a : ServerBaseArgs.t) (ports : list CreatePort.t) : list CreatePort.t :=
  if open_container_port a then
    let container_port := {|
      CreatePort.name := container_port_name a;
      CreatePort.container_port := ServerBaseArgs.container_port a;
      CreatePort.service_port := service_port a;
      CreatePort.target_port :=
        py_or truthy_StrOrInt (service_target_port a) (IsStr (container_port_name a)) |} in
    ports ++ [container_port]
  else ports.

(** [pod_annotations]: the default-container entry, then the caller's
    annotations written over it. *)
Definition k8s_pod_annotations (a : ServerBaseArgs.t) (spark_container : CreateContainer.t) : StrDict :=
  let pod_annotations : StrDict :=
    dict_literal [("kubectl.kubernetes.io/default-container",
                   CreateContainer.container_name spark_container)] in
  update_opt pod_annotations (ServerBaseArgs.pod_annotations a).

(** [x = common_labels or {}] followed by the guarded [x.update(extra)]:
    the dictionary [x] ends up as, and the object behind [common_labels]
    afterwards. *)
Definition labels_with (common_labels : option Dict) (extra : option Dict) : Dict * option Dict :=
  let o := origin_of truthy_dict common_labels in
  let x := py_or truthy_dict common_labels ∅ in
  let x := update_opt x extra in
  (x, store_back common_labels o x).

(** The primary container. *)
Definition k8s_spark_container (self : ServerBase.t)
    (config_maps : list CreateConfigMap.t) (secrets : list CreateSecret.t)
    (ports : list CreatePort.t) (volumes : list CreateVolume.t)
    (container_labels : Dict) : CreateContainer.t :=
  let a := args self in {|
  CreateContainer.container_name := get_container_name (base self);
  CreateContainer.app_name := name a;
  CreateContainer.image_name := ServerBaseArgs.image_name a;
  CreateContainer.image_tag := ServerBaseArgs.image_tag a;
  CreateContainer.args := as_list (command a);
  CreateContainer.command := as_list (entrypoint a);
  CreateContainer.image_pull_policy :=
    Some (default IF_NOT_PRESENT (ServerBaseArgs.image_pull_policy a));
  CreateContainer.envs_from_configmap := names_or_None CreateConfigMap.cm_name config_maps;
  CreateContainer.envs_from_secret := names_or_None CreateSecret.secret_name secrets;
  CreateContainer.env := None;
  CreateContainer.ports := list_or_None ports;
  CreateContainer.volumes := list_or_None volumes;
  CreateContainer.labels := Some container_labels |}.

(** Everything [get_k8s_rg] does once the context and the workspace paths
    are known, up to the [CreateK8sResourceGroup] it calls [create()] on;
    together with the app and the build context as the call leaves them. *)
Definition k8s_create_group (self : ServerBase.t) (ctx : K8sBuildContext.t)
    (workspace_root_path : Path) (container_paths : ContainerPathContext)
  : CreateK8sResourceGroup.t * ServerBase.t * K8sBuildContext.t :=
  let a := args self in
  let app_name := name a in
  let secrets := py_or truthy_list (extra_secrets a) [] in
  let config_maps := py_or truthy_list (extra_configmaps a) [] in
  let services := py_or truthy_list (extra_services a) [] in
  let deployments := py_or truthy_list (extra_deployments a) [] in
  let pvs := py_or truthy_list (extra_pvs a) [] in
  let pvcs := py_or truthy_list (extra_pvcs a) [] in
  let containers := py_or truthy_list (extra_containers a) [] in
  let init_containers := py_or truthy_list (extra_init_containers a) [] in
  let ports := py_or truthy_list (extra_ports a) [] in
  let volumes := py_or truthy_list (extra_volumes a) [] in
  let storage_classes := py_or truthy_list (extra_storage_classes a) [] in
  let custom_objects := py_or truthy_list (extra_custom_objects a) [] in
  let crds := py_or truthy_list (extra_crds a) [] in
  let common_labels := K8sBuildContext.labels ctx in
  let rbac := k8s_rbac self ctx common_labels in
  let ns_name := rbac_ns_name rbac in
  let sa_name := rbac_sa_name rbac in
  let container_env := k8s_container_env self container_paths in
  let container_env_cm := {|
    CreateConfigMap.cm_name :=
      py_or truthy_str (configmap_name a) (get_configmap_name (base self));
    CreateConfigMap.app_name := app_name;
    CreateConfigMap.namespace := ns_name;
    CreateConfigMap.data := container_env;
    CreateConfigMap.labels := common_labels |} in
  let config_maps := config_maps ++ [container_env_cm] in
  let secrets :=
    match get_secret_data (base self) with
    | Some _secret_data =>
      secrets ++ [ {|
        CreateSecret.secret_name :=
          py_or truthy_str (ServerBaseArgs.secret_name a) (get_secret_name (base self));
        CreateSecret.app_name := app_name;
        CreateSecret.string_data := _secret_data;
        CreateSecret.namespace := ns_name;
        CreateSecret.labels := common_labels |} ]
    | None => secrets
    end in
  let ws := k8s_workspace_volume self workspace_root_path container_paths
              config_maps secrets volumes containers init_containers in
  let volumes := ws_volumes ws in
  let containers := ws_containers ws in
  let init_containers := ws_init_containers ws in
  let ports := k8s_ports a ports in
  let '(container_labels, common_labels) := labels_with common_labels (container_labels a) in
  let spark_container :=
    k8s_spark_container self config_maps secrets ports volumes container_labels in
  let containers := spark_container :: containers in
  let pod_annotations := k8s_pod_annotations a spark_container in
  let '(deploy_labels, common_labels) := labels_with common_labels (deploy_labels a) in
  let spark_deployment := {|
    CreateDeployment.deploy_name := get_deploy_name (base self);
    CreateDeployment.pod_name := get_pod_name (base self);
    CreateDeployment.app_name := app_name;
    CreateDeployment.namespace := ns_name;
    CreateDeployment.service_account_name := sa_name;
    CreateDeployment.replicas := replicas a;
    CreateDeployment.containers := containers;
    CreateDeployment.init_containers := list_or_None init_containers;
    CreateDeployment.pod_node_selector := pod_node_selector a;
    CreateDeployment.restart_policy := default ALWAYS (deploy_restart_policy a);
    CreateDeployment.termination_grace_period_seconds := termination_grace_period_seconds a;
    CreateDeployment.volumes := list_or_None volumes;
    CreateDeployment.labels := deploy_labels;
    CreateDeployment.pod_annotations := pod_annotations;
    CreateDeployment.topology_spread_key := topology_spread_key a;
    CreateDeployment.topology_spread_max_skew := topology_spread_max_skew a;
    CreateDeployment.topology_spread_when_unsatisfiable := topology_spread_when_unsatisfiable a |} in
  let deployments := deployments ++ [spark_deployment] in
  let '(services, common_labels) :=
    if create_service a then
      let '(service_labels, common_labels) := labels_with common_labels (service_labels a) in
      let _service := {|
        CreateService.service_name := get_service_name (base self);
        CreateService.app_name := app_name;
        CreateService.namespace := ns_name;
        CreateService.service_account_name := sa_name;
        CreateService.service_type := service_type a;
        CreateService.deployment := spark_deployment;
        CreateService.ports := list_or_None ports;
        CreateService.labels := service_labels |} in
      (services ++ [_service], common_labels)
    else (services, common_labels) in
  let k8s_resource_group := {|
    CreateK8sResourceGroup.name := app_name;
    CreateK8sResourceGroup.enabled := ServerBaseArgs.enabled a;
    CreateK8sResourceGroup.ns := rbac_ns rbac;
    CreateK8sResourceGroup.sa := rbac_sa rbac;
    CreateK8sResourceGroup.cr := rbac_cr rbac;
    CreateK8sResourceGroup.crb := rbac_crb rbac;
    CreateK8sResourceGroup.secrets := list_or_None secrets;
    CreateK8sResourceGroup.config_maps := list_or_None config_maps;
    CreateK8sResourceGroup.storage_classes := list_or_None storage_classes;
    CreateK8sResourceGroup.services := list_or_None services;
    CreateK8sResourceGroup.deployments := list_or_None deployments;
    CreateK8sResourceGroup.custom_objects := list_or_None custom_objects;
    CreateK8sResourceGroup.crds := list_or_None crds;
    CreateK8sResourceGroup.pvs := list_or_None pvs;
    CreateK8sResourceGroup.pvcs := list_or_None pvcs |} in
  let stored {A} (field : option (list A)) (final : list A) :=
    store_back field (origin_of truthy_list field) final in
  (k8s_resource_group,
   {| base := base self;
      args := with_k8s_collections a
                (stored (extra_secrets a) secrets)
                (stored (extra_configmaps a) config_maps)
                (stored (extra_services a) services)
                (stored (extra_deployments a) deployments)
                (stored (extra_containers a) containers)
                (stored (extra_init_containers a) init_containers)
                (stored (extra_ports a) ports)
                (stored (extra_volumes a) volumes) |},
   K8sBuildContext.with_labels ctx common_labels).

(** The builder appends what it generates to the caller's lists, so its own
    [Deployment] and [ConfigMap] are the last entries of the group's lists. *)
Definition generated_deployment (g : CreateK8sResourceGroup.t) : option CreateDeployment.t :=
  CreateK8sResourceGroup.deployments g ≫= last.
Definition generated_configmap (g : CreateK8sResourceGroup.t) : option CreateConfigMap.t :=
  CreateK8sResourceGroup.config_maps g ≫= last.

(** [ServerBase.get_k8s_rg]. *)
Definition get_k8s_rg (self : ServerBase.t) (k8s_build_context : BuildContext)
  : outcome K8sResourceGroup * ServerBase.t * BuildContext :=
  match k8s_build_context with
  | K8sContext ctx =>
    match workspace_root_path (base self) with
    | None => (Absent, self, k8s_build_context)
    | Some workspace_root_path =>
      match get_container_paths (base self) None with
      | None => (Absent, self, k8s_build_context)
      | Some container_paths =>
        let '(k8s_resource_group, self', ctx') :=
          k8s_create_group self ctx workspace_root_path container_paths in
        (Built (create k8s_resource_group), self', K8sContext ctx')
      end
    end
  | _ => (Absent, self, k8s_build_context)
  end.

(** **** AWS *)

(** The loop [for subnet in self.args.aws_subnets], started with the set
    [vpc_ids]: the set it ends with, or the [ValueError] it raises. *)
Fixpoint vpc_ids_of_subnets (subnets : list string) (vpc_ids : gset (option string))
  : call (gset (option string)) :=
  match subnets with
  | [] => Returns vpc_ids
  | subnet :: subnets =>
    let _vpc := get_vpc_id X subnet in
    let vpc_ids := {[ _vpc ]} ∪ vpc_ids in
    if bool_decide (size vpc_ids ≠ 1%nat)
    then Raises (ValueError "Subnets must be in the same VPC")
    else vpc_ids_of_subnets subnets vpc_ids
  end.

(** [vpc_id], from [vpc_ids = set()] to [vpc_ids.pop()]. *)
Definition aws_vpc_id (a : ServerBaseArgs.t) : call (option string) :=
  match aws_subnets a with
  | None => Raises (TypeError "'NoneType' object is not iterable")
  | Some subnets =>
    vpc_ids ← vpc_ids_of_subnets subnets ∅ ;
    match set_pop vpc_ids with
    | Some (vpc_id, _) => Returns vpc_id
    | None => Raises (KeyError "pop from an empty set")
    end
  end.

Definition py_str_or_None (s : option string) : PyVal :=
  match s with
  | Some s => PStr s
  | None => PNone
  end.

Definition py_strs_or_None (l : option (list string)) : PyVal :=
  match l with
  | Some l => PList (PStr <$> l)
  | None => PNone
  end.

(** [log_configuration] of the ECS container. *)
Definition ecs_log_configuration (app_name : string) (aws_region : option string) : PyVal :=
  PDict [("logDriver", PStr "awslogs");
         ("options",
          PDict [("awslogs-group", PStr app_name);
                 ("awslogs-region", py_str_or_None aws_region);
                 ("awslogs-create-group", PStr "true");
                 ("awslogs-stream-prefix", PStr app_name)])].

(** [aws_vpc_config], a display filled by three guarded assignments. *)
Definition aws_vpc_config (a : ServerBaseArgs.t) : PyVal :=
  PDict
    (match aws_subnets a with
     | Some l => [("subnets", PList (PStr <$> l))]
     | None => []
     end ++
     match aws_security_groups a with
     | Some l => [("securityGroups", PList (PStr <$> l))]
     | None => []
     end ++
     if assign_public_ip a then [("assignPublicIp", PStr "ENABLED")] else []).

(** [ServerBase.get_aws_rg].  The build context is not looked at. *)
Definition get_aws_rg (self : ServerBase.t) (aws_build_context : BuildContext)
  : outcome AwsResourceGroup.t * ServerBase.t :=
  let a := args self in
  let app_name := name a in
  match workspace_root_path (base self) with
  | None => (Absent, self)
  | Some workspace_root_path =>
    match get_container_paths (base self) (Some false) with
    | None => (Absent, self)
    | Some container_paths =>
      let container_env := runtime_env "ecs" None a container_paths in
      let container_env := set_aws_env_vars (base self) container_env in
      let container_env := set_container_env self container_env in
      let ecs_cluster :=
        match ServerBaseArgs.ecs_cluster a with
        | Some c => c
        | None => {|
            EcsCluster.name := app_name +:+ "-cluster";
            EcsCluster.ecs_cluster_name := app_name;
            EcsCluster.capacity_providers := [ecs_launch_type a];
            EcsCluster.skip_create := skip_create a;
            EcsCluster.skip_delete := skip_delete a;
            EcsCluster.wait_for_creation := wait_for_creation a;
            EcsCluster.wait_for_deletion := wait_for_deletion a |}
        end in
      let load_balancer :=
        match elb a with
        | Some lb => lb
        | None => {|
            LoadBalancer.name := app_name +:+ "-lb";
            LoadBalancer.subnets := aws_subnets a;
            LoadBalancer.security_groups := aws_security_groups a;
            LoadBalancer.skip_create := skip_create a;
            LoadBalancer.skip_delete := skip_delete a;
            LoadBalancer.wait_for_creation := wait_for_creation a;
            LoadBalancer.wait_for_deletion := wait_for_deletion a |}
        end in
      match aws_vpc_id a with
      | Raises e => (Raised e, self)
      | Returns vpc_id =>
        let target_group := {|
          TargetGroup.name := app_name +:+ "-tg";
          TargetGroup.port := get_container_port (base self);
          TargetGroup.protocol := "HTTP";
          TargetGroup.vpc_id := vpc_id;
          TargetGroup.target_type := "ip";
          TargetGroup.skip_create := skip_create a;
          TargetGroup.skip_delete := skip_delete a;
          TargetGroup.wait_for_creation := wait_for_creation a;
          TargetGroup.wait_for_deletion := wait_for_deletion a |} in
        let listener := {|
          Listener.name := app_name +:+ "-listener";
          Listener.protocol := "HTTP";
          Listener.port := 80;
          Listener.load_balancer := load_balancer;
          Listener.target_group := target_group;
          Listener.skip_create := skip_create a;
          Listener.skip_delete := skip_delete a;
          Listener.wait_for_creation := wait_for_creation a;
          Listener.wait_for_deletion := wait_for_deletion a |} in
        let ecs_container := {|
          EcsContainer.name := app_name;
          EcsContainer.image := get_image_str (base self);
          EcsContainer.port_mappings :=
            [PDict [("containerPort", PInt (get_container_port (base self)))]];
          EcsContainer.command := command a;
          (* [{"name": k, "value": v} for k, v in container_env.items()] *)
          EcsContainer.environment := container_env;
          EcsContainer.log_configuration :=
            ecs_log_configuration app_name (aws_region (base self));
          EcsContainer.skip_create := skip_create a;
          EcsContainer.skip_delete := skip_delete a;
          EcsContainer.wait_for_creation := wait_for_creation a;
          EcsContainer.wait_for_deletion := wait_for_deletion a |} in
        let ecs_task_definition := {|
          EcsTaskDefinition.name := app_name +:+ "-td";
          EcsTaskDefinition.family := app_name;
          EcsTaskDefinition.network_mode := "awsvpc";
          EcsTaskDefinition.cpu := ecs_task_cpu a;
          EcsTaskDefinition.memory := ecs_task_memory a;
          EcsTaskDefinition.containers := [ecs_container];
          EcsTaskDefinition.requires_compatibilities := [ecs_launch_type a];
          EcsTaskDefinition.skip_create := skip_create a;
          EcsTaskDefinition.skip_delete := skip_delete a;
          EcsTaskDefinition.wait_for_creation := wait_for_creation a;
          EcsTaskDefinition.wait_for_deletion := wait_for_deletion a |} in
        let ecs_service := {|
          EcsService.name := app_name +:+ "-service";
          EcsService.desired_count := ecs_service_count a;
          EcsService.launch_type := ecs_launch_type a;
          EcsService.cluster := ecs_cluster;
          EcsService.task_definition := ecs_task_definition;
          EcsService.target_group := target_group;
          EcsService.target_container_name := EcsContainer.name ecs_container;
          EcsService.target_container_port := get_container_port (base self);
          EcsService.network_configuration :=
            PDict [("awsvpcConfiguration", aws_vpc_config a)];
          EcsService.force_delete := true;
          EcsService.force_new_deployment := true;
          EcsService.skip_create := skip_create a;
          EcsService.skip_delete := skip_delete a;
          EcsService.wait_for_creation := wait_for_creation a;
          EcsService.wait_for_deletion := wait_for_deletion a |} in
        (Built {|
           AwsResourceGroup.name := app_name;
           AwsResourceGroup.enabled := PhidataApp.enabled (base self);
           AwsResourceGroup.ecs_clusters := [ecs_cluster];
           AwsResourceGroup.ecs_task_definitions := [ecs_task_definition];
           AwsResourceGroup.ecs_services := [ecs_service];
           AwsResourceGroup.load_balancers := [load_balancer];
           AwsResourceGroup.target_groups := [target_group];
           AwsResourceGroup.listeners := [listener] |},
         self)
      end
    end
  end.

End Builders.
End ServerBase.

(** ** Registering the groups ([init_*_resource_groups])

    [self.docker_resource_groups], [self.k8s_resource_groups] and
    [self.aws_resource_groups] are attributes of [PhidataApp], [None] until
    a group is registered and a [collections.OrderedDict] from then on. *)

(** [collections.OrderedDict] with string keys: the items in insertion
    order, no key twice. *)
Definition OrderedDict (V : Type) : Type := list (string * V).

(** [d[k]] as [d.get(k)]. *)
Fixpoint odict_get {V} (k : string) (d : OrderedDict V) : option V :=
  match d with
  | [] => None
  | (k', v') :: d => if decide (k' = k) then Some v' else odict_get k d
  end.

(** [d[k] = v]: an existing key keeps its place and takes the new value, a
    new key goes to the end. *)
Fixpoint odict_set {V} (k : string) (v : V) (d : OrderedDict V) : OrderedDict V :=
  match d with
  | [] => [(k, v)]
  | (k', v') :: d => if decide (k' = k) then (k, v) :: d else (k', v') :: odict_set k v d
  end.

Definition odict_keys {V} (d : OrderedDict V) : list string := fst <$> d.

(** What [d[name] = rg] on the registry [before] (created first if it is
    [None]) leaves behind: [name] is bound to [rg], every other key is bound
    as before, and the keys are the old ones in their order, with [name] at
    the end if it is new. *)
Definition registered {G} (name : string) (rg : G) (before after : option (OrderedDict G))
  : Prop :=
  ∃ d, after = Some d ∧
       odict_get name d = Some rg ∧
       (∀ k, k ≠ name → odict_get k d = odict_get k (default [] before)) ∧
       odict_keys d =
         if decide (name ∈ odict_keys (default [] before))
         then odict_keys (default [] before)
         else odict_keys (default [] before) ++ [name].

Module ServerBaseInit.
Section Init.
Variable X : Externals.t.
(** [K8sResourceGroup.name]; the class is not under [src/]. *)
Variable k8s_rg_name : K8sResourceGroup -> string.

(** The three statements after [if rg is not None]: the registry is created
    if need be and the group is stored under its name. *)
Definition register {G} (name : G -> string) (groups : option (OrderedDict G)) (rg : G)
  : option (OrderedDict G) :=
  let groups := match groups with
                | Some d => d
                | None => []
                end in
  Some (odict_set (name rg) rg groups).

(** [ServerBase.init_docker_resource_groups]: the exception that escapes, if
    any, the app and [self.docker_resource_groups] afterwards. *)
Definition init_docker_resource_groups (self : ServerBase.t)
    (docker_resource_groups : option (OrderedDict DockerResourceGroup.t))
    (docker_build_context : BuildContext)
  : option PyError * ServerBase.t * option (OrderedDict DockerResourceGroup.t) :=
  let '(docker_rg, self) := ServerBase.get_docker_rg X self docker_build_context in
  match docker_rg with
  | Built docker_rg =>
    (None, self, register DockerResourceGroup.name docker_resource_groups docker_rg)
  | Absent => (None, self, docker_resource_groups)
  | Raised e => (Some e, self, docker_resource_groups)
  end.

(** [ServerBase.init_k8s_resource_groups]. *)
Definition init_k8s_resource_groups (self : ServerBase.t)
    (k8s_resource_groups : option (OrderedDict K8sResourceGroup))
    (k8s_build_context : BuildContext)
  : option PyError * ServerBase.t * BuildContext * option (OrderedDict K8sResourceGroup) :=
  let '(k8s_rg, self, k8s_build_context) :=
    ServerBase.get_k8s_rg X self k8s_build_context in
  match k8s_rg with
  | Built k8s_rg =>
    (None, self, k8s_build_context, register k8s_rg_name k8s_resource_groups k8s_rg)
  | Absent => (None, self, k8s_build_context, k8s_resource_groups)
  | Raised e => (Some e, self, k8s_build_context, k8s_resource_groups)
  end.

(** [ServerBase.init_aws_resource_groups]. *)
Definition init_aws_resource_groups (self : ServerBase.t)
    (aws_resource_groups : option (OrderedDict AwsResourceGroup.t))
    (aws_build_context : BuildContext)
  : option PyError * ServerBase.t * option (OrderedDict AwsResourceGroup.t) :=
  let '(aws_rg, self) := ServerBase.get_aws_rg X self aws_build_context in
  match aws_rg with
  | Built aws_rg =>
    (None, self, register AwsResourceGroup.name aws_resource_groups aws_rg)
  | Absent => (None, self, aws_resource_groups)
  | Raised e => (Some e, self, aws_resource_groups)
  end.

End Init.
End ServerBaseInit.

(** ** Sample configurations

    Concrete apps on which the builders are run below.  The values of the
    constants and of the inherited members are illustrative. *)

Module Samples.
Import ServerBaseArgs.

(** The defaults of [ServerBase.__init__] with ten options set. *)
Definition configured
    (container_ports_docker' : option Dict)
    (open_container_port' : bool)
    (container_host_port' : Z)
    (mount_workspace' : bool)
    (workspace_volume_type' : option WorkspaceVolumeType)
    (create_git_sync_sidecar' : bool)
    (pod_annotations' : option StrDict)
    (extra_configmaps' : option (list CreateConfigMap.t))
    (aws_subnets' : option (list string))
    (env' : option StrDict)
  : ServerBaseArgs.t := {|
  name := "server";
  enabled := true;
  image := None;
  image_name := "phidata/server";
  image_tag := "1.5.0";
  entrypoint := None;
  command := None;
  install_requirements := false;
  python_path := None;
  add_python_path := None;
  container_labels := None;
  env := env';
  secrets := None;
  open_container_port := open_container_port';
  container_port := 8080;
  container_port_name := "http";
  container_host_port := container_host_port';
  mount_workspace := mount_workspace';
  workspace_volume_name := None;
  workspace_volume_type := workspace_volume_type';
  workspace_volume_host_path := None;
  create_git_sync_sidecar := create_git_sync_sidecar';
  create_git_sync_init_container := true;
  git_sync_image_name := "k8s.gcr.io/git-sync";
  git_sync_image_tag := "v3.1.1";
  git_sync_repo := None;
  git_sync_branch := None;
  git_sync_wait := (Some 1);
  container_detach := true;
  container_auto_remove := true;
  container_remove := true;
  container_user := None;
  container_stdin_open := true;
  container_tty := true;
  container_healthcheck := None;
  container_hostname := None;
  container_platform := None;
  container_working_dir := None;
  container_volumes_docker := None;
  container_ports_docker := container_ports_docker';
  replicas := 1;
  secret_name := None;
  configmap_name := None;
  image_pull_policy := None;
  pod_annotations := pod_annotations';
  pod_node_selector := None;
  deploy_restart_policy := None;
  deploy_labels := None;
  termination_grace_period_seconds := None;
  topology_spread_key := None;
  topology_spread_max_skew := None;
  topology_spread_when_unsatisfiable := None;
  create_service := false;
  service_type := None;
  service_port := 8000;
  service_target_port := None;
  service_labels := None;
  use_rbac := false;
  ns_name := None;
  namespace := None;
  sa_name := None;
  service_account := None;
  cr_name := None;
  cluster_role := None;
  crb_name := None;
  cluster_role_binding := None;
  extra_secrets := None;
  extra_configmaps := extra_configmaps';
  extra_services := None;
  extra_deployments := None;
  extra_pvs := None;
  extra_pvcs := None;
  extra_containers := None;
  extra_init_containers := None;
  extra_ports := None;
  extra_volumes := None;
  extra_storage_classes := None;
  extra_custom_objects := None;
  extra_crds := None;
  ecs_cluster := None;
  ecs_launch_type := "FARGATE";
  ecs_task_cpu := "256";
  ecs_task_memory := "512";
  ecs_service_count := 1;
  assign_public_ip := true;
  elb := None;
  aws_subnets := aws_subnets';
  aws_security_groups := None;
  print_env_on_load := false;
  skip_create := false;
  skip_delete := false;
  wait_for_creation := true;
  wait_for_deletion := true;
  use_cache := true;
|}.

Definition externals : Externals.t := {|
  Externals.PYTHONPATH_ENV_VAR := "PYTHONPATH";
  Externals.PHIDATA_RUNTIME_ENV_VAR := "PHIDATA_RUNTIME";
  Externals.SCRIPTS_DIR_ENV_VAR := "PHI_SCRIPTS_DIR";
  Externals.STORAGE_DIR_ENV_VAR := "PHI_STORAGE_DIR";
  Externals.META_DIR_ENV_VAR := "PHI_META_DIR";
  Externals.PRODUCTS_DIR_ENV_VAR := "PHI_PRODUCTS_DIR";
  Externals.NOTEBOOKS_DIR_ENV_VAR := "PHI_NOTEBOOKS_DIR";
  Externals.WORKFLOWS_DIR_ENV_VAR := "PHI_WORKFLOWS_DIR";
  Externals.WORKSPACE_ROOT_ENV_VAR := "PHI_WORKSPACE_ROOT";
  Externals.WORKSPACES_MOUNT_ENV_VAR := "PHI_WORKSPACES_MOUNT";
  Externals.WORKSPACE_CONFIG_DIR_ENV_VAR := "PHI_WORKSPACE_CONFIG_DIR";
  Externals.AWS_REGION_ENV_VAR := "AWS_REGION";
  Externals.AWS_PROFILE_ENV_VAR := "AWS_PROFILE";
  Externals.get_default_volume_name := fun n => n;
  (* subnet-a and subnet-b lie in vpc-1, every other subnet in vpc-2 *)
  Externals.get_vpc_id := fun subnet =>
    if bool_decide (subnet = "subnet-a") || bool_decide (subnet = "subnet-b")
    then Some "vpc-1" else Some "vpc-2";
|}.

Definition container_paths : ContainerPathContext := {|
  workspace_root := "/usr/local/server/ws";
  workspace_parent := "/usr/local/server";
  scripts_dir := "/usr/local/server/ws/scripts";
  storage_dir := "/usr/local/server/ws/storage";
  meta_dir := "/usr/local/server/ws/meta";
  products_dir := "/usr/local/server/ws/products";
  notebooks_dir := "/usr/local/server/ws/notebooks";
  workflows_dir := "/usr/local/server/ws/workflows";
  workspace_config_dir := "/usr/local/server/ws/workspace";
  requirements_file := "/usr/local/server/ws/requirements.txt";
|}.

Definition workspace_path : Path := {| path_str := "/home/me/ws"; stem := "ws" |}.

(** An app whose workspace is known ([rooted = true]) or not. *)
Definition phidata_app (rooted : bool) : PhidataApp.t := {|
  PhidataApp.workspace_root_path := if rooted then Some workspace_path else None;
  PhidataApp.enabled := true;
  PhidataApp.aws_region := Some "us-east-1";
  PhidataApp.aws_profile := None;
  PhidataApp.get_container_paths := fun _ => Some container_paths;
  PhidataApp.get_container_name := "server-container";
  PhidataApp.get_image_str := "phidata/server:1.5.0";
  PhidataApp.get_container_port := 8080;
  PhidataApp.get_container_restart_policy_docker := None;
  PhidataApp.get_env_data := Some {[ "STAGE" := "file"; "REGION" := "file" ]};
  PhidataApp.get_secret_data := None;
  PhidataApp.get_sa_name := "server-sa";
  PhidataApp.get_cr_name := "server-cr";
  PhidataApp.get_crb_name := "server-crb";
  PhidataApp.get_configmap_name := "server-cm";
  PhidataApp.get_secret_name := "server-secret";
  PhidataApp.get_deploy_name := "server-deploy";
  PhidataApp.get_pod_name := "server-pod";
  PhidataApp.get_service_name := "server-svc";
|}.

Definition app (a : ServerBaseArgs.t) : ServerBase.t :=
  {| ServerBase.base := phidata_app true; ServerBase.args := a |}.

Definition docker_context : BuildContext :=
  DockerContext {| DockerBuildContext.network := "phi" |}.

Definition k8s_build_context : K8sBuildContext.t :=
  {| K8sBuildContext.namespace := "default";
     K8sBuildContext.service_account_name := None;
     K8sBuildContext.labels := None |}.

Definition k8s_context : BuildContext := K8sContext k8s_build_context.

(** Docker: [open_container_port=True], [container_port=8080],
    [container_host_port=3333] and a caller-supplied port map. *)
Definition user_ports : Dict := {[ "2222/tcp" := PInt 3333 ]}.
Definition docker_ports_args : ServerBaseArgs.t :=
  configured (Some user_ports) true 3333 false None false None None None None.

(** Docker: as above, with a caller-supplied binding for ["8080"] itself. *)
Definition colliding_ports : Dict := {[ "8080" := PInt 9999; "2222/tcp" := PInt 3333 ]}.
Definition colliding_ports_args : ServerBaseArgs.t :=
  configured (Some colliding_ports) true 3333 false None false None None None None.

(** K8s: an [EmptyDir] workspace with a git-sync sidecar requested and no
    repository configured. *)
Definition git_sync_without_repo_args : ServerBaseArgs.t :=
  configured None false 8080 true (Some EmptyDir) true None None None None.

(** K8s: the caller's pod annotations name a default container themselves. *)
Definition own_default_container_args : ServerBaseArgs.t :=
  configured None false 8080 false None false
    (Some {[ "kubectl.kubernetes.io/default-container" := "proxy" ]}) None None None.

(** K8s: one caller-supplied ConfigMap and an inline [env]. *)
Definition user_configmap : CreateConfigMap.t := {|
  CreateConfigMap.cm_name := "shared-cm";
  CreateConfigMap.app_name := "server";
  CreateConfigMap.namespace := "default";
  CreateConfigMap.data := {[ "SHARED" := "1" ]};
  CreateConfigMap.labels := None |}.
Definition k8s_env_args : ServerBaseArgs.t :=
  configured None false 8080 false None false None (Some [user_configmap]) None
    (Some {[ "STAGE" := "inline"; "PHIDATA_RUNTIME" := "inline" ]}).

(** AWS: subnets in one VPC, in two VPCs, none, and unset. *)
Definition aws_args (subnets : option (list string)) : ServerBaseArgs.t :=
  configured None false 8080 false None false None None subnets None.

(** A telemetry API that is enabled, answers every request with the
    response ["ok"], whose body decodes to a dictionary that validates. *)
Definition telemetry : Conversation.Api unit unit string string := {|
  Conversation.api_enabled := true;
  Conversation.CONVERSATION_EVENT := "/conversation-event";
  Conversation.event_model_dump := fun _ => PDict [];
  Conversation.workspace_model_dump := fun _ => PDict [];
  Conversation.post := fun _ _ => Returns "ok";
  Conversation.invalid_response := fun r => negb (String.eqb r "ok");
  Conversation.json := fun r => Returns (PDict [("status", PStr r)]);
  Conversation.model_validate := fun j => Returns (Some "success");
|}.

(** The defaults of [ServerBase.__init__] with eight K8s options set. *)
Definition configured_k8s
    (use_rbac' : bool)
    (create_service' : bool)
    (open_container_port' : bool)
    (mount_workspace' : bool)
    (workspace_volume_type' : option WorkspaceVolumeType)
    (create_git_sync_sidecar' : bool)
    (create_git_sync_init_container' : bool)
    (git_sync_repo' : option string)
  : ServerBaseArgs.t := {|
  name := "server";
  enabled := true;
  image := None;
  image_name := "phidata/server";
  image_tag := "1.5.0";
  entrypoint := None;
  command := None;
  install_requirements := false;
  python_path := None;
  add_python_path := None;
  container_labels := None;
  env := None;
  secrets := None;
  open_container_port := open_container_port';
  container_port := 8080;
  container_port_name := "http";
  container_host_port := 8080;
  mount_workspace := mount_workspace';
  workspace_volume_name := None;
  workspace_volume_type := workspace_volume_type';
  workspace_volume_host_path := None;
  create_git_sync_sidecar := create_git_sync_sidecar';
  create_git_sync_init_container := create_git_sync_init_container';
  git_sync_image_name := "k8s.gcr.io/git-sync";
  git_sync_image_tag := "v3.1.1";
  git_sync_repo := git_sync_repo';
  git_sync_branch := None;
  git_sync_wait := (Some 1);
  container_detach := true;
  container_auto_remove := true;
  container_remove := true;
  container_user := None;
  container_stdin_open := true;
  container_tty := true;
  container_healthcheck := None;
  container_hostname := None;
  container_platform := None;
  container_working_dir := None;
  container_volumes_docker := None;
  container_ports_docker := None;
  replicas := 1;
  secret_name := None;
  configmap_name := None;
  image_pull_policy := None;
  pod_annotations := None;
  pod_node_selector := None;
  deploy_restart_policy := None;
  deploy_labels := None;
  termination_grace_period_seconds := None;
  topology_spread_key := None;
  topology_spread_max_skew := None;
  topology_spread_when_unsatisfiable := None;
  create_service := create_service';
  service_type := None;
  service_port := 8000;
  service_target_port := None;
  service_labels := None;
  use_rbac := use_rbac';
  ns_name := None;
  namespace := None;
  sa_name := None;
  service_account := None;
  cr_name := None;
  cluster_role := None;
  crb_name := None;
  cluster_role_binding := None;
  extra_secrets := None;
  extra_configmaps := None;
  extra_services := None;
  extra_deployments := None;
  extra_pvs := None;
  extra_pvcs := None;
  extra_containers := None;
  extra_init_containers := None;
  extra_ports := None;
  extra_volumes := None;
  extra_storage_classes := None;
  extra_custom_objects := None;
  extra_crds := None;
  ecs_cluster := None;
  ecs_launch_type := "FARGATE";
  ecs_task_cpu := "256";
  ecs_task_memory := "512";
  ecs_service_count := 1;
  assign_public_ip := true;
  elb := None;
  aws_subnets := None;
  aws_security_groups := None;
  print_env_on_load := false;
  skip_create := false;
  skip_delete := false;
  wait_for_creation := true;
  wait_for_deletion := true;
  use_cache := true;
|}.

(** K8s: RBAC, a Service and an open port. *)
Definition rbac_service_args : ServerBaseArgs.t :=
  configured_k8s true true true false None false true None.

(** K8s: an [EmptyDir] workspace synced from a repository, with the init
    container. *)
Definition git_sync_args : ServerBaseArgs.t :=
  configured_k8s false false false true None true true
    (Some "https://github.com/me/ws.git").

(** Docker: the workspace mounted from the host, and an unsupported volume
    type. *)
Definition docker_mount_args : ServerBaseArgs.t :=
  configured None false 8080 true (Some HostPath) false None None None None.
Definition unsupported_volume_args : ServerBaseArgs.t :=
  configured None false 8080 true (Some (OtherVolumeType "AwsEbs")) false None None None None.

(** An app without a workspace. *)
Definition unrooted_app (a : ServerBaseArgs.t) : ServerBase.t :=
  {| ServerBase.base := phidata_app false; ServerBase.args := a |}.

End Samples.

(** * Properties *)

(** ** The conversation event logger *)

Section LoggerProperties.
Context {ConversationEventCreate ConversationWorkspace Response
         ConversationResponseSchema : Type}.
Variable api : Conversation.Api ConversationEventCreate ConversationWorkspace
                 Response ConversationResponseSchema.
Variable conversation : ConversationEventCreate.
Variable workspace : ConversationWorkspace.

Import Conversation.

(** An exception of class [Exception] never leaves the logger. *)
Lemma log_conversation_event_returns :
  (∃ v, log_conversation_event api conversation workspace = Returns v) ∨
  (∃ e, is_Exception e = false ∧
        log_conversation_event api conversation workspace = Raises e).
Proof.
  unfold log_conversation_event.
  destruct (api_enabled api); simpl; [|by left; eexists].
  destruct (log_conversation_event_try api conversation workspace) as [v|e]; simpl.
  - left. by exists v.
  - destruct (is_Exception e) eqn:E; [by left; eexists|].
    right. by exists e.
Qed.

(** C6: [log_conversation_event] returns [None], and raises nothing, when
    telemetry is disabled, when the transport raises, when the response is
    classified invalid, and when decoding or validating the body raises; it
    returns a parsed response schema exactly when the request succeeds, the
    response is valid and validation returns the schema. *)
Theorem log_conversation_event_best_effort :
  (api_enabled api = false →
     log_conversation_event api conversation workspace = Returns None) ∧
  (∀ e, event_request api conversation workspace = Raises e →
        is_Exception e = true →
     log_conversation_event api conversation workspace = Returns None) ∧
  (∀ r, event_request api conversation workspace = Returns r →
        invalid_response api r = true →
     log_conversation_event api conversation workspace = Returns None) ∧
  (∀ r e, event_request api conversation workspace = Returns r →
          json api r = Raises e → is_Exception e = true →
     log_conversation_event api conversation workspace = Returns None) ∧
  (∀ r j e, event_request api conversation workspace = Returns r → json api r = Returns j →
     model_validate api j = Raises e → is_Exception e = true →
     log_conversation_event api conversation workspace = Returns None) ∧
  (∀ s, log_conversation_event api conversation workspace = Returns (Some s) ↔
        event_accepted api conversation workspace s).
Proof.
  unfold event_accepted, event_request, log_conversation_event, log_conversation_event_try.
  split_and!.
  - by intros ->.
  - intros e -> He. destruct (api_enabled api); simpl; [by rewrite He|done].
  - intros r -> Hr. destruct (api_enabled api); simpl; [by rewrite Hr|done].
  - intros r e -> Hj He. destruct (api_enabled api); simpl; [|done].
    destruct (invalid_response api r); simpl; [done|]. by rewrite Hj; simpl; rewrite He.
  - intros r j e -> Hj Hv He. destruct (api_enabled api); simpl; [|done].
    destruct (invalid_response api r); simpl; [done|]. rewrite Hj; simpl.
    destruct j; simpl; try done; by rewrite Hv; simpl; rewrite He.
  - intros s. split.
    + destruct (api_enabled api); simpl; [|by intros [=]].
      destruct (post _ _ _) as [r|e]; simpl; [|by destruct (is_Exception e)].
      destruct (invalid_response api r) eqn:Hr; simpl; [by intros [=]|].
      destruct (json api r) as [j|e] eqn:Hj; simpl; [|by destruct (is_Exception e)].
      intros H. split; [done|]. exists r, j. split_and!; try done.
      * intros ->. by simpl in H.
      * destruct (model_validate api j) as [[s'|]|e] eqn:Hv;
          destruct j; simpl in H; try done; try by simplify_eq.
        all: by destruct (is_Exception e).
    + intros (-> & r & j & -> & Hr & Hj & Hne & Hv); simpl.
      rewrite Hr; simpl. rewrite Hj; simpl.
      destruct j; try done; by rewrite Hv.
Qed.

End LoggerProperties.

(** ** Dictionaries *)

Lemma lookup_update_opt {V} (d : gmap string V) (e : option (gmap string V)) (k : string) :
  update_opt d e !! k =
  match e ≫= (.!! k) with
  | Some v => Some v
  | None => d !! k
  end.
Proof.
  destruct e as [e|]; simpl; [|done].
  rewrite lookup_union. by destruct (e !! k), (d !! k).
Qed.

Lemma update_opt_union {V} (d : gmap string V) (e : option (gmap string V)) :
  update_opt d e = default ∅ e ∪ d.
Proof. destruct e; simpl; [done|]. by rewrite (left_id_L ∅ (∪)). Qed.

Lemma dict_or_None_insert {V} (d : gmap string V) (k : string) (v : V) :
  dict_or_None (<[ k := v ]> d) = Some (<[ k := v ]> d).
Proof.
  unfold dict_or_None, truthy_dict. rewrite bool_decide_true; [done|].
  intros E. apply map_size_empty_inv in E. by apply insert_non_empty in E.
Qed.

Lemma py_or_dict_lookup {V} (field : option (gmap string V)) (k : string) :
  py_or truthy_dict field ∅ !! k = field ≫= (.!! k).
Proof.
  destruct field as [d|]; simpl; [|done].
  unfold truthy_dict. case_bool_decide as E; [done|].
  assert (d = ∅) as -> by (apply map_size_empty_inv; by destruct (size d)).
  done.
Qed.

(** ** The Docker builder *)

Section DockerProperties.
Variable X : Externals.t.
Import ServerBase ServerBaseArgs.

Lemma get_docker_rg_wrong_context (self : ServerBase.t) (c : BuildContext) :
  (∀ d, c ≠ DockerContext d) → get_docker_rg X self c = (Absent, self).
Proof. intros H. destruct c; try done. by destruct (H c). Qed.

(** What a successful Docker build consists of. *)
Lemma get_docker_rg_built (self : ServerBase.t) (c : BuildContext) (rg : DockerResourceGroup.t) :
  (get_docker_rg X self c).1 = Built rg →
  ∃ ctx wrp cp vols ct,
    c = DockerContext ctx ∧
    PhidataApp.workspace_root_path (base self) = Some wrp ∧
    PhidataApp.get_container_paths (base self) None = Some cp ∧
    docker_container_volumes X self wrp cp
      (py_or truthy_dict (container_volumes_docker (args self)) ∅) = Some vols ∧
    DockerResourceGroup.containers rg = [ct] ∧
    DockerContainer.ports ct =
      dict_or_None (docker_container_ports (args self)
                      (py_or truthy_dict (container_ports_docker (args self)) ∅)) ∧
    DockerContainer.environment ct =
      set_container_env self
        (set_aws_env_vars X (base self)
           (runtime_env X "docker" (Some (container_python_path (args self) cp)) (args self) cp)).
Proof.
  unfold get_docker_rg. destruct c as [|ctx| | |]; try done.
  destruct (PhidataApp.workspace_root_path (base self)) as [wrp|]; [|done].
  destruct (PhidataApp.get_container_paths (base self) None) as [cp|]; [|done].
  destruct (docker_container_volumes X self wrp cp _) as [vols|] eqn:Hv; [|done].
  cbn [fst]. intros [= <-]. by eexists ctx, wrp, cp, vols, _.
Qed.

(** A Docker build whose context and workspace paths are in order and whose
    workspace volume type is supported returns a graph. *)
Lemma get_docker_rg_builds (self : ServerBase.t) (ctx : DockerBuildContext.t)
    (wrp : Path) (cp : ContainerPathContext) :
  PhidataApp.workspace_root_path (base self) = Some wrp →
  PhidataApp.get_container_paths (base self) None = Some cp →
  (mount_workspace (args self) = true →
   ∀ n, workspace_volume_type (args self) ≠ Some (OtherVolumeType n)) →
  ∃ rg, (get_docker_rg X self (DockerContext ctx)).1 = Built rg.
Proof.
  intros Hw Hc Ht. unfold get_docker_rg. rewrite Hw, Hc.
  unfold docker_container_volumes.
  destruct (mount_workspace (args self));
    [destruct (workspace_volume_type (args self)) as [[| |n]|]|];
    try (by eexists).
  by destruct (Ht eq_refl n).
Qed.

(** C7 (as the code has it): with [open_container_port=True],
    [container_port=8080] and [container_host_port=3333] the container of a
    Docker build has a port map that binds ["8080"] to [3333], also where
    the caller had bound ["8080"] to something else; every key of the
    caller's [container_ports_docker] is still bound in it, and every key
    other than ["8080"] is bound to what the caller bound it to. *)
Theorem get_docker_rg_port_binding (self : ServerBase.t) (c : BuildContext)
    (rg : DockerResourceGroup.t) :
  open_container_port (args self) = true →
  container_port (args self) = 8080 →
  container_host_port (args self) = 3333 →
  (get_docker_rg X self c).1 = Built rg →
  ∃ ct ports,
    DockerResourceGroup.containers rg = [ct] ∧
    DockerContainer.ports ct = Some ports ∧
    ports !! "8080" = Some (PInt 3333) ∧
    ∀ user, container_ports_docker (args self) = Some user →
      ∀ k, (is_Some (user !! k) → is_Some (ports !! k)) ∧
           (k ≠ "8080" → ports !! k = user !! k).
Proof.
  intros Hopen Hport Hhost (ctx & wrp & cp & vols & ct & _ & _ & _ & _ & Hct & Hports & _)%get_docker_rg_built.
  unfold docker_container_ports in Hports.
  rewrite Hopen, Hport, Hhost in Hports.
  change (str_int 8080) with "8080" in Hports.
  rewrite dict_or_None_insert in Hports.
  eexists ct, _. split_and!; [done|exact Hports|by rewrite lookup_insert_eq|].
  intros user Huser k. split.
  - intros Hk. destruct (decide (k = "8080")) as [->|Hne].
    + by rewrite lookup_insert_eq.
    + rewrite lookup_insert_ne by done. by rewrite py_or_dict_lookup, Huser.
  - intros Hne. rewrite lookup_insert_ne by done. by rewrite py_or_dict_lookup, Huser.
Qed.

(** X20: the app is left as it was when the two dictionaries the builder
    binds are unset or empty: the local names then denote new objects. *)
Lemma get_docker_rg_frame_fresh (self : ServerBase.t) (c : BuildContext) :
  origin_of truthy_dict (container_volumes_docker (args self)) = FreshObject →
  origin_of truthy_dict (container_ports_docker (args self)) = FreshObject →
  (get_docker_rg X self c).2 = self.
Proof.
  intros Hv Hp. unfold get_docker_rg. destruct c as [|ctx| | |]; try done.
  destruct (PhidataApp.workspace_root_path (base self)) as [wrp|]; [|done].
  destruct (PhidataApp.get_container_paths (base self) None) as [cp|]; [|done].
  destruct (docker_container_volumes X self wrp cp _) as [vols|]; [|done].
  cbn [snd]. rewrite Hv, Hp. cbn [store_back].
  destruct self as [b a]. by destruct a.
Qed.

End DockerProperties.

(** ** The Kubernetes builder *)

Lemma list_or_None_snoc {A} (l : list A) (x : A) :
  list_or_None (l ++ [x]) = Some (l ++ [x]).
Proof.
  unfold list_or_None, truthy_list. rewrite bool_decide_true; [done|].
  rewrite length_app; simpl; lia.
Qed.

Lemma list_or_None_py_or {A} (field : option (list A)) :
  list_or_None (py_or truthy_list field []) = field ≫= list_or_None.
Proof.
  destruct field as [l|]; simpl; [|done].
  unfold list_or_None. by destruct (truthy_list l) eqn:E; [rewrite E|].
Qed.

Section K8sProperties.
Variable X : Externals.t.
Import ServerBase ServerBaseArgs.

Lemma get_k8s_rg_wrong_context (self : ServerBase.t) (c : BuildContext) :
  (∀ k, c ≠ K8sContext k) → get_k8s_rg X self c = (Absent, self, c).
Proof. intros H. destruct c; try done. by destruct (H c). Qed.

Lemma get_k8s_rg_built (self : ServerBase.t) (c : BuildContext) (r : K8sResourceGroup) :
  (get_k8s_rg X self c).1.1 = Built r →
  ∃ ctx wrp cp,
    c = K8sContext ctx ∧
    PhidataApp.workspace_root_path (base self) = Some wrp ∧
    PhidataApp.get_container_paths (base self) None = Some cp ∧
    r = create (k8s_create_group X self ctx wrp cp).1.1.
Proof.
  unfold get_k8s_rg. destruct c as [| |ctx| |]; try done.
  destruct (PhidataApp.workspace_root_path (base self)) as [wrp|]; [|done].
  destruct (PhidataApp.get_container_paths (base self) None) as [cp|]; [|done].
  destruct (k8s_create_group X self ctx wrp cp) as [[g s'] c'] eqn:E.
  simpl. intros [= <-]. exists ctx, wrp, cp. by rewrite E.
Qed.

Lemma get_k8s_rg_builds (self : ServerBase.t) (ctx : K8sBuildContext.t)
    (wrp : Path) (cp : ContainerPathContext) :
  PhidataApp.workspace_root_path (base self) = Some wrp →
  PhidataApp.get_container_paths (base self) None = Some cp →
  (get_k8s_rg X self (K8sContext ctx)).1.1 =
  Built (create (k8s_create_group X self ctx wrp cp).1.1).
Proof.
  intros Hw Hc. unfold get_k8s_rg. rewrite Hw, Hc.
  by destruct (k8s_create_group X self ctx wrp cp) as [[g s'] c'].
Qed.

(** The [ConfigMap] of a group carries [container_env]. *)
Lemma k8s_create_group_configmap (self : ServerBase.t) (ctx : K8sBuildContext.t)
    (wrp : Path) (cp : ContainerPathContext) :
  CreateConfigMap.data <$> generated_configmap (k8s_create_group X self ctx wrp cp).1.1 =
  Some (k8s_container_env X self cp).
Proof.
  unfold k8s_create_group, generated_configmap.
  cbv zeta. unfold labels_with. cbv zeta.
  destruct (create_service (args self)); cbn [fst snd CreateK8sResourceGroup.config_maps];
    rewrite list_or_None_snoc; cbn [mbind option_bind]; by rewrite last_snoc.
Qed.

(** The [Deployment] of a group: the primary container comes first, then the
    containers the workspace block left in [containers]. *)
Lemma k8s_create_group_deployment (self : ServerBase.t) (ctx : K8sBuildContext.t)
    (wrp : Path) (cp : ContainerPathContext) :
  ∃ d spark cms secs,
    generated_deployment (k8s_create_group X self ctx wrp cp).1.1 = Some d ∧
    let ws := k8s_workspace_volume X self wrp cp cms secs
                (py_or truthy_list (extra_volumes (args self)) [])
                (py_or truthy_list (extra_containers (args self)) [])
                (py_or truthy_list (extra_init_containers (args self)) []) in
    CreateDeployment.containers d = spark :: ws_containers ws ∧
    CreateDeployment.init_containers d = list_or_None (ws_init_containers ws) ∧
    CreateDeployment.volumes d = list_or_None (ws_volumes ws) ∧
    CreateContainer.container_name spark = PhidataApp.get_container_name (base self) ∧
    CreateDeployment.pod_annotations d = k8s_pod_annotations (args self) spark.
Proof.
  unfold k8s_create_group, generated_deployment.
  cbv zeta. unfold labels_with. cbv zeta.
  destruct (create_service (args self)); cbn [fst snd CreateK8sResourceGroup.deployments];
    rewrite list_or_None_snoc; cbn [mbind option_bind]; rewrite last_snoc;
    eexists _, _, _, _; (split; [reflexivity|]); cbv zeta;
    cbn [CreateDeployment.containers CreateDeployment.init_containers
         CreateDeployment.volumes CreateDeployment.pod_annotations];
    split_and!; reflexivity.
Qed.

(** The workspace block when a sidecar is requested for an [EmptyDir]
    workspace and no repository is configured: the volume is added, the two
    container lists are left as they are. *)
Lemma k8s_workspace_volume_without_repo (self : ServerBase.t) (wrp : Path)
    (cp : ContainerPathContext) (cms : list CreateConfigMap.t) (secs : list CreateSecret.t)
    (vols : list CreateVolume.t) (cts inits : list CreateContainer.t) :
  mount_workspace (args self) = true →
  workspace_volume_type (args self) = None ∨
    workspace_volume_type (args self) = Some EmptyDir →
  create_git_sync_sidecar (args self) = true →
  git_sync_repo (args self) = None →
  ∃ v, CreateVolume.volume_type v = EMPTY_DIR ∧
       k8s_workspace_volume X self wrp cp cms secs vols cts inits =
       {| ws_volumes := vols ++ [v]; ws_containers := cts; ws_init_containers := inits |}.
Proof.
  intros Hm Ht Hs Hr. unfold k8s_workspace_volume. rewrite Hm, Hs, Hr.
  destruct Ht as [-> | ->]; eexists; (split; [|reflexivity]); reflexivity.
Qed.

(** What the builder does with an [EmptyDir] (or unset) workspace volume
    type, [mount_workspace], [create_git_sync_sidecar] and no
    [git_sync_repo], once the context and the workspace paths are in order:
    it goes on and returns a graph with the [EmptyDir] volume, whose
    Deployment holds the primary container followed by the caller's
    [extra_containers] only and no init container but the caller's. *)
Lemma get_k8s_rg_git_sync_without_repo (self : ServerBase.t) (ctx : K8sBuildContext.t)
    (wrp : Path) (cp : ContainerPathContext) :
  mount_workspace (args self) = true →
  workspace_volume_type (args self) = None ∨
    workspace_volume_type (args self) = Some EmptyDir →
  create_git_sync_sidecar (args self) = true →
  git_sync_repo (args self) = None →
  PhidataApp.workspace_root_path (base self) = Some wrp →
  PhidataApp.get_container_paths (base self) None = Some cp →
  ∃ g d spark v,
    (get_k8s_rg X self (K8sContext ctx)).1.1 = Built (create g) ∧
    generated_deployment g = Some d ∧
    CreateDeployment.containers d =
      spark :: py_or truthy_list (extra_containers (args self)) [] ∧
    CreateContainer.container_name spark = PhidataApp.get_container_name (base self) ∧
    CreateDeployment.init_containers d = extra_init_containers (args self) ≫= list_or_None ∧
    CreateDeployment.volumes d =
      Some (py_or truthy_list (extra_volumes (args self)) [] ++ [v]) ∧
    CreateVolume.volume_type v = EMPTY_DIR.
Proof.
  intros Hm Ht Hs Hr Hw Hc.
  destruct (k8s_create_group_deployment self ctx wrp cp)
    as (d & spark & cms & secs & Hd & Hcts & Hinits & Hvols & Hname & _).
  destruct (k8s_workspace_volume_without_repo self wrp cp cms secs
              (py_or truthy_list (extra_volumes (args self)) [])
              (py_or truthy_list (extra_containers (args self)) [])
              (py_or truthy_list (extra_init_containers (args self)) [])
              Hm Ht Hs Hr) as (v & Hv & Hws).
  rewrite Hws in Hcts, Hinits, Hvols. cbn [ws_volumes ws_containers ws_init_containers] in *.
  rewrite list_or_None_py_or in Hinits. rewrite list_or_None_snoc in Hvols.
  exists (k8s_create_group X self ctx wrp cp).1.1, d, spark, v. split_and!; try done.
  by apply get_k8s_rg_builds.
Qed.

(** C8 (as the code has it): in every K8s build the pod annotations of the
    Deployment map [kubectl.kubernetes.io/default-container] to the caller's
    own value for that key when [pod_annotations] has one, and to the name of
    the primary container otherwise; every annotation of the caller is
    carried over. *)
Theorem get_k8s_rg_default_container_annotation (self : ServerBase.t) (c : BuildContext)
    (r : K8sResourceGroup) :
  (get_k8s_rg X self c).1.1 = Built r →
  ∃ g d spark others,
    r = create g ∧
    generated_deployment g = Some d ∧
    CreateDeployment.containers d = spark :: others ∧
    CreateContainer.container_name spark = PhidataApp.get_container_name (base self) ∧
    CreateDeployment.pod_annotations d !! "kubectl.kubernetes.io/default-container" =
      Some (default (CreateContainer.container_name spark)
              (pod_annotations (args self) ≫=
                 (.!! "kubectl.kubernetes.io/default-container"))) ∧
    ∀ k v, pod_annotations (args self) ≫= (.!! k) = Some v →
           CreateDeployment.pod_annotations d !! k = Some v.
Proof.
  intros (ctx & wrp & cp & -> & Hw & Hc & ->)%get_k8s_rg_built.
  destruct (k8s_create_group_deployment self ctx wrp cp)
    as (d & spark & cms & secs & Hd & Hcts & _ & _ & Hname & Hann).
  eexists _, d, spark, _. split_and!; try done.
  - rewrite Hann. unfold k8s_pod_annotations. rewrite lookup_update_opt.
    destruct (pod_annotations (args self) ≫= _); [done|].
    unfold dict_literal. simpl. by rewrite lookup_insert_eq.
  - intros k v Hk. rewrite Hann. unfold k8s_pod_annotations.
    by rewrite lookup_update_opt, Hk.
Qed.

(** The environment of every K8s and Docker graph, by source. *)
Lemma built_env_precedence (self : ServerBase.t) :
  (∀ c r, (get_k8s_rg X self c).1.1 = Built r →
     ∃ g cm cp,
       r = create g ∧ generated_configmap g = Some cm ∧
       PhidataApp.get_container_paths (base self) None = Some cp ∧
       CreateConfigMap.data cm =
         default ∅ (env (args self)) ∪
         (default ∅ (PhidataApp.get_env_data (base self)) ∪
          (aws_env_vars X (base self) ∪
           runtime_env X "kubernetes" (Some (container_python_path (args self) cp))
             (args self) cp)) ∧
       ∀ k, CreateConfigMap.data cm !! k =
            by_precedence
              [env (args self);
               PhidataApp.get_env_data (base self);
               Some (aws_env_vars X (base self));
               Some (runtime_env X "kubernetes" (Some (container_python_path (args self) cp))
                       (args self) cp)] k) ∧
  (∀ c rg, (get_docker_rg X self c).1 = Built rg →
     ∃ ct cp,
       DockerResourceGroup.containers rg = [ct] ∧
       PhidataApp.get_container_paths (base self) None = Some cp ∧
       ∀ k, DockerContainer.environment ct !! k =
            by_precedence
              [env (args self);
               secrets (args self);
               PhidataApp.get_secret_data (base self);
               PhidataApp.get_env_data (base self);
               Some (aws_env_vars X (base self));
               Some (runtime_env X "docker" (Some (container_python_path (args self) cp))
                       (args self) cp)] k).
Proof.
  split.
  - intros c r (ctx & wrp & cp & -> & Hw & Hc & ->)%get_k8s_rg_built.
    pose proof (k8s_create_group_configmap self ctx wrp cp) as Hcm.
    destruct (generated_configmap _) as [cm|] eqn:E; [|done].
    simpl in Hcm. injection Hcm as Hcm.
    eexists _, cm, cp. split_and!; try done.
    + rewrite Hcm. unfold k8s_container_env, set_aws_env_vars.
      by rewrite !update_opt_union.
    + intros k. rewrite Hcm. unfold k8s_container_env, set_aws_env_vars, by_precedence.
      rewrite !lookup_update_opt, lookup_union. cbn [foldr mbind option_bind].
      destruct (env (args self) ≫= _); [done|].
      destruct (PhidataApp.get_env_data (base self) ≫= _); [done|].
      by destruct (aws_env_vars X (base self) !! k), (runtime_env _ _ _ _ _ !! k).
  - intros c rg (ctx & wrp & cp & vols & ct & _ & _ & Hc & _ & Hct & _ & Henv)%get_docker_rg_built.
    exists ct, cp. split_and!; try done.
    intros k. rewrite Henv. unfold set_container_env, set_aws_env_vars, by_precedence.
    rewrite !lookup_update_opt, lookup_union. cbn [foldr mbind option_bind].
    destruct (env (args self) ≫= _); [done|].
    destruct (secrets (args self) ≫= _); [done|].
    destruct (PhidataApp.get_secret_data (base self) ≫= _); [done|].
    destruct (PhidataApp.get_env_data (base self) ≫= _); [done|].
    by destruct (aws_env_vars X (base self) !! k), (runtime_env _ _ _ _ _ !! k).
Qed.

(** C5: a K8s build whose context and workspace paths are in order returns a
    graph whose [ConfigMap] holds the static runtime markers, overwritten by
    the AWS-derived variables, then by the variables of the env file, then by
    the inline [env]: each key has the value of the highest of these sources
    that defines it.  A Docker build whose context, paths and workspace
    volume type are in order returns a graph whose container environment is
    composed in the same order, with the secrets between the env file and
    the inline [env].  Every graph either builder returns is of this kind. *)
Theorem container_env_precedence (self : ServerBase.t) :
  (∀ ctx wrp cp,
     PhidataApp.workspace_root_path (base self) = Some wrp →
     PhidataApp.get_container_paths (base self) None = Some cp →
     ∃ g cm,
       (get_k8s_rg X self (K8sContext ctx)).1.1 = Built (create g) ∧
       generated_configmap g = Some cm ∧
       CreateConfigMap.data cm =
         default ∅ (env (args self)) ∪
         (default ∅ (PhidataApp.get_env_data (base self)) ∪
          (aws_env_vars X (base self) ∪
           runtime_env X "kubernetes" (Some (container_python_path (args self) cp))
             (args self) cp)) ∧
       ∀ k, CreateConfigMap.data cm !! k =
            by_precedence
              [env (args self);
               PhidataApp.get_env_data (base self);
               Some (aws_env_vars X (base self));
               Some (runtime_env X "kubernetes" (Some (container_python_path (args self) cp))
                       (args self) cp)] k) ∧
  (∀ ctx wrp cp,
     PhidataApp.workspace_root_path (base self) = Some wrp →
     PhidataApp.get_container_paths (base self) None = Some cp →
     (mount_workspace (args self) = true →
      ∀ n, workspace_volume_type (args self) ≠ Some (OtherVolumeType n)) →
     ∃ rg ct,
       (get_docker_rg X self (DockerContext ctx)).1 = Built rg ∧
       DockerResourceGroup.containers rg = [ct] ∧
       ∀ k, DockerContainer.environment ct !! k =
            by_precedence
              [env (args self);
               secrets (args self);
               PhidataApp.get_secret_data (base self);
               PhidataApp.get_env_data (base self);
               Some (aws_env_vars X (base self));
               Some (runtime_env X "docker" (Some (container_python_path (args self) cp))
                       (args self) cp)] k) ∧
  (∀ c r, (get_k8s_rg X self c).1.1 = Built r →
     ∃ g cm cp,
       r = create g ∧ generated_configmap g = Some cm ∧
       PhidataApp.get_container_paths (base self) None = Some cp ∧
       CreateConfigMap.data cm =
         default ∅ (env (args self)) ∪
         (default ∅ (PhidataApp.get_env_data (base self)) ∪
          (aws_env_vars X (base self) ∪
           runtime_env X "kubernetes" (Some (container_python_path (args self) cp))
             (args self) cp)) ∧
       ∀ k, CreateConfigMap.data cm !! k =
            by_precedence
              [env (args self);
               PhidataApp.get_env_data (base self);
               Some (aws_env_vars X (base self));
               Some (runtime_env X "kubernetes" (Some (container_python_path (args self) cp))
                       (args self) cp)] k) ∧
  (∀ c rg, (get_docker_rg X self c).1 = Built rg →
     ∃ ct cp,
       DockerResourceGroup.containers rg = [ct] ∧
       PhidataApp.get_container_paths (base self) None = Some cp ∧
       ∀ k, DockerContainer.environment ct !! k =
            by_precedence
              [env (args self);
               secrets (args self);
               PhidataApp.get_secret_data (base self);
               PhidataApp.get_env_data (base self);
               Some (aws_env_vars X (base self));
               Some (runtime_env X "docker" (Some (container_python_path (args self) cp))
                       (args self) cp)] k).
Proof.
  destruct (built_env_precedence self) as [HK HD].
  split_and!; [| |exact HK|exact HD].
  - intros ctx wrp cp Hw Hc.
    pose proof (get_k8s_rg_builds self ctx wrp cp Hw Hc) as Hb.
    destruct (HK _ _ Hb) as (g & cm & cp' & Hg & Hcm & Hc' & Hdata & Hk).
    rewrite Hc in Hc'. injection Hc' as <-.
    exists g, cm. split_and!; [by rewrite Hb, Hg|done..].
  - intros ctx wrp cp Hw Hc Ht.
    destruct (get_docker_rg_builds X self ctx wrp cp Hw Hc Ht) as (rg & Hb).
    destruct (HD _ _ Hb) as (ct & cp' & Hct & Hc' & Hk).
    rewrite Hc in Hc'. injection Hc' as <-.
    by exists rg, ct.
Qed.

End K8sProperties.

(** ** The AWS builder *)

Section AwsProperties.
Variable X : Externals.t.
Import ServerBase ServerBaseArgs.

(** *** The VPC of the subnets *)

Lemma vpc_ids_of_subnets_same (v : option string) (subnets : list string) :
  (∀ s, s ∈ subnets → Externals.get_vpc_id X s = v) →
  vpc_ids_of_subnets X subnets {[ v ]} = Returns {[ v ]}.
Proof.
  induction subnets as [|s subnets IH]; intros Hall; cbn [vpc_ids_of_subnets]; [done|].
  rewrite (Hall s) by left. rewrite (idemp_L (∪)).
  rewrite size_singleton. rewrite bool_decide_false by (intros ?; done).
  apply IH. intros s' Hs'. apply Hall. by right.
Qed.

Lemma vpc_ids_of_subnets_other (v : option string) (subnets : list string) :
  (∃ s, s ∈ subnets ∧ Externals.get_vpc_id X s ≠ v) →
  vpc_ids_of_subnets X subnets {[ v ]} =
  Raises (ValueError "Subnets must be in the same VPC").
Proof.
  induction subnets as [|s subnets IH]; intros (s' & Hin & Hne); cbn [vpc_ids_of_subnets].
  - by apply elem_of_nil in Hin.
  - destruct (decide (Externals.get_vpc_id X s = v)) as [E|E].
    + rewrite E, (idemp_L (∪)), size_singleton.
      rewrite bool_decide_false by (intros ?; done).
      apply IH. exists s'. split; [|done].
      apply elem_of_cons in Hin as [->|Hin]; [by destruct Hne|done].
    + rewrite bool_decide_true; [done|].
      rewrite size_union by set_solver. rewrite !size_singleton. lia.
Qed.

Lemma aws_vpc_id_same (a : ServerBaseArgs.t) (subnets : list string) (v : option string) :
  aws_subnets a = Some subnets → subnets ≠ [] →
  (∀ s, s ∈ subnets → Externals.get_vpc_id X s = v) →
  aws_vpc_id X a = Returns v.
Proof.
  intros Hs Hne Hall. unfold aws_vpc_id. rewrite Hs.
  destruct subnets as [|s subnets]; [done|]. cbn [vpc_ids_of_subnets].
  rewrite (Hall s) by left. rewrite (right_id_L ∅ (∪)), size_singleton.
  rewrite bool_decide_false by (intros ?; done).
  rewrite vpc_ids_of_subnets_same by (intros s' Hs'; apply Hall; by right).
  simpl. unfold set_pop. by rewrite elements_singleton.
Qed.

Lemma aws_vpc_id_several (a : ServerBaseArgs.t) (subnets : list string) :
  aws_subnets a = Some subnets →
  (∃ s1 s2, s1 ∈ subnets ∧ s2 ∈ subnets ∧
            Externals.get_vpc_id X s1 ≠ Externals.get_vpc_id X s2) →
  aws_vpc_id X a = Raises (ValueError "Subnets must be in the same VPC").
Proof.
  intros Hs (s1 & s2 & H1 & H2 & Hne). unfold aws_vpc_id. rewrite Hs.
  destruct subnets as [|s subnets]; [by apply elem_of_nil in H1|]. cbn [vpc_ids_of_subnets].
  rewrite (right_id_L ∅ (∪)), size_singleton.
  rewrite bool_decide_false by (intros ?; done).
  rewrite vpc_ids_of_subnets_other; [done|].
  destruct (decide (Externals.get_vpc_id X s1 = Externals.get_vpc_id X s)) as [E1|E1].
  - exists s2. split; [|congruence].
    apply elem_of_cons in H2 as [->|H2]; [by rewrite E1 in Hne|done].
  - exists s1. split; [|done].
    apply elem_of_cons in H1 as [->|H1]; [done|done].
Qed.

Lemma vpc_ids_of_subnets_cases (v : option string) (subnets : list string) :
  vpc_ids_of_subnets X subnets {[ v ]} = Returns {[ v ]} ∨
  vpc_ids_of_subnets X subnets {[ v ]} =
  Raises (ValueError "Subnets must be in the same VPC").
Proof.
  destruct (decide (Forall (fun s => Externals.get_vpc_id X s = v) subnets)) as [H|H].
  - left. apply vpc_ids_of_subnets_same. by apply Forall_forall.
  - right. apply vpc_ids_of_subnets_other.
    apply not_Forall_Exists in H; [|apply _].
    apply Exists_exists in H as (s & Hin & Hs). by exists s.
Qed.

(** *** The builder *)

(** Once the workspace paths are known, the outcome is decided by the VPC
    lookup. *)
Lemma get_aws_rg_raises (self : ServerBase.t) (c : BuildContext)
    (wrp : Path) (cp : ContainerPathContext) (e : PyError) :
  PhidataApp.workspace_root_path (base self) = Some wrp →
  PhidataApp.get_container_paths (base self) (Some false) = Some cp →
  aws_vpc_id X (args self) = Raises e →
  (get_aws_rg X self c).1 = Raised e.
Proof. intros Hw Hc Hv. unfold get_aws_rg. by rewrite Hw, Hc, Hv. Qed.

Lemma get_aws_rg_builds (self : ServerBase.t) (c : BuildContext)
    (wrp : Path) (cp : ContainerPathContext) (v : option string) :
  PhidataApp.workspace_root_path (base self) = Some wrp →
  PhidataApp.get_container_paths (base self) (Some false) = Some cp →
  aws_vpc_id X (args self) = Returns v →
  ∃ rg, (get_aws_rg X self c).1 = Built rg ∧
        TargetGroup.vpc_id <$> AwsResourceGroup.target_groups rg = [v].
Proof. intros Hw Hc Hv. unfold get_aws_rg. rewrite Hw, Hc, Hv. by eexists. Qed.

Lemma get_aws_rg_built (self : ServerBase.t) (c : BuildContext) (rg : AwsResourceGroup.t) :
  (get_aws_rg X self c).1 = Built rg →
  ∃ td ct,
    AwsResourceGroup.ecs_task_definitions rg = [td] ∧
    EcsTaskDefinition.containers td = [ct] ∧
    EcsContainer.log_configuration ct =
      ecs_log_configuration (name (args self)) (PhidataApp.aws_region (base self)).
Proof.
  unfold get_aws_rg.
  destruct (PhidataApp.workspace_root_path (base self)) as [wrp|]; [|done].
  destruct (PhidataApp.get_container_paths (base self) (Some false)) as [cp|]; [|done].
  destruct (aws_vpc_id X (args self)) as [v|e]; [|done].
  cbn [fst]. intros [= <-]. by eexists _, _.
Qed.

Lemma get_aws_rg_frame (self : ServerBase.t) (c : BuildContext) :
  (get_aws_rg X self c).2 = self.
Proof.
  unfold get_aws_rg.
  destruct (PhidataApp.workspace_root_path (base self)) as [wrp|]; [|done].
  destruct (PhidataApp.get_container_paths (base self) (Some false)) as [cp|]; [|done].
  by destruct (aws_vpc_id X (args self)) as [v|e].
Qed.

(** C4: for an AWS build that gets to the subnets, if every configured
    subnet resolves to one and the same VPC the build succeeds and its target
    group carries that VPC id; if two configured subnets resolve to different
    VPCs the build raises [ValueError("Subnets must be in the same VPC")] and
    returns no graph. *)
Theorem get_aws_rg_vpc (self : ServerBase.t) (c : BuildContext)
    (wrp : Path) (cp : ContainerPathContext) (subnets : list string) :
  PhidataApp.workspace_root_path (base self) = Some wrp →
  PhidataApp.get_container_paths (base self) (Some false) = Some cp →
  aws_subnets (args self) = Some subnets →
  (∀ v, subnets ≠ [] →
        (∀ s, s ∈ subnets → Externals.get_vpc_id X s = v) →
        ∃ rg, (get_aws_rg X self c).1 = Built rg ∧
              TargetGroup.vpc_id <$> AwsResourceGroup.target_groups rg = [v]) ∧
  ((∃ s1 s2, s1 ∈ subnets ∧ s2 ∈ subnets ∧
             Externals.get_vpc_id X s1 ≠ Externals.get_vpc_id X s2) →
   (get_aws_rg X self c).1 = Raised (ValueError "Subnets must be in the same VPC")).
Proof.
  intros Hw Hc Hs. split.
  - intros v Hne Hall. eapply get_aws_rg_builds; [done..|]. by eapply aws_vpc_id_same.
  - intros Hex. eapply get_aws_rg_raises; [done..|]. by eapply aws_vpc_id_several.
Qed.

(** C9: the ECS container of every successful AWS build has the log
    configuration [{logDriver: "awslogs", options: {awslogs-group: name,
    awslogs-region: region, awslogs-create-group: "true",
    awslogs-stream-prefix: name}}], with the app's name and AWS region. *)
Theorem get_aws_rg_log_configuration (self : ServerBase.t) (c : BuildContext)
    (rg : AwsResourceGroup.t) :
  (get_aws_rg X self c).1 = Built rg →
  ∃ td ct,
    AwsResourceGroup.ecs_task_definitions rg = [td] ∧
    EcsTaskDefinition.containers td = [ct] ∧
    EcsContainer.log_configuration ct =
      PDict [("logDriver", PStr "awslogs");
             ("options",
              PDict [("awslogs-group", PStr (name (args self)));
                     ("awslogs-region", py_str_or_None (PhidataApp.aws_region (base self)));
                     ("awslogs-create-group", PStr "true");
                     ("awslogs-stream-prefix", PStr (name (args self)))])].
Proof. intros H. by apply get_aws_rg_built in H. Qed.

(** C10: for an AWS build that gets to the subnets, an unset [aws_subnets]
    makes [get_aws_rg] raise the [TypeError] of iterating [None], and an
    empty list the [KeyError] of popping from an empty set, neither of which
    is a [None] result; with a non-empty list the build either succeeds or
    raises the [ValueError] of the VPC check. *)
Theorem get_aws_rg_needs_subnets (self : ServerBase.t) (c : BuildContext)
    (wrp : Path) (cp : ContainerPathContext) :
  PhidataApp.workspace_root_path (base self) = Some wrp →
  PhidataApp.get_container_paths (base self) (Some false) = Some cp →
  (aws_subnets (args self) = None →
     (get_aws_rg X self c).1 = Raised (TypeError "'NoneType' object is not iterable")) ∧
  (aws_subnets (args self) = Some [] →
     (get_aws_rg X self c).1 = Raised (KeyError "pop from an empty set")) ∧
  (∀ subnets, aws_subnets (args self) = Some subnets → subnets ≠ [] →
     (∃ rg, (get_aws_rg X self c).1 = Built rg) ∨
     (get_aws_rg X self c).1 = Raised (ValueError "Subnets must be in the same VPC")).
Proof.
  intros Hw Hc. split_and!.
  - intros Hs. eapply get_aws_rg_raises; [done..|]. unfold aws_vpc_id. by rewrite Hs.
  - intros Hs. eapply get_aws_rg_raises; [done..|]. unfold aws_vpc_id. rewrite Hs.
    cbn [vpc_ids_of_subnets mbind call_bind]. unfold set_pop. by rewrite elements_empty.
  - intros subnets Hs Hne. destruct subnets as [|s subnets]; [done|].
    assert (aws_vpc_id X (args self) = Returns (Externals.get_vpc_id X s) ∨
            aws_vpc_id X (args self) = Raises (ValueError "Subnets must be in the same VPC"))
      as [Hv|Hv].
    { unfold aws_vpc_id. rewrite Hs. cbn [vpc_ids_of_subnets].
      rewrite (right_id_L ∅ (∪)), size_singleton.
      rewrite bool_decide_false by (intros ?; done).
      destruct (vpc_ids_of_subnets_cases (Externals.get_vpc_id X s) subnets) as [->| ->].
      - left. cbn [mbind call_bind]. unfold set_pop. by rewrite elements_singleton.
      - by right. }
    + left. destruct (get_aws_rg_builds self c wrp cp _ Hw Hc Hv) as (rg & Hrg & _). by exists rg.
    + right. by eapply get_aws_rg_raises.
Qed.

End AwsProperties.

(** ** The builders on the sample configurations *)

Section SampleRuns.
Import ServerBase ServerBaseArgs Samples.

(** *** Build contexts of the wrong kind *)

Lemma get_aws_rg_any_context (X : Externals.t) (self : ServerBase.t) (c c' : BuildContext) :
  get_aws_rg X self c = get_aws_rg X self c'.
Proof. reflexivity. Qed.

(** C2 (where the code departs from it): [get_aws_rg] does not look at its
    build context; handed a Docker context, or [None], it builds the whole
    AWS graph, where [get_docker_rg] and [get_k8s_rg] return [None] for a
    context that is not theirs. *)
Theorem get_aws_rg_builds_with_wrong_context :
  (∃ rg, (get_aws_rg externals (app (aws_args (Some ["subnet-a"; "subnet-b"])))
            docker_context).1 = Built rg) ∧
  (∃ rg, (get_aws_rg externals (app (aws_args (Some ["subnet-a"; "subnet-b"])))
            NoneContext).1 = Built rg) ∧
  (get_docker_rg externals (app (aws_args (Some ["subnet-a"; "subnet-b"])))
     k8s_context).1 = Absent ∧
  (get_k8s_rg externals (app (aws_args (Some ["subnet-a"; "subnet-b"])))
     docker_context).1.1 = Absent.
Proof. split_and!; [eexists; reflexivity..|reflexivity|reflexivity]. Qed.

(** *** The caller's collections *)

(** C3 (where the code departs from it): a Docker build writes the
    convenience binding into the caller's [container_ports_docker], and a
    K8s build appends its [ConfigMap] to the caller's [extra_configmaps]. *)
Theorem builders_change_caller_collections :
  (container_ports_docker docker_ports_args ≫= (.!! "8080") = None ∧
   container_ports_docker
     (args (get_docker_rg externals (app docker_ports_args) docker_context).2)
     ≫= (.!! "8080") = Some (PInt 3333)) ∧
  (length <$> extra_configmaps k8s_env_args = Some 1%nat ∧
   length <$> extra_configmaps
     (args (get_k8s_rg externals (app k8s_env_args) k8s_context).1.2) = Some 2%nat).
Proof. split_and!; vm_compute; reflexivity. Qed.

(** *** Git-sync without a repository *)

(** C1 (where the code departs from it): the sample app asks for a git-sync
    sidecar on an [EmptyDir] workspace and configures no repository.  The
    builder notices ([logger.error("GIT_SYNC_REPO invalid")]) and, unlike
    its other [logger.error] paths, does not return [None]: the K8s build
    returns a graph, whose Deployment has the primary container alone, no
    init container, and the [EmptyDir] workspace volume that nothing
    fills. *)
Theorem git_sync_without_repo_builds :
  workspace_volume_type git_sync_without_repo_args = Some EmptyDir ∧
  mount_workspace git_sync_without_repo_args = true ∧
  create_git_sync_sidecar git_sync_without_repo_args = true ∧
  git_sync_repo git_sync_without_repo_args = None ∧
  ∃ g d spark v,
    (get_k8s_rg externals (app git_sync_without_repo_args) k8s_context).1.1 =
      Built (create g) ∧
    generated_deployment g = Some d ∧
    CreateDeployment.containers d = [spark] ∧
    CreateDeployment.init_containers d = None ∧
    CreateDeployment.volumes d = Some [v] ∧
    CreateVolume.volume_type v = EMPTY_DIR.
Proof.
  split_and!; try reflexivity. eexists _, _, _, _. split_and!; reflexivity.
Qed.

Lemma get_k8s_rg_git_sync_without_repo_witness :
  ∃ g d spark v,
    (get_k8s_rg externals (app git_sync_without_repo_args) k8s_context).1.1 =
      Built (create g) ∧
    generated_deployment g = Some d ∧
    CreateDeployment.containers d = [spark] ∧
    CreateContainer.container_name spark = "server-container" ∧
    CreateDeployment.init_containers d = None ∧
    CreateDeployment.volumes d = Some [v] ∧
    CreateVolume.volume_type v = EMPTY_DIR.
Proof.
  exact (get_k8s_rg_git_sync_without_repo externals (app git_sync_without_repo_args)
           k8s_build_context workspace_path container_paths
           eq_refl (or_intror eq_refl) eq_refl eq_refl eq_refl eq_refl).
Defined.

(** *** The default-container annotation *)

(** C8 (counterexample): the caller's pod annotations name ["proxy"] as the
    default container; the Deployment keeps that value, while the primary
    container is ["server-container"]. *)
Lemma own_default_container_annotation_wins :
  ∃ g d spark others,
    (get_k8s_rg externals (app own_default_container_args) k8s_context).1.1 =
      Built (create g) ∧
    generated_deployment g = Some d ∧
    CreateDeployment.containers d = spark :: others ∧
    CreateContainer.container_name spark = "server-container" ∧
    CreateDeployment.pod_annotations d !! "kubectl.kubernetes.io/default-container" =
      Some "proxy".
Proof. eexists _, _, _, _. split_and!; reflexivity. Qed.

Lemma get_k8s_rg_default_container_annotation_witness :
  ∃ g d spark others,
    (get_k8s_rg externals (app ServerBaseArgs.defaults) k8s_context).1.1 = Built (create g) ∧
    generated_deployment g = Some d ∧
    CreateDeployment.containers d = spark :: others ∧
    CreateDeployment.pod_annotations d !! "kubectl.kubernetes.io/default-container" =
      Some (CreateContainer.container_name spark).
Proof.
  destruct (get_k8s_rg_default_container_annotation externals
              (app ServerBaseArgs.defaults) k8s_context _ eq_refl)
    as (g & d & spark & others & Hr & Hd & Hc & _ & Ha & _).
  exists g, d, spark, others. split_and!; [by rewrite <- Hr|done|done|exact Ha].
Defined.

(** *** Ports, environment and AWS *)

(** C7 (counterexample): the caller binds ["8080"] to [9999]; the container
    binds it to [3333], so that entry of the caller's map is not in the
    result. *)
Lemma caller_binding_for_8080_replaced :
  open_container_port colliding_ports_args = true ∧
  container_port colliding_ports_args = 8080 ∧
  container_host_port colliding_ports_args = 3333 ∧
  container_ports_docker colliding_ports_args ≫= (.!! "8080") = Some (PInt 9999) ∧
  ∃ rg ct ports,
    (get_docker_rg externals (app colliding_ports_args) docker_context).1 = Built rg ∧
    DockerResourceGroup.containers rg = [ct] ∧
    DockerContainer.ports ct = Some ports ∧
    ports !! "8080" = Some (PInt 3333) ∧
    ports !! "8080" ≠ Some (PInt 9999).
Proof.
  split_and!; try reflexivity. eexists _, _, _. split_and!; try reflexivity.
  by vm_compute.
Qed.

Lemma get_docker_rg_port_binding_witness :
  ∃ ct ports,
    DockerContainer.ports ct = Some ports ∧
    ports !! "8080" = Some (PInt 3333) ∧
    ports !! "2222/tcp" = Some (PInt 3333).
Proof.
  destruct (get_docker_rg_port_binding externals (app docker_ports_args) docker_context _
              eq_refl eq_refl eq_refl eq_refl)
    as (ct & ports & _ & Hp & H8080 & Huser).
  exists ct, ports. split_and!; [done|done|].
  by rewrite (proj2 (Huser user_ports eq_refl "2222/tcp")).
Defined.

Lemma container_env_precedence_witness :
  (∃ g cm,
     (get_k8s_rg externals (app k8s_env_args) k8s_context).1.1 = Built (create g) ∧
     generated_configmap g = Some cm ∧
     (* inline over the env file, the env file alone, inline over a marker,
        an AWS variable, a marker *)
     CreateConfigMap.data cm !! "STAGE" = Some "inline" ∧
     CreateConfigMap.data cm !! "REGION" = Some "file" ∧
     CreateConfigMap.data cm !! "PHIDATA_RUNTIME" = Some "inline" ∧
     CreateConfigMap.data cm !! "AWS_REGION" = Some "us-east-1" ∧
     CreateConfigMap.data cm !! "MOUNT_WORKSPACE" = Some "False") ∧
  (∃ rg ct,
     (get_docker_rg externals (app k8s_env_args) docker_context).1 = Built rg ∧
     DockerResourceGroup.containers rg = [ct] ∧
     DockerContainer.environment ct !! "STAGE" = Some "inline" ∧
     DockerContainer.environment ct !! "REGION" = Some "file" ∧
     DockerContainer.environment ct !! "PHIDATA_RUNTIME" = Some "inline" ∧
     DockerContainer.environment ct !! "AWS_REGION" = Some "us-east-1" ∧
     DockerContainer.environment ct !! "MOUNT_WORKSPACE" = Some "False").
Proof.
  split.
  - destruct (proj1 (container_env_precedence externals (app k8s_env_args))
                k8s_build_context workspace_path container_paths eq_refl eq_refl)
      as (g & cm & Hr & Hcm & _ & Hk).
    exists g, cm. split_and!; [done|done|by rewrite Hk..].
  - destruct (proj1 (proj2 (container_env_precedence externals (app k8s_env_args)))
                {| DockerBuildContext.network := "phi" |} workspace_path container_paths
                eq_refl eq_refl)
      as (rg & ct & Hr & Hct & Hk); [intros H; discriminate H|].
    exists rg, ct. split_and!; [done|done|by rewrite Hk..].
Defined.

Lemma log_conversation_event_best_effort_witness :
  Conversation.log_conversation_event Samples.telemetry () () = Returns (Some "success").
Proof.
  apply (proj2 (proj2 (proj2 (proj2 (proj2
           (log_conversation_event_best_effort Samples.telemetry () ())))))).
  split; [reflexivity|].
  exists "ok", (PDict [("status", PStr "ok")]). by split_and!.
Defined.

Lemma get_aws_rg_vpc_witness :
  (∃ rg, (get_aws_rg externals (app (aws_args (Some ["subnet-a"; "subnet-b"])))
            AwsContext).1 = Built rg ∧
         TargetGroup.vpc_id <$> AwsResourceGroup.target_groups rg = [Some "vpc-1"]) ∧
  (get_aws_rg externals (app (aws_args (Some ["subnet-a"; "subnet-c"]))) AwsContext).1 =
    Raised (ValueError "Subnets must be in the same VPC").
Proof.
  split.
  - apply (proj1 (get_aws_rg_vpc externals (app (aws_args (Some ["subnet-a"; "subnet-b"])))
                    AwsContext workspace_path container_paths _ eq_refl eq_refl eq_refl)).
    + done.
    + apply Forall_forall. by repeat constructor.
  - apply (proj2 (get_aws_rg_vpc externals (app (aws_args (Some ["subnet-a"; "subnet-c"])))
                    AwsContext workspace_path container_paths _ eq_refl eq_refl eq_refl)).
    exists "subnet-a", "subnet-c". split_and!; [by left|by right; left|done].
Defined.

Lemma get_aws_rg_log_configuration_witness :
  ∃ rg td ct,
    (get_aws_rg externals (app (aws_args (Some ["subnet-a"]))) AwsContext).1 = Built rg ∧
    AwsResourceGroup.ecs_task_definitions rg = [td] ∧
    EcsTaskDefinition.containers td = [ct] ∧
    EcsContainer.log_configuration ct =
      PDict [("logDriver", PStr "awslogs");
             ("options",
              PDict [("awslogs-group", PStr "server");
                     ("awslogs-region", PStr "us-east-1");
                     ("awslogs-create-group", PStr "true");
                     ("awslogs-stream-prefix", PStr "server")])].
Proof.
  eexists. 
  destruct (get_aws_rg_log_configuration externals (app (aws_args (Some ["subnet-a"])))
              AwsContext _ eq_refl) as (td & ct & Htd & Hct & Hlog).
  by exists td, ct.
Defined.

Lemma get_aws_rg_needs_subnets_witness :
  (get_aws_rg externals (app (aws_args None)) AwsContext).1 =
    Raised (TypeError "'NoneType' object is not iterable") ∧
  (get_aws_rg externals (app (aws_args (Some []))) AwsContext).1 =
    Raised (KeyError "pop from an empty set").
Proof.
  split.
  - exact (proj1 (get_aws_rg_needs_subnets externals (app (aws_args None)) AwsContext
                    workspace_path container_paths eq_refl eq_refl) eq_refl).
  - exact (proj1 (proj2 (get_aws_rg_needs_subnets externals (app (aws_args (Some [])))
                    AwsContext workspace_path container_paths eq_refl eq_refl)) eq_refl).
Defined.

End SampleRuns.

(** * Further properties of the builders *)

(** ** Collections handed on *)

Lemma truthy_dict_empty {V} : truthy_dict (∅ : gmap string V) = false.
Proof. unfold truthy_dict. by rewrite map_size_empty. Qed.

Lemma truthy_dict_insert {V} (d : gmap string V) (k : string) (v : V) :
  truthy_dict (<[ k := v ]> d) = true.
Proof.
  unfold truthy_dict. rewrite bool_decide_true; [done|].
  intros E. apply map_size_empty_inv in E. by apply insert_non_empty in E.
Qed.

Lemma dict_or_None_not_empty {V} (d : gmap string V) : dict_or_None d ≠ Some ∅.
Proof.
  unfold dict_or_None. destruct (truthy_dict d) eqn:E; [|done].
  intros [= ->]. by rewrite truthy_dict_empty in E.
Qed.

Lemma list_or_None_not_nil {A} (l : list A) : list_or_None l ≠ Some [].
Proof. unfold list_or_None. destruct l; simpl; [done|]. by intros [=]. Qed.

Lemma py_or_dict_truthy {V} (field : option (gmap string V)) :
  origin_of truthy_dict field = FromField →
  field = Some (py_or truthy_dict field ∅) ∧ truthy_dict (py_or truthy_dict field ∅) = true.
Proof.
  destruct field as [d|]; simpl; [|done]. by destruct (truthy_dict d) eqn:E.
Qed.

Lemma py_or_dict_fresh {V} (field : option (gmap string V)) :
  origin_of truthy_dict field = FreshObject → py_or truthy_dict field ∅ = ∅.
Proof. destruct field as [d|]; simpl; [|done]. by destruct (truthy_dict d). Qed.

Lemma py_or_list_default {A} (field : option (list A)) :
  py_or truthy_list field [] = default [] field.
Proof. destruct field as [[|x l]|]; done. Qed.

Lemma names_or_None_fmap {A} (f : A -> string) (l : list A) :
  ServerBase.names_or_None f l = (fun xs : list A => f <$> xs) <$> list_or_None l.
Proof. unfold ServerBase.names_or_None, list_or_None. by destruct (truthy_list l). Qed.

(** ** The Docker builder, continued *)

Section DockerFurther.
Variable X : Externals.t.
Import ServerBase ServerBaseArgs.

(** X1: [get_docker_rg] returns [None] exactly when the context is no Docker
    context, the workspace root is unset, the container paths cannot be
    built, or the workspace is to be mounted with a volume type other than
    [HostPath] and [EmptyDir]. *)
Theorem get_docker_rg_outcome (self : ServerBase.t) (c : BuildContext) :
  (get_docker_rg X self c).1 = Absent ↔
  (∀ d, c ≠ DockerContext d) ∨
  PhidataApp.workspace_root_path (base self) = None ∨
  PhidataApp.get_container_paths (base self) None = None ∨
  (mount_workspace (args self) = true ∧
   ∃ n, workspace_volume_type (args self) = Some (OtherVolumeType n)).
Proof.
  unfold get_docker_rg.
  destruct c as [|ctx| | |]; try (split; [by left|done]).
  destruct (PhidataApp.workspace_root_path (base self)) as [wrp|];
    [|split; [by right; left|done]].
  destruct (PhidataApp.get_container_paths (base self) None) as [cp|];
    [|split; [by right; right; left|done]].
  unfold docker_container_volumes.
  destruct (mount_workspace (args self));
    [destruct (workspace_volume_type (args self)) as [[| |n]|]|];
    cbn [fst]; split; try done;
    try (intros [H|[H|[H|[H H']]]]; try done; try (by destruct (H ctx));
         by destruct H' as [? [=]]).
  intros _. right; right; right. split; [done|]. by exists n.
Qed.

Lemma get_docker_rg_built_volumes (self : ServerBase.t) (c : BuildContext)
    (rg : DockerResourceGroup.t) :
  (get_docker_rg X self c).1 = Built rg →
  ∃ wrp cp vols ct,
    PhidataApp.workspace_root_path (base self) = Some wrp ∧
    PhidataApp.get_container_paths (base self) None = Some cp ∧
    docker_container_volumes X self wrp cp
      (py_or truthy_dict (container_volumes_docker (args self)) ∅) = Some vols ∧
    DockerResourceGroup.containers rg = [ct] ∧
    DockerContainer.volumes ct = dict_or_None vols ∧
    DockerContainer.ports ct =
      dict_or_None (docker_container_ports (args self)
                      (py_or truthy_dict (container_ports_docker (args self)) ∅)).
Proof.
  unfold get_docker_rg. destruct c as [|ctx| | |]; try done.
  destruct (PhidataApp.workspace_root_path (base self)) as [wrp|]; [|done].
  destruct (PhidataApp.get_container_paths (base self) None) as [cp|]; [|done].
  destruct (docker_container_volumes X self wrp cp _) as [vols|] eqn:Hv; [|done].
  cbn [fst]. intros [= <-]. by eexists wrp, cp, vols, _.
Qed.

(** X2: when the workspace is mounted, the container of a Docker build has
    a volume map that binds the mount source (the host path option or else
    the workspace root for [HostPath] and an unset type, the volume name for
    [EmptyDir]) to the container's workspace root, read-write, and binds
    every other key as the caller's [container_volumes_docker] does. *)
Theorem get_docker_rg_workspace_mount (self : ServerBase.t) (c : BuildContext)
    (rg : DockerResourceGroup.t) :
  mount_workspace (args self) = true →
  (get_docker_rg X self c).1 = Built rg →
  ∃ ct vols wrp cp key,
    DockerResourceGroup.containers rg = [ct] ∧
    DockerContainer.volumes ct = Some vols ∧
    PhidataApp.workspace_root_path (base self) = Some wrp ∧
    PhidataApp.get_container_paths (base self) None = Some cp ∧
    key = match workspace_volume_type (args self) with
          | Some EmptyDir => default_workspace_volume_name X (args self) (stem wrp)
          | _ => py_or truthy_str (workspace_volume_host_path (args self)) (path_str wrp)
          end ∧
    vols !! key = Some (PDict [("bind", PStr (workspace_root cp)); ("mode", PStr "rw")]) ∧
    ∀ k, k ≠ key → vols !! k = container_volumes_docker (args self) ≫= (.!! k).
Proof.
  intros Hm (wrp & cp & vols & ct & Hw & Hc & Hv & Hct & Hvols & _)%get_docker_rg_built_volumes.
  unfold docker_container_volumes in Hv. rewrite Hm in Hv.
  exists ct, vols, wrp, cp.
  destruct (workspace_volume_type (args self)) as [[| |n]|]; [| |done|];
    injection Hv as <-; eexists; rewrite dict_or_None_insert in Hvols;
    (split_and!; [done|exact Hvols|done|done|reflexivity|by rewrite lookup_insert_eq|]);
    intros k Hk; by rewrite lookup_insert_ne, py_or_dict_lookup.
Qed.

(** X3: a Docker container is never given an empty port or volume map: where
    there is nothing to bind the argument is [None]. *)
Theorem get_docker_rg_no_empty_maps (self : ServerBase.t) (c : BuildContext)
    (rg : DockerResourceGroup.t) (ct : DockerContainer.t) :
  (get_docker_rg X self c).1 = Built rg →
  ct ∈ DockerResourceGroup.containers rg →
  DockerContainer.ports ct ≠ Some ∅ ∧ DockerContainer.volumes ct ≠ Some ∅.
Proof.
  intros (wrp & cp & vols & ct' & _ & _ & _ & Hct & Hvols & Hports)%get_docker_rg_built_volumes Hin.
  rewrite Hct in Hin. apply list_elem_of_singleton in Hin as ->.
  rewrite Hvols, Hports. split; apply dict_or_None_not_empty.
Qed.

(** Binding a name to a field again, after the builder has stored its
    result there, and applying the same idempotent update gives the same
    result. *)
Lemma rebind_same {V} (field : option (gmap string V))
    (f : gmap string V -> gmap string V) :
  (∀ d, f (f d) = f d) →
  (∀ d, truthy_dict d = true → truthy_dict (f d) = true) →
  origin_of truthy_dict
    (store_back field (origin_of truthy_dict field) (f (py_or truthy_dict field ∅))) =
    origin_of truthy_dict field ∧
  f (py_or truthy_dict
       (store_back field (origin_of truthy_dict field) (f (py_or truthy_dict field ∅))) ∅) =
    f (py_or truthy_dict field ∅).
Proof.
  intros Hf Ht. destruct field as [d|]; simpl; [|done].
  destruct (truthy_dict d) eqn:E; simpl.
  - by rewrite (Ht d E), Hf.
  - by rewrite E.
Qed.

Lemma store_back_again {A} (field : option A) (o : origin) (final : A) :
  store_back (store_back field o final) o final = store_back field o final.
Proof. by destruct o. Qed.

(** The volume block as a function on the volume map, for a build that
    gets past it. *)
Lemma docker_container_volumes_update (self : ServerBase.t) (wrp : Path)
    (cp : ContainerPathContext) (d0 vols0 : Dict) :
  docker_container_volumes X self wrp cp d0 = Some vols0 →
  ∃ f : Dict -> Dict,
    (∀ d, docker_container_volumes X self wrp cp d = Some (f d)) ∧
    (∀ d, f (f d) = f d) ∧
    (∀ d, truthy_dict d = true → truthy_dict (f d) = true).
Proof.
  unfold docker_container_volumes.
  destruct (mount_workspace (args self)); [|by exists id].
  destruct (workspace_volume_type (args self)) as [[| |n]|]; [| |done|]; intros _;
    eexists (fun d => <[ _ := _ ]> d);
    (split_and!; [done|by intros; rewrite insert_insert_eq|by intros; apply truthy_dict_insert]).
Qed.

Lemma docker_container_ports_update (a : ServerBaseArgs.t) :
  (∀ d, docker_container_ports a (docker_container_ports a d) = docker_container_ports a d) ∧
  (∀ d, truthy_dict d = true → truthy_dict (docker_container_ports a d) = true).
Proof.
  unfold docker_container_ports. destruct (open_container_port a); [|done].
  split; intros; [by rewrite insert_insert_eq|by apply truthy_dict_insert].
Qed.

Lemma get_docker_rg_again (self : ServerBase.t) (c : BuildContext) :
  get_docker_rg X (get_docker_rg X self c).2 c = get_docker_rg X self c.
Proof.
  unfold get_docker_rg at 2 3. destruct c as [|ctx| | |]; try done.
  destruct (PhidataApp.workspace_root_path (base self)) as [wrp|] eqn:Hw;
    [|by cbn [snd]; unfold get_docker_rg; rewrite Hw].
  destruct (PhidataApp.get_container_paths (base self) None) as [cp|] eqn:Hc;
    [|by cbn [snd]; unfold get_docker_rg; rewrite Hw, Hc].
  destruct (docker_container_volumes X self wrp cp _) as [vols|] eqn:Hv;
    [|by cbn [snd]; unfold get_docker_rg; rewrite Hw, Hc, Hv].
  cbn [snd].
  destruct (docker_container_volumes_update self wrp cp _ _ Hv) as (f & Hf & Hff & Hft).
  rewrite Hf in Hv. injection Hv as <-.
  destruct (docker_container_ports_update (args self)) as [Hpp Hpt].
  destruct (rebind_same (container_volumes_docker (args self)) f Hff Hft) as [Hvo Hvf].
  destruct (rebind_same (container_ports_docker (args self))
              (docker_container_ports (args self)) Hpp Hpt) as [Hpo Hpf].
  unfold get_docker_rg. cbn [base args]. rewrite Hw, Hc.
  assert (∀ d, docker_container_volumes X
                 {| base := base self;
                    args := with_docker_collections (args self)
                      (store_back (container_volumes_docker (args self))
                         (origin_of truthy_dict (container_volumes_docker (args self)))
                         (f (py_or truthy_dict (container_volumes_docker (args self)) ∅)))
                      (store_back (container_ports_docker (args self))
                         (origin_of truthy_dict (container_ports_docker (args self)))
                         (docker_container_ports (args self)
                            (py_or truthy_dict (container_ports_docker (args self)) ∅))) |}
                 wrp cp d = Some (f d)) as Hf'.
  { intros d. rewrite <- Hf. reflexivity. }
  cbn [container_volumes_docker container_ports_docker with_docker_collections].
  rewrite Hf'.
  change (docker_container_ports (with_docker_collections (args self) ?v ?p))
    with (docker_container_ports (args self)).
  rewrite Hvo, Hpo, Hvf, Hpf, !store_back_again.
  reflexivity.
Qed.

(** X4: building twice is building once.  A second [get_docker_rg] on the app
    as the first call left it returns the same outcome and leaves the app as
    it found it. *)
Theorem get_docker_rg_idempotent (self : ServerBase.t) (c : BuildContext) :
  (get_docker_rg X (get_docker_rg X self c).2 c).1 = (get_docker_rg X self c).1 ∧
  (get_docker_rg X (get_docker_rg X self c).2 c).2 = (get_docker_rg X self c).2.
Proof. by rewrite get_docker_rg_again. Qed.

End DockerFurther.

(** ** The Kubernetes builder, continued *)

Section K8sFurther.
Variable X : Externals.t.
Import ServerBase ServerBaseArgs.

Ltac open_group :=
  unfold k8s_create_group; cbv zeta; unfold labels_with; cbv zeta.

(** The last entry of a list the builder has just appended to. *)
Ltac last_entry :=
  rewrite ?list_or_None_snoc; cbn [mbind option_bind]; rewrite ?last_snoc; reflexivity.

(** X6: with [use_rbac] the group of a K8s build has a Namespace, a
    ServiceAccount, a ClusterRole and a ClusterRoleBinding; its Deployment
    lives in that Namespace and runs as that ServiceAccount; and what the
    builder generates itself refers to the rest: a generated ServiceAccount
    is in the Namespace, a generated ClusterRoleBinding binds the ClusterRole
    to the ServiceAccount in the Namespace, a generated ClusterRole has the
    two fixed rules. *)
Theorem get_k8s_rg_rbac (self : ServerBase.t) (c : BuildContext) (r : K8sResourceGroup) :
  use_rbac (args self) = true →
  (get_k8s_rg X self c).1.1 = Built r →
  ∃ g ns sa cr crb d,
    r = create g ∧
    CreateK8sResourceGroup.ns g = Some ns ∧
    CreateK8sResourceGroup.sa g = Some sa ∧
    CreateK8sResourceGroup.cr g = Some cr ∧
    CreateK8sResourceGroup.crb g = Some crb ∧
    generated_deployment g = Some d ∧
    CreateDeployment.namespace d = CreateNamespace.ns ns ∧
    CreateDeployment.service_account_name d = Some (CreateServiceAccount.sa_name sa) ∧
    (service_account (args self) = None →
       CreateServiceAccount.namespace sa = CreateNamespace.ns ns) ∧
    (cluster_role (args self) = None →
       CreateClusterRole.rules cr = cluster_role_rules) ∧
    (cluster_role_binding (args self) = None →
       CreateClusterRoleBinding.cr_name crb = CreateClusterRole.cr_name cr ∧
       CreateClusterRoleBinding.service_account_name crb = CreateServiceAccount.sa_name sa ∧
       CreateClusterRoleBinding.namespace crb = CreateNamespace.ns ns).
Proof.
  intros Hr (ctx & wrp & cp & -> & Hw & Hc & ->)%get_k8s_rg_built.
  exists (k8s_create_group X self ctx wrp cp).1.1.
  open_group. unfold generated_deployment, k8s_rbac. rewrite Hr.
  destruct (create_service (args self));
    cbn [fst snd CreateK8sResourceGroup.deployments CreateK8sResourceGroup.ns
         CreateK8sResourceGroup.sa CreateK8sResourceGroup.cr CreateK8sResourceGroup.crb
         rbac_ns rbac_sa rbac_cr rbac_crb rbac_ns_name rbac_sa_name];
    eexists _, _, _, _, _;
    (split_and!; [reflexivity..|last_entry|reflexivity|reflexivity| | |]);
    intros ->; done.
Qed.

(** X7: the ConfigMap, the Secret, the Deployment and the Service that a K8s
    build generates are all in one namespace, and the Service runs under the
    Deployment's service account. *)
Theorem get_k8s_rg_one_namespace (self : ServerBase.t) (c : BuildContext)
    (r : K8sResourceGroup) :
  (get_k8s_rg X self c).1.1 = Built r →
  ∃ g d cm,
    r = create g ∧
    generated_deployment g = Some d ∧
    generated_configmap g = Some cm ∧
    CreateConfigMap.namespace cm = CreateDeployment.namespace d ∧
    (∀ data, PhidataApp.get_secret_data (base self) = Some data →
       ∃ sec, CreateK8sResourceGroup.secrets g ≫= last = Some sec ∧
              CreateSecret.string_data sec = data ∧
              CreateSecret.namespace sec = CreateDeployment.namespace d) ∧
    (create_service (args self) = true →
       ∃ svc, CreateK8sResourceGroup.services g ≫= last = Some svc ∧
              CreateService.namespace svc = CreateDeployment.namespace d ∧
              CreateService.service_account_name svc =
                CreateDeployment.service_account_name d).
Proof.
  intros (ctx & wrp & cp & -> & Hw & Hc & ->)%get_k8s_rg_built.
  exists (k8s_create_group X self ctx wrp cp).1.1.
  open_group. unfold generated_deployment, generated_configmap.
  destruct (create_service (args self));
    cbn [fst snd CreateK8sResourceGroup.deployments CreateK8sResourceGroup.config_maps
         CreateK8sResourceGroup.secrets CreateK8sResourceGroup.services];
    eexists _, _; (split_and!; [reflexivity|last_entry|last_entry|reflexivity| |]).
  - intros data ->. eexists. split_and!; [last_entry|done..].
  - intros _. eexists. split_and!; [last_entry|done..].
  - intros data ->. eexists. split_and!; [last_entry|done..].
  - done.
Qed.

(** X8: with [open_container_port] the primary container of a K8s build
    lists, after the caller's [extra_ports], one port with the app's port
    name, container port and service port, targeting [service_target_port]
    or else the port name; and with [create_service] the generated Service
    points at the generated Deployment and exposes the container's ports. *)
Theorem get_k8s_rg_ports_and_service (self : ServerBase.t) (c : BuildContext)
    (r : K8sResourceGroup) :
  (get_k8s_rg X self c).1.1 = Built r →
  ∃ g d spark others,
    r = create g ∧
    generated_deployment g = Some d ∧
    CreateDeployment.containers d = spark :: others ∧
    (open_container_port (args self) = true →
       CreateContainer.ports spark =
         Some (default [] (extra_ports (args self)) ++
               [ {| CreatePort.name := container_port_name (args self);
                    CreatePort.container_port := container_port (args self);
                    CreatePort.service_port := service_port (args self);
                    CreatePort.target_port :=
                      py_or truthy_StrOrInt (service_target_port (args self))
                        (IsStr (container_port_name (args self))) |} ])) ∧
    (open_container_port (args self) = false →
       CreateContainer.ports spark = extra_ports (args self) ≫= list_or_None) ∧
    (create_service (args self) = true →
       ∃ svc, CreateK8sResourceGroup.services g =
                Some (default [] (extra_services (args self)) ++ [svc]) ∧
              CreateService.deployment svc = d ∧
              CreateService.ports svc = CreateContainer.ports spark ∧
              CreateService.service_type svc = service_type (args self)) ∧
    (create_service (args self) = false →
       CreateK8sResourceGroup.services g = extra_services (args self) ≫= list_or_None).
Proof.
  intros (ctx & wrp & cp & -> & Hw & Hc & ->)%get_k8s_rg_built.
  exists (k8s_create_group X self ctx wrp cp).1.1.
  open_group. unfold generated_deployment, k8s_ports, k8s_spark_container.
  destruct (create_service (args self));
    cbn [fst snd CreateK8sResourceGroup.deployments CreateK8sResourceGroup.services];
    eexists _, _, _; (split_and!; [reflexivity|last_entry|reflexivity| | | |]);
    cbn [CreateContainer.ports CreateService.deployment CreateService.ports
         CreateService.service_type];
    try done.
  all: try (intros ->; cbv iota;
            by rewrite ?list_or_None_snoc, ?list_or_None_py_or, ?py_or_list_default).
  all: try (intros _; rewrite <- py_or_list_default, list_or_None_snoc; by eexists).
  all: try (intros _; by rewrite list_or_None_py_or).
Qed.

(** The environment of the git-sync containers. *)
Lemma git_sync_env_lookup (a : ServerBaseArgs.t) (parent ws repo : string) :
  git_sync_env a parent ws repo !! "GIT_SYNC_REPO" = Some repo ∧
  git_sync_env a parent ws repo !! "GIT_SYNC_ROOT" = Some parent ∧
  git_sync_env a parent ws repo !! "GIT_SYNC_DEST" = Some ws ∧
  git_sync_env a parent ws repo !! "GIT_SYNC_BRANCH" = git_sync_branch a ∧
  git_sync_env a parent ws repo !! "GIT_SYNC_WAIT" = str_int <$> git_sync_wait a ∧
  git_sync_env a parent ws repo !! "GIT_SYNC_ONE_TIME" = None.
Proof.
  unfold git_sync_env.
  destruct (git_sync_branch a), (git_sync_wait a); split_and!; reflexivity.
Qed.

(** The workspace block when a sidecar is requested and a repository is
    configured. *)
Lemma k8s_workspace_volume_git_sync (self : ServerBase.t) (wrp : Path)
    (cp : ContainerPathContext) (cms : list CreateConfigMap.t) (secs : list CreateSecret.t)
    (vols : list CreateVolume.t) (cts inits : list CreateContainer.t) (repo : string) :
  mount_workspace (args self) = true →
  workspace_volume_type (args self) = None ∨
    workspace_volume_type (args self) = Some EmptyDir →
  create_git_sync_sidecar (args self) = true →
  git_sync_repo (args self) = Some repo →
  ∃ v sidecar,
    ws_volumes (k8s_workspace_volume X self wrp cp cms secs vols cts inits) = vols ++ [v] ∧
    ws_containers (k8s_workspace_volume X self wrp cp cms secs vols cts inits) =
      cts ++ [sidecar] ∧
    CreateVolume.volume_type v = EMPTY_DIR ∧
    CreateVolume.mount_path v = workspace_parent cp ∧
    CreateVolume.volume_name v = default_workspace_volume_name X (args self) (stem wrp) ∧
    CreateContainer.container_name sidecar = "git-sync" ∧
    CreateContainer.image_name sidecar = git_sync_image_name (args self) ∧
    CreateContainer.image_tag sidecar = git_sync_image_tag (args self) ∧
    CreateContainer.volumes sidecar = Some [v] ∧
    CreateContainer.env sidecar =
      Some (PStr <$> git_sync_env (args self) (workspace_parent cp) (stem wrp) repo) ∧
    (create_git_sync_init_container (args self) = false →
       ws_init_containers (k8s_workspace_volume X self wrp cp cms secs vols cts inits) =
         inits) ∧
    (create_git_sync_init_container (args self) = true →
       ∃ init,
         ws_init_containers (k8s_workspace_volume X self wrp cp cms secs vols cts inits) =
           inits ++ [init] ∧
         CreateContainer.container_name init = "git-sync-init" ∧
         CreateContainer.image_name init = git_sync_image_name (args self) ∧
         CreateContainer.image_tag init = git_sync_image_tag (args self) ∧
         CreateContainer.volumes init = Some [v] ∧
         CreateContainer.env init =
           Some ((PStr <$> git_sync_env (args self) (workspace_parent cp) (stem wrp) repo) ∪
                 {[ "GIT_SYNC_ONE_TIME" := PBool true ]})).
Proof.
  intros Hm Ht Hs Hr. unfold k8s_workspace_volume. rewrite Hm, Hs, Hr.
  destruct (create_git_sync_init_container (args self));
    destruct Ht as [-> | ->]; eexists _, _;
    (split_and!; [reflexivity..| |]); try done; intros _; by eexists.
Qed.

(** X9: with a mounted [EmptyDir] (or unset) workspace, a git-sync sidecar
    requested and a repository configured, the Deployment of a K8s build
    ends with a ["git-sync"] container on the workspace volume whose
    environment names the repository, the workspace parent as root, the
    workspace name as destination, the branch if one is set and the wait;
    with [create_git_sync_init_container] there is also a ["git-sync-init"]
    container of the same image and volume whose environment is the
    sidecar's plus [GIT_SYNC_ONE_TIME]. *)
Theorem get_k8s_rg_git_sync (self : ServerBase.t) (c : BuildContext)
    (r : K8sResourceGroup) (repo : string) :
  mount_workspace (args self) = true →
  workspace_volume_type (args self) = None ∨
    workspace_volume_type (args self) = Some EmptyDir →
  create_git_sync_sidecar (args self) = true →
  git_sync_repo (args self) = Some repo →
  (get_k8s_rg X self c).1.1 = Built r →
  ∃ g d spark sidecar v env wrp cp,
    r = create g ∧ generated_deployment g = Some d ∧
    PhidataApp.workspace_root_path (base self) = Some wrp ∧
    PhidataApp.get_container_paths (base self) None = Some cp ∧
    CreateDeployment.containers d =
      spark :: default [] (extra_containers (args self)) ++ [sidecar] ∧
    CreateDeployment.volumes d = Some (default [] (extra_volumes (args self)) ++ [v]) ∧
    CreateVolume.volume_type v = EMPTY_DIR ∧
    CreateVolume.mount_path v = workspace_parent cp ∧
    CreateContainer.container_name sidecar = "git-sync" ∧
    CreateContainer.image_name sidecar = git_sync_image_name (args self) ∧
    CreateContainer.image_tag sidecar = git_sync_image_tag (args self) ∧
    CreateContainer.volumes sidecar = Some [v] ∧
    CreateContainer.env sidecar = Some env ∧
    env !! "GIT_SYNC_REPO" = Some (PStr repo) ∧
    env !! "GIT_SYNC_ROOT" = Some (PStr (workspace_parent cp)) ∧
    env !! "GIT_SYNC_DEST" = Some (PStr (stem wrp)) ∧
    env !! "GIT_SYNC_BRANCH" = PStr <$> git_sync_branch (args self) ∧
    env !! "GIT_SYNC_WAIT" = PStr ∘ str_int <$> git_sync_wait (args self) ∧
    (create_git_sync_init_container (args self) = false →
       CreateDeployment.init_containers d =
         extra_init_containers (args self) ≫= list_or_None) ∧
    (create_git_sync_init_container (args self) = true →
       ∃ init ienv,
         CreateDeployment.init_containers d =
           Some (default [] (extra_init_containers (args self)) ++ [init]) ∧
         CreateContainer.container_name init = "git-sync-init" ∧
         CreateContainer.image_name init = CreateContainer.image_name sidecar ∧
         CreateContainer.image_tag init = CreateContainer.image_tag sidecar ∧
         CreateContainer.volumes init = CreateContainer.volumes sidecar ∧
         CreateContainer.env init = Some ienv ∧
         ienv !! "GIT_SYNC_ONE_TIME" = Some (PBool true) ∧
         ∀ k, k ≠ "GIT_SYNC_ONE_TIME" → ienv !! k = env !! k).
Proof.
  intros Hm Ht Hs Hr (ctx & wrp & cp & -> & Hw & Hc & ->)%get_k8s_rg_built.
  destruct (k8s_create_group_deployment X self ctx wrp cp)
    as (d & spark & cms & secs & Hd & Hcts & Hinits & Hvols & _).
  destruct (k8s_workspace_volume_git_sync self wrp cp cms secs
              (py_or truthy_list (extra_volumes (args self)) [])
              (py_or truthy_list (extra_containers (args self)) [])
              (py_or truthy_list (extra_init_containers (args self)) [])
              repo Hm Ht Hs Hr)
    as (v & sidecar & Hwv & Hwc & Hvt & Hvm & _ & Hn & Hin & Hit & Hsv & Henv & Hno & Hyes).
  rewrite Hwv in Hvols. rewrite Hwc in Hcts.
  rewrite list_or_None_snoc in Hvols. rewrite py_or_list_default in Hvols.
  rewrite py_or_list_default in Hcts.
  destruct (git_sync_env_lookup (args self) (workspace_parent cp) (stem wrp) repo)
    as (E1 & E2 & E3 & E4 & E5 & E6).
  eexists _, d, spark, sidecar, v, _, wrp, cp.
  split_and!; try done.
  - by rewrite lookup_fmap, E1.
  - by rewrite lookup_fmap, E2.
  - by rewrite lookup_fmap, E3.
  - by rewrite lookup_fmap, E4.
  - rewrite lookup_fmap, E5. by destruct (git_sync_wait (args self)).
  - intros Hf. rewrite Hinits, (Hno Hf). apply list_or_None_py_or.
  - intros Hf. destruct (Hyes Hf) as (init & Hwi & Hi1 & Hi2 & Hi3 & Hi4 & Hi5).
    exists init. eexists. rewrite Hinits, Hwi, list_or_None_snoc, py_or_list_default.
    split_and!; try done; try congruence.
    + rewrite lookup_union, lookup_fmap, E6. reflexivity.
    + intros k Hk. rewrite lookup_union, lookup_singleton_ne by done.
      by destruct ((PStr <$> _) !! k).
Qed.

(** X10: the caller's extra resources come first in the group, in their
    order and as they are; the generated ConfigMap and Deployment follow
    them, and so does the generated Secret when there is secret data; the
    resource kinds the builder generates nothing of are the caller's lists,
    [None] when unset or empty. *)
Theorem get_k8s_rg_extras (self : ServerBase.t) (c : BuildContext) (r : K8sResourceGroup) :
  (get_k8s_rg X self c).1.1 = Built r →
  ∃ g cm d,
    r = create g ∧
    CreateK8sResourceGroup.config_maps g =
      Some (default [] (extra_configmaps (args self)) ++ [cm]) ∧
    CreateK8sResourceGroup.deployments g =
      Some (default [] (extra_deployments (args self)) ++ [d]) ∧
    (PhidataApp.get_secret_data (base self) = None →
       CreateK8sResourceGroup.secrets g = extra_secrets (args self) ≫= list_or_None) ∧
    (∀ data, PhidataApp.get_secret_data (base self) = Some data →
       ∃ sec, CreateK8sResourceGroup.secrets g =
                Some (default [] (extra_secrets (args self)) ++ [sec])) ∧
    CreateK8sResourceGroup.pvs g = extra_pvs (args self) ≫= list_or_None ∧
    CreateK8sResourceGroup.pvcs g = extra_pvcs (args self) ≫= list_or_None ∧
    CreateK8sResourceGroup.storage_classes g =
      extra_storage_classes (args self) ≫= list_or_None ∧
    CreateK8sResourceGroup.custom_objects g =
      extra_custom_objects (args self) ≫= list_or_None ∧
    CreateK8sResourceGroup.crds g = extra_crds (args self) ≫= list_or_None.
Proof.
  intros (ctx & wrp & cp & -> & Hw & Hc & ->)%get_k8s_rg_built.
  exists (k8s_create_group X self ctx wrp cp).1.1.
  open_group.
  destruct (create_service (args self));
    cbn [fst snd CreateK8sResourceGroup.deployments CreateK8sResourceGroup.config_maps
         CreateK8sResourceGroup.secrets CreateK8sResourceGroup.pvs
         CreateK8sResourceGroup.pvcs CreateK8sResourceGroup.storage_classes
         CreateK8sResourceGroup.custom_objects CreateK8sResourceGroup.crds];
    rewrite !list_or_None_py_or, !py_or_list_default;
    eexists _, _; split_and!; try reflexivity; try (by rewrite list_or_None_snoc).
  all: try (intros ->; rewrite <- py_or_list_default; apply list_or_None_py_or).
  all: intros data ->; rewrite list_or_None_snoc; by eexists.
Qed.

(** X11: the primary container of a K8s build takes its environment from
    every ConfigMap and every Secret of the group, the caller's included, and
    it mounts exactly the volumes of the Deployment. *)
Theorem get_k8s_rg_primary_container (self : ServerBase.t) (c : BuildContext)
    (r : K8sResourceGroup) :
  (get_k8s_rg X self c).1.1 = Built r →
  ∃ g d spark others,
    r = create g ∧ generated_deployment g = Some d ∧
    CreateDeployment.containers d = spark :: others ∧
    CreateContainer.envs_from_configmap spark =
      (fun cms : list CreateConfigMap.t => CreateConfigMap.cm_name <$> cms) <$>
        CreateK8sResourceGroup.config_maps g ∧
    CreateContainer.envs_from_secret spark =
      (fun secs : list CreateSecret.t => CreateSecret.secret_name <$> secs) <$>
        CreateK8sResourceGroup.secrets g ∧
    CreateContainer.volumes spark = CreateDeployment.volumes d ∧
    CreateContainer.image_name spark = image_name (args self) ∧
    CreateContainer.image_tag spark = image_tag (args self) ∧
    CreateContainer.command spark = as_list (entrypoint (args self)) ∧
    CreateContainer.args spark = as_list (command (args self)).
Proof.
  intros (ctx & wrp & cp & -> & Hw & Hc & ->)%get_k8s_rg_built.
  exists (k8s_create_group X self ctx wrp cp).1.1.
  open_group. unfold generated_deployment, k8s_spark_container.
  destruct (create_service (args self));
    cbn [fst snd CreateK8sResourceGroup.deployments CreateK8sResourceGroup.config_maps
         CreateK8sResourceGroup.secrets];
    eexists _, _, _; (split_and!; [reflexivity|last_entry|reflexivity|..]);
    cbn [CreateContainer.envs_from_configmap CreateContainer.envs_from_secret
         CreateContainer.volumes CreateDeployment.volumes CreateContainer.image_name
         CreateContainer.image_tag CreateContainer.command CreateContainer.args];
    try done; apply names_or_None_fmap.
Qed.

(** X12: a K8s build leaves the app as it was when the eight lists it
    appends to are unset or empty, and the build context as it was when the
    context has no labels. *)
Theorem get_k8s_rg_frame_fresh (self : ServerBase.t) (c : BuildContext) :
  (origin_of truthy_list (extra_secrets (args self)) = FreshObject →
   origin_of truthy_list (extra_configmaps (args self)) = FreshObject →
   origin_of truthy_list (extra_services (args self)) = FreshObject →
   origin_of truthy_list (extra_deployments (args self)) = FreshObject →
   origin_of truthy_list (extra_containers (args self)) = FreshObject →
   origin_of truthy_list (extra_init_containers (args self)) = FreshObject →
   origin_of truthy_list (extra_ports (args self)) = FreshObject →
   origin_of truthy_list (extra_volumes (args self)) = FreshObject →
   (get_k8s_rg X self c).1.2 = self) ∧
  ((∀ ctx, c = K8sContext ctx →
      origin_of truthy_dict (K8sBuildContext.labels ctx) = FreshObject) →
   (get_k8s_rg X self c).2 = c).
Proof.
  unfold get_k8s_rg. destruct c as [| |ctx| |]; try done.
  destruct (PhidataApp.workspace_root_path (base self)) as [wrp|]; [|done].
  destruct (PhidataApp.get_container_paths (base self) None) as [cp|]; [|done].
  destruct (k8s_create_group X self ctx wrp cp) as [[g s'] c'] eqn:E.
  cbn [fst snd].
  assert (s' = (k8s_create_group X self ctx wrp cp).1.2) as -> by by rewrite E.
  assert (c' = (k8s_create_group X self ctx wrp cp).2) as -> by by rewrite E.
  clear E. split.
  - intros H1 H2 H3 H4 H5 H6 H7 H8. open_group.
    destruct (create_service (args self)); cbn [fst snd];
      rewrite H1, H2, H3, H4, H5, H6, H7, H8; cbn [store_back];
      destruct self as [b a]; by destruct a.
  - intros H. specialize (H ctx eq_refl). open_group.
    destruct (create_service (args self)); cbn [fst snd];
      repeat (rewrite H; cbn [store_back]); by destruct ctx.
Qed.

(** X13: no list of the group a K8s build assembles is empty: a kind of
    resource there is nothing of is [None]. *)
Theorem get_k8s_rg_no_empty_lists (self : ServerBase.t) (c : BuildContext)
    (r : K8sResourceGroup) :
  (get_k8s_rg X self c).1.1 = Built r →
  ∃ g, r = create g ∧
    CreateK8sResourceGroup.secrets g ≠ Some [] ∧
    CreateK8sResourceGroup.config_maps g ≠ Some [] ∧
    CreateK8sResourceGroup.storage_classes g ≠ Some [] ∧
    CreateK8sResourceGroup.services g ≠ Some [] ∧
    CreateK8sResourceGroup.deployments g ≠ Some [] ∧
    CreateK8sResourceGroup.custom_objects g ≠ Some [] ∧
    CreateK8sResourceGroup.crds g ≠ Some [] ∧
    CreateK8sResourceGroup.pvs g ≠ Some [] ∧
    CreateK8sResourceGroup.pvcs g ≠ Some [] ∧
    ∀ d, generated_deployment g = Some d →
         CreateDeployment.init_containers d ≠ Some [] ∧
         CreateDeployment.volumes d ≠ Some [].
Proof.
  intros (ctx & wrp & cp & -> & Hw & Hc & ->)%get_k8s_rg_built.
  exists (k8s_create_group X self ctx wrp cp).1.1.
  open_group. unfold generated_deployment.
  destruct (create_service (args self));
    cbn [fst snd CreateK8sResourceGroup.deployments CreateK8sResourceGroup.config_maps
         CreateK8sResourceGroup.secrets CreateK8sResourceGroup.pvs
         CreateK8sResourceGroup.pvcs CreateK8sResourceGroup.storage_classes
         CreateK8sResourceGroup.custom_objects CreateK8sResourceGroup.crds
         CreateK8sResourceGroup.services];
    (split_and!; [done|apply list_or_None_not_nil..|]);
    rewrite list_or_None_snoc; cbn [mbind option_bind]; rewrite last_snoc;
    intros d [= <-]; cbn [CreateDeployment.init_containers CreateDeployment.volumes];
    split; apply list_or_None_not_nil.
Qed.

(** X14: with the workspace mounted as [HostPath], the Deployment of a K8s
    build ends its volumes with a host-path volume from the workspace root on
    the host to the workspace root in the container, and generates no
    git-sync container whatever the git-sync options say; without
    [mount_workspace] the volumes and containers besides the primary one are
    the caller's. *)
Theorem get_k8s_rg_host_path (self : ServerBase.t) (c : BuildContext)
    (r : K8sResourceGroup) :
  (get_k8s_rg X self c).1.1 = Built r →
  ∃ g d spark wrp cp,
    r = create g ∧ generated_deployment g = Some d ∧
    PhidataApp.workspace_root_path (base self) = Some wrp ∧
    PhidataApp.get_container_paths (base self) None = Some cp ∧
    (mount_workspace (args self) = true →
     workspace_volume_type (args self) = Some HostPath →
       CreateDeployment.containers d = spark :: default [] (extra_containers (args self)) ∧
       CreateDeployment.init_containers d =
         extra_init_containers (args self) ≫= list_or_None ∧
       CreateDeployment.volumes d =
         Some (default [] (extra_volumes (args self)) ++
               [ {| CreateVolume.volume_name :=
                      default_workspace_volume_name X (args self) (stem wrp);
                    CreateVolume.app_name := name (args self);
                    CreateVolume.mount_path := workspace_root cp;
                    CreateVolume.volume_type := HOST_PATH;
                    CreateVolume.host_path :=
                      Some {| HostPathVolumeSource.path := path_str wrp |} |} ])) ∧
    (mount_workspace (args self) = false →
       CreateDeployment.containers d = spark :: default [] (extra_containers (args self)) ∧
       CreateDeployment.init_containers d =
         extra_init_containers (args self) ≫= list_or_None ∧
       CreateDeployment.volumes d = extra_volumes (args self) ≫= list_or_None).
Proof.
  intros (ctx & wrp & cp & -> & Hw & Hc & ->)%get_k8s_rg_built.
  destruct (k8s_create_group_deployment X self ctx wrp cp)
    as (d & spark & cms & secs & Hd & Hcts & Hinits & Hvols & _).
  eexists _, d, spark, wrp, cp. split_and!; try done.
  - intros Hm Ht. unfold k8s_workspace_volume in *. rewrite Hm, Ht in *.
    cbn [ws_volumes ws_containers ws_init_containers] in *.
    rewrite list_or_None_snoc in Hvols. rewrite list_or_None_py_or in Hinits.
    rewrite py_or_list_default in Hcts. rewrite py_or_list_default in Hvols. done.
  - intros Hm. unfold k8s_workspace_volume in *. rewrite Hm in *.
    cbn [ws_volumes ws_containers ws_init_containers] in *.
    rewrite list_or_None_py_or in Hvols. rewrite list_or_None_py_or in Hinits.
    rewrite py_or_list_default in Hcts. done.
Qed.

End K8sFurther.

(** ** The AWS builder, continued *)

Section AwsFurther.
Variable X : Externals.t.
Import ServerBase ServerBaseArgs.

Lemma vpc_ids_of_subnets_returns (v : option string) (subnets : list string)
    (s : gset (option string)) :
  vpc_ids_of_subnets X subnets {[ v ]} = Returns s →
  s = {[ v ]} ∧ ∀ subnet, subnet ∈ subnets → Externals.get_vpc_id X subnet = v.
Proof.
  intros H.
  destruct (decide (Forall (fun s => Externals.get_vpc_id X s = v) subnets)) as [F|F].
  - rewrite vpc_ids_of_subnets_same in H by by apply Forall_forall.
    injection H as <-. split; [done|]. by apply Forall_forall.
  - rewrite vpc_ids_of_subnets_other in H; [done|].
    apply not_Forall_Exists in F; [|apply _].
    apply Exists_exists in F as (s' & Hin & Hs). by exists s'.
Qed.

Lemma aws_vpc_id_returns (a : ServerBaseArgs.t) (v : option string) :
  aws_vpc_id X a = Returns v →
  ∃ subnets, aws_subnets a = Some subnets ∧ subnets ≠ [] ∧
             ∀ s, s ∈ subnets → Externals.get_vpc_id X s = v.
Proof.
  unfold aws_vpc_id. destruct (aws_subnets a) as [[|s subnets]|]; [| |done].
  - cbn [vpc_ids_of_subnets mbind call_bind]. unfold set_pop.
    by rewrite elements_empty.
  - cbn [vpc_ids_of_subnets]. rewrite (right_id_L ∅ (∪)), size_singleton.
    rewrite bool_decide_false by (intros ?; done).
    destruct (vpc_ids_of_subnets X subnets _) as [S|e] eqn:E; [|done].
    apply vpc_ids_of_subnets_returns in E as [-> Hall].
    cbn [mbind call_bind]. unfold set_pop. rewrite elements_singleton.
    intros [= <-]. exists (s :: subnets). split_and!; [done..|].
    intros s' [->|Hs']%elem_of_cons; [done|by apply Hall].
Qed.

(** X15: [get_aws_rg] returns [None] exactly when the workspace root is
    unset or the container paths cannot be built, and it returns a graph
    exactly when, besides, [aws_subnets] is a non-empty list whose subnets
    all lie in one VPC; in every other case it raises. *)
Theorem get_aws_rg_outcome (self : ServerBase.t) (c : BuildContext) :
  ((get_aws_rg X self c).1 = Absent ↔
   PhidataApp.workspace_root_path (base self) = None ∨
   PhidataApp.get_container_paths (base self) (Some false) = None) ∧
  ((∃ rg, (get_aws_rg X self c).1 = Built rg) ↔
   ∃ wrp cp subnets v,
     PhidataApp.workspace_root_path (base self) = Some wrp ∧
     PhidataApp.get_container_paths (base self) (Some false) = Some cp ∧
     aws_subnets (args self) = Some subnets ∧ subnets ≠ [] ∧
     ∀ s, s ∈ subnets → Externals.get_vpc_id X s = v).
Proof.
  split.
  - unfold get_aws_rg.
    destruct (PhidataApp.workspace_root_path (base self)) as [wrp|]; [|split; [by left|done]].
    destruct (PhidataApp.get_container_paths (base self) (Some false)) as [cp|];
      [|split; [by right|done]].
    destruct (aws_vpc_id X (args self)); cbn [fst]; (split; [done|by intros [|]]).
  - split.
    + intros [rg Hrg]. unfold get_aws_rg in Hrg.
      destruct (PhidataApp.workspace_root_path (base self)) as [wrp|]; [|done].
      destruct (PhidataApp.get_container_paths (base self) (Some false)) as [cp|]; [|done].
      destruct (aws_vpc_id X (args self)) as [v|e] eqn:E; [|done].
      apply aws_vpc_id_returns in E as (subnets & Hs & Hne & Hall).
      by exists wrp, cp, subnets, v.
    + intros (wrp & cp & subnets & v & Hw & Hc & Hs & Hne & Hall).
      destruct (get_aws_rg_builds X self c wrp cp v Hw Hc) as (rg & Hrg & _);
        [by eapply aws_vpc_id_same|]. by exists rg.
Qed.

(** X16: the graph of an AWS build is wired together: one cluster, task
    definition, service, load balancer, target group and listener each; the
    service runs the task definition on the cluster behind the target group
    and targets the one container by name and port; the listener forwards
    from the load balancer to the target group; a cluster or load balancer
    supplied by the caller is used as it is. *)
Theorem get_aws_rg_wiring (self : ServerBase.t) (c : BuildContext)
    (rg : AwsResourceGroup.t) :
  (get_aws_rg X self c).1 = Built rg →
  ∃ cluster td svc lb tg listener ct,
    AwsResourceGroup.ecs_clusters rg = [cluster] ∧
    AwsResourceGroup.ecs_task_definitions rg = [td] ∧
    AwsResourceGroup.ecs_services rg = [svc] ∧
    AwsResourceGroup.load_balancers rg = [lb] ∧
    AwsResourceGroup.target_groups rg = [tg] ∧
    AwsResourceGroup.listeners rg = [listener] ∧
    EcsTaskDefinition.containers td = [ct] ∧
    EcsService.cluster svc = cluster ∧
    EcsService.task_definition svc = td ∧
    EcsService.target_group svc = tg ∧
    EcsService.target_container_name svc = EcsContainer.name ct ∧
    EcsService.target_container_port svc = TargetGroup.port tg ∧
    EcsContainer.port_mappings ct = [PDict [("containerPort", PInt (TargetGroup.port tg))]] ∧
    Listener.load_balancer listener = lb ∧
    Listener.target_group listener = tg ∧
    EcsService.launch_type svc = ecs_launch_type (args self) ∧
    EcsTaskDefinition.requires_compatibilities td = [ecs_launch_type (args self)] ∧
    (∀ given, ecs_cluster (args self) = Some given → cluster = given) ∧
    (ecs_cluster (args self) = None →
       EcsCluster.capacity_providers cluster = [ecs_launch_type (args self)]) ∧
    (∀ given, elb (args self) = Some given → lb = given) ∧
    (elb (args self) = None →
       LoadBalancer.subnets lb = aws_subnets (args self) ∧
       LoadBalancer.security_groups lb = aws_security_groups (args self)).
Proof.
  unfold get_aws_rg.
  destruct (PhidataApp.workspace_root_path (base self)) as [wrp|]; [|done].
  destruct (PhidataApp.get_container_paths (base self) (Some false)) as [cp|]; [|done].
  destruct (aws_vpc_id X (args self)) as [v|e]; [|done].
  cbn [fst]. intros [= <-].
  eexists _, _, _, _, _, _, _. split_and!; try reflexivity.
  - by intros given ->.
  - by intros ->.
  - by intros given ->.
  - by intros ->.
Qed.

End AwsFurther.

(** ** Registering the groups *)

Lemma odict_get_set_eq {V} (k : string) (v : V) (d : OrderedDict V) :
  odict_get k (odict_set k v d) = Some v.
Proof.
  induction d as [|[k' v'] d IH]; simpl.
  - by rewrite decide_True.
  - destruct (decide (k' = k)) as [->|Hne]; simpl.
    + by rewrite decide_True.
    + by rewrite decide_False.
Qed.

Lemma odict_get_set_ne {V} (k k' : string) (v : V) (d : OrderedDict V) :
  k' ≠ k → odict_get k' (odict_set k v d) = odict_get k' d.
Proof.
  intros Hne. induction d as [|[k0 v0] d IH]; simpl.
  - by rewrite decide_False.
  - destruct (decide (k0 = k)) as [->|Hk]; simpl.
    + by rewrite !decide_False.
    + by rewrite IH.
Qed.

Lemma odict_keys_set {V} (k : string) (v : V) (d : OrderedDict V) :
  odict_keys (odict_set k v d) =
  if decide (k ∈ odict_keys d) then odict_keys d else odict_keys d ++ [k].
Proof.
  unfold odict_keys. induction d as [|[k0 v0] d IH].
  - destruct (decide (k ∈ fst <$> [])) as [Hin|Hin]; [|done].
    by apply elem_of_nil in Hin.
  - cbn [odict_set]. destruct (decide (k0 = k)) as [->|Hk].
    + destruct (decide (k ∈ fst <$> (k, v0) :: d)) as [Hin|Hin]; [done|].
      destruct Hin. by left.
    + rewrite fmap_cons, IH. cbn [fst].
      destruct (decide (k ∈ fst <$> d)) as [Hin|Hin];
        destruct (decide (k ∈ fst <$> (k0, v0) :: d)) as [Hin'|Hin']; try done.
      * destruct Hin'. by right.
      * apply elem_of_cons in Hin' as [->|?]; done.
Qed.

Lemma odict_set_set {V} (k : string) (v : V) (d : OrderedDict V) :
  odict_set k v (odict_set k v d) = odict_set k v d.
Proof.
  induction d as [|[k0 v0] d IH]; simpl.
  - by rewrite decide_True.
  - destruct (decide (k0 = k)) as [->|Hk]; simpl.
    + by rewrite decide_True.
    + by rewrite decide_False, IH.
Qed.

Lemma register_registered {G} (name : G -> string) (groups : option (OrderedDict G)) (rg : G) :
  registered (name rg) rg groups (ServerBaseInit.register name groups rg).
Proof.
  unfold ServerBaseInit.register, registered.
  eexists. split; [reflexivity|]. split_and!.
  - apply odict_get_set_eq.
  - intros k Hk. rewrite odict_get_set_ne by done. by destruct groups.
  - rewrite odict_keys_set. by destruct groups.
Qed.

Section InitProperties.
Variable X : Externals.t.
Variable k8s_rg_name : K8sResourceGroup -> string.
Import ServerBase ServerBaseArgs ServerBaseInit.

Lemma get_docker_rg_name (self : ServerBase.t) (c : BuildContext) (rg : DockerResourceGroup.t) :
  (get_docker_rg X self c).1 = Built rg → DockerResourceGroup.name rg = name (args self).
Proof.
  unfold get_docker_rg. destruct c as [|ctx| | |]; try done.
  destruct (PhidataApp.workspace_root_path (base self)) as [wrp|]; [|done].
  destruct (PhidataApp.get_container_paths (base self) None) as [cp|]; [|done].
  destruct (docker_container_volumes X self wrp cp _) as [vols|]; [|done].
  cbn [fst]. by intros [= <-].
Qed.

Lemma get_aws_rg_name (self : ServerBase.t) (c : BuildContext) (rg : AwsResourceGroup.t) :
  (get_aws_rg X self c).1 = Built rg → AwsResourceGroup.name rg = name (args self).
Proof.
  unfold get_aws_rg.
  destruct (PhidataApp.workspace_root_path (base self)) as [wrp|]; [|done].
  destruct (PhidataApp.get_container_paths (base self) (Some false)) as [cp|]; [|done].
  destruct (aws_vpc_id X (args self)) as [v|e]; [|done].
  cbn [fst]. by intros [= <-].
Qed.

(** X17: each [init_*_resource_groups] stores the group its builder returns
    under the group's name (the app's name for Docker and AWS): the
    registry is created if it was [None], an entry of that name keeps its
    place and takes the new group, a new name goes to the end, and every
    other entry stays.  When the builder returns [None] the registry is left
    as it is, [None] included. *)
Theorem init_resource_groups_register (self : ServerBase.t) (c : BuildContext) :
  (∀ groups,
     (∀ rg, (get_docker_rg X self c).1 = Built rg →
        registered (name (args self)) rg groups
          (init_docker_resource_groups X self groups c).2) ∧
     ((get_docker_rg X self c).1 = Absent →
        (init_docker_resource_groups X self groups c).2 = groups)) ∧
  (∀ groups,
     (∀ r, (get_k8s_rg X self c).1.1 = Built r →
        registered (k8s_rg_name r) r groups
          (init_k8s_resource_groups X k8s_rg_name self groups c).2) ∧
     ((get_k8s_rg X self c).1.1 = Absent →
        (init_k8s_resource_groups X k8s_rg_name self groups c).2 = groups)) ∧
  (∀ groups,
     (∀ rg, (get_aws_rg X self c).1 = Built rg →
        registered (name (args self)) rg groups
          (init_aws_resource_groups X self groups c).2) ∧
     ((get_aws_rg X self c).1 = Absent →
        (init_aws_resource_groups X self groups c).2 = groups)).
Proof.
  split_and!; intros groups; split.
  - intros rg H. rewrite <- (get_docker_rg_name self c rg H).
    unfold init_docker_resource_groups.
    destruct (get_docker_rg X self c) as [o s']. cbn [fst] in H. subst o. cbn [snd].
    apply register_registered.
  - intros H. unfold init_docker_resource_groups.
    destruct (get_docker_rg X self c) as [o s']. cbn [fst] in H. by subst o.
  - intros r H. unfold init_k8s_resource_groups.
    destruct (get_k8s_rg X self c) as [[o s'] c']. cbn [fst] in H. subst o. cbn [snd].
    apply register_registered.
  - intros H. unfold init_k8s_resource_groups.
    destruct (get_k8s_rg X self c) as [[o s'] c']. cbn [fst] in H. by subst o.
  - intros rg H. rewrite <- (get_aws_rg_name self c rg H).
    unfold init_aws_resource_groups.
    destruct (get_aws_rg X self c) as [o s']. cbn [fst] in H. subst o. cbn [snd].
    apply register_registered.
  - intros H. unfold init_aws_resource_groups.
    destruct (get_aws_rg X self c) as [o s']. cbn [fst] in H. by subst o.
Qed.

(** X19: registering the Docker group twice is registering it once: a second
    [init_docker_resource_groups] leaves the app and the registry as the
    first call left them. *)
Theorem init_docker_resource_groups_idempotent (self : ServerBase.t)
    (groups : option (OrderedDict DockerResourceGroup.t)) (c : BuildContext) :
  init_docker_resource_groups X
    (init_docker_resource_groups X self groups c).1.2
    (init_docker_resource_groups X self groups c).2 c =
  init_docker_resource_groups X self groups c.
Proof.
  pose proof (get_docker_rg_again X self c) as H.
  unfold init_docker_resource_groups.
  destruct (get_docker_rg X self c) as [[rg| |e] s']; cbn [fst snd] in *;
    rewrite H; [|done..].
  unfold register. by rewrite odict_set_set.
Qed.

End InitProperties.

(** ** Further runs on the sample configurations *)

Section FurtherRuns.
Import ServerBase ServerBaseArgs Samples.

Lemma get_docker_rg_workspace_mount_witness :
  ∃ ct vols,
    DockerContainer.volumes ct = Some vols ∧
    vols !! "/home/me/ws" =
      Some (PDict [("bind", PStr "/usr/local/server/ws"); ("mode", PStr "rw")]).
Proof.
  destruct (get_docker_rg_workspace_mount externals (app docker_mount_args) docker_context _
              eq_refl eq_refl)
    as (ct & vols & wrp & cp & key & _ & Hv & Hw & Hc & -> & Hk & _).
  injection Hw as <-. injection Hc as <-. by exists ct, vols.
Defined.

Lemma get_docker_rg_no_empty_maps_witness :
  ∃ ct, DockerContainer.name ct = "server-container" ∧
        DockerContainer.ports ct ≠ Some ∅ ∧ DockerContainer.volumes ct ≠ Some ∅.
Proof.
  eexists. split; [|apply (get_docker_rg_no_empty_maps externals (app docker_ports_args)
                            docker_context _ _ eq_refl); by left].
  reflexivity.
Defined.

Lemma get_docker_rg_frame_fresh_witness :
  (get_docker_rg externals (app docker_mount_args) docker_context).2 = app docker_mount_args.
Proof.
  exact (get_docker_rg_frame_fresh externals (app docker_mount_args) docker_context
           eq_refl eq_refl).
Defined.

Lemma get_k8s_rg_rbac_witness :
  ∃ g ns sa cr crb,
    (get_k8s_rg externals (app rbac_service_args) k8s_context).1.1 = Built (create g) ∧
    CreateK8sResourceGroup.ns g = Some ns ∧ CreateNamespace.ns ns = "default" ∧
    CreateK8sResourceGroup.sa g = Some sa ∧ CreateServiceAccount.sa_name sa = "server-sa" ∧
    CreateK8sResourceGroup.cr g = Some cr ∧
    CreateK8sResourceGroup.crb g = Some crb ∧
    CreateClusterRoleBinding.cr_name crb = CreateClusterRole.cr_name cr ∧
    CreateClusterRoleBinding.service_account_name crb = "server-sa" ∧
    CreateClusterRoleBinding.namespace crb = "default".
Proof.
  destruct (get_k8s_rg_rbac externals (app rbac_service_args) k8s_context _ eq_refl eq_refl)
    as (g & ns & sa & cr & crb & d & Hr & Hns & Hsa & Hcr & Hcrb & _ & _ & _ & _ & _ & Hb).
  destruct (Hb eq_refl) as (B1 & B2 & B3).
  injection Hr as <-. injection Hns as <-. injection Hsa as <-.
  eexists _, _, _, cr, crb. split_and!; try reflexivity; done.
Defined.

Lemma get_k8s_rg_one_namespace_witness :
  ∃ g d cm svc,
    (get_k8s_rg externals (app rbac_service_args) k8s_context).1.1 = Built (create g) ∧
    generated_deployment g = Some d ∧ generated_configmap g = Some cm ∧
    CreateK8sResourceGroup.services g ≫= last = Some svc ∧
    CreateConfigMap.namespace cm = CreateDeployment.namespace d ∧
    CreateService.namespace svc = CreateDeployment.namespace d.
Proof.
  destruct (get_k8s_rg_one_namespace externals (app rbac_service_args) k8s_context _ eq_refl)
    as (g & d & cm & Hr & Hd & Hcm & Hn & _ & Hsvc).
  destruct (Hsvc eq_refl) as (svc & Hs & Hsn & _).
  exists g, d, cm, svc. split_and!; [by rewrite <- Hr|done..].
Defined.

Lemma get_k8s_rg_ports_and_service_witness :
  ∃ g d spark others svc,
    (get_k8s_rg externals (app rbac_service_args) k8s_context).1.1 = Built (create g) ∧
    generated_deployment g = Some d ∧
    CreateDeployment.containers d = spark :: others ∧
    CreateContainer.ports spark =
      Some [ {| CreatePort.name := "http"; CreatePort.container_port := 8080;
                CreatePort.service_port := 8000; CreatePort.target_port := IsStr "http" |} ] ∧
    CreateK8sResourceGroup.services g = Some [svc] ∧
    CreateService.deployment svc = d ∧
    CreateService.ports svc = CreateContainer.ports spark.
Proof.
  destruct (get_k8s_rg_ports_and_service externals (app rbac_service_args) k8s_context _
              eq_refl)
    as (g & d & spark & others & Hr & Hd & Hc & Hopen & _ & Hsvc & _).
  destruct (Hsvc eq_refl) as (svc & Hs & Hsd & Hsp & _).
  exists g, d, spark, others, svc.
  split_and!; [by rewrite <- Hr|done|done|exact (Hopen eq_refl)|exact Hs|done|done].
Defined.

Lemma get_k8s_rg_git_sync_witness :
  ∃ g d spark sidecar init env,
    (get_k8s_rg externals (app git_sync_args) k8s_context).1.1 = Built (create g) ∧
    generated_deployment g = Some d ∧
    CreateDeployment.containers d = [spark; sidecar] ∧
    CreateDeployment.init_containers d = Some [init] ∧
    CreateContainer.container_name sidecar = "git-sync" ∧
    CreateContainer.container_name init = "git-sync-init" ∧
    CreateContainer.env sidecar = Some env ∧
    env !! "GIT_SYNC_REPO" = Some (PStr "https://github.com/me/ws.git") ∧
    env !! "GIT_SYNC_DEST" = Some (PStr "ws") ∧
    env !! "GIT_SYNC_WAIT" = Some (PStr "1").
Proof.
  destruct (get_k8s_rg_git_sync externals (app git_sync_args) k8s_context _ _
              eq_refl (or_introl eq_refl) eq_refl eq_refl eq_refl)
    as (g & d & spark & sidecar & v & env & wrp & cp & Hr & Hd & Hw & Hc & Hcts & _ & _ & _ &
        Hn & _ & _ & _ & Henv & E1 & _ & E3 & _ & E5 & _ & Hinit).
  destruct (Hinit eq_refl) as (init & ienv & Hi & Hin & _).
  injection Hw as <-.
  exists g, d, spark, sidecar, init, env.
  split_and!; [by rewrite <- Hr|done..].
Defined.

Lemma get_k8s_rg_extras_witness :
  ∃ g cm d,
    (get_k8s_rg externals (app k8s_env_args) k8s_context).1.1 = Built (create g) ∧
    CreateK8sResourceGroup.config_maps g = Some [user_configmap; cm] ∧
    CreateK8sResourceGroup.deployments g = Some [d] ∧
    CreateK8sResourceGroup.secrets g = None ∧
    CreateK8sResourceGroup.pvs g = None.
Proof.
  destruct (get_k8s_rg_extras externals (app k8s_env_args) k8s_context _ eq_refl)
    as (g & cm & d & Hr & Hcm & Hd & Hsec & _ & Hpv & _).
  exists g, cm, d. split_and!; [by rewrite <- Hr|done|done|exact (Hsec eq_refl)|done].
Defined.

Lemma get_k8s_rg_primary_container_witness :
  ∃ g d spark others,
    (get_k8s_rg externals (app k8s_env_args) k8s_context).1.1 = Built (create g) ∧
    generated_deployment g = Some d ∧
    CreateDeployment.containers d = spark :: others ∧
    CreateContainer.envs_from_configmap spark = Some ["shared-cm"; "server-cm"] ∧
    CreateContainer.envs_from_secret spark = None.
Proof.
  destruct (get_k8s_rg_primary_container externals (app k8s_env_args) k8s_context _ eq_refl)
    as (g & d & spark & others & Hr & Hd & Hc & Hcm & Hsec & _).
  injection Hr as <-.
  by eexists _, d, spark, others.
Defined.

Lemma get_k8s_rg_no_empty_lists_witness :
  ∃ g, (get_k8s_rg externals (app ServerBaseArgs.defaults) k8s_context).1.1 =
         Built (create g) ∧
       CreateK8sResourceGroup.secrets g ≠ Some [] ∧
       CreateK8sResourceGroup.services g ≠ Some [].
Proof.
  destruct (get_k8s_rg_no_empty_lists externals (app ServerBaseArgs.defaults) k8s_context _
              eq_refl)
    as (g & Hr & H1 & _ & _ & H4 & _).
  exists g. split_and!; [by rewrite <- Hr|done..].
Defined.

Lemma get_k8s_rg_host_path_witness :
  ∃ g d v,
    (get_k8s_rg externals (app docker_mount_args) k8s_context).1.1 = Built (create g) ∧
    generated_deployment g = Some d ∧
    CreateDeployment.volumes d = Some [v] ∧
    CreateVolume.volume_type v = HOST_PATH ∧
    CreateVolume.host_path v = Some {| HostPathVolumeSource.path := "/home/me/ws" |} ∧
    CreateVolume.mount_path v = "/usr/local/server/ws".
Proof.
  destruct (get_k8s_rg_host_path externals (app docker_mount_args) k8s_context _ eq_refl)
    as (g & d & spark & wrp & cp & Hr & Hd & Hw & Hc & Hhost & _).
  destruct (Hhost eq_refl eq_refl) as (_ & _ & Hv).
  injection Hw as <-. injection Hc as <-.
  eexists g, d, _. split_and!; [by rewrite <- Hr|done|exact Hv|done..].
Defined.

Lemma get_aws_rg_wiring_witness :
  ∃ rg svc tg listener,
    (get_aws_rg externals (app (aws_args (Some ["subnet-a"]))) AwsContext).1 = Built rg ∧
    AwsResourceGroup.ecs_services rg = [svc] ∧
    AwsResourceGroup.target_groups rg = [tg] ∧
    AwsResourceGroup.listeners rg = [listener] ∧
    EcsService.target_group svc = tg ∧
    Listener.target_group listener = tg ∧
    EcsService.target_container_port svc = TargetGroup.port tg.
Proof.
  eexists.
  destruct (get_aws_rg_wiring externals (app (aws_args (Some ["subnet-a"]))) AwsContext _
              eq_refl)
    as (cluster & td & svc & lb & tg & listener & ct & _ & _ & Hs & _ & Ht & Hl & _ & _ & _ &
        Hst & _ & Hp & _ & _ & Hlt & _).
  by exists svc, tg, listener.
Defined.

End FurtherRuns.
